(** * Mock-data generation of the employee management API

    A shallow embedding of [routers/generate_data.py] (the endpoint
    [POST /generate/mock_data]) together with the parts of [schemas.py] and
    [models.py] it runs through, and the properties of the reset-and-generate
    pipeline proved over it.

    Python values are kept as the code has them: [int] is [Z], [float] is the
    kernel's binary64 [float], [str] is [string], [date] is a day number in
    [Z], a list is a [list].  A request runs in the monad [M]: it threads the
    SQLAlchemy session and the entropy that [random] and [Faker] draw from,
    and it can raise. *)

From Stdlib Require Import ZArith List String Ascii Bool Lia Permutation.
From Stdlib Require Import Floats DecimalString FinFun.
Import ListNotations.

Set Implicit Arguments.
Set Warnings "-inexact-float".
Open Scope Z_scope.

(* ================================================================== *)
(** ** Python values *)

(** [len(x)] *)
Definition len {A} (x : list A) : Z := Z.of_nat (List.length x).

(** [range(start, stop)] *)
Definition range (start stop : Z) : list Z :=
  map (fun i => start + Z.of_nat i) (seq 0 (Z.to_nat (stop - start))).

(** [str(n)] of an [int] *)
Definition str_int (n : Z) : string := NilZero.string_of_int (Z.to_int n).

(** [seq[i]]: [None] stands for the [IndexError] of an index out of range
    (negative indices do not occur in the code). *)
Definition item {A} (x : list A) (i : Z) : option A :=
  if i <? 0 then None else nth_error x (Z.to_nat i).

(** [x[i] = v] on a list, for [i] in range. *)
Fixpoint setitem {A} (x : list A) (i : nat) (v : A) : list A :=
  match x, i with
  | [], _ => []
  | _ :: r, O => v :: r
  | a :: r, S i' => a :: setitem r i' v
  end.

(** A [datetime.date] is its proleptic ordinal; [timedelta(days=n)] is [n]. *)
Definition date := Z.

(** [round(x, 2)] on a [float]: the exact binary value of [x] is rounded to
    two decimals, ties to even, and the decimal is read back as the nearest
    double (as CPython does through dtoa and strtod). *)
Definition round_half_even (a b : Z) : Z :=
  let q := a / b in
  match 2 * (a mod b) ?= b with
  | Lt => q
  | Gt => q + 1
  | Eq => if Z.even q then q else q + 1
  end.

Definition round2 (x : float) : float :=
  match Prim2SF x with
  | S754_finite s m e =>
      let hundredths :=
        if 0 <=? e then Z.pos m * 100 * 2 ^ e
        else round_half_even (Z.pos m * 100) (2 ^ (- e)) in
      match hundredths with
      | Zpos p =>
          SF2Prim (SFdiv prec emax (S754_finite s p 0) (S754_finite false 100 0))
      | _ => if s then (-0)%float else 0%float
      end
  | _ => x
  end.

(** An [int] as a [float] (exact below 2^53, which covers every use here). *)
Definition float_of_int (n : Z) : float :=
  match n with
  | Z0 => 0%float
  | Zpos p => SF2Prim (binary_normalize prec emax (Z.pos p) 0 false)
  | Zneg p => SF2Prim (binary_normalize prec emax (Z.pos p) 0 true)
  end.

(* ================================================================== *)
(** ** Exceptions and results *)

Inductive Exception : Type :=
| ValueError (msg : string)
| IndexError (msg : string)
| ValidationError (model : string) (fields : list string)
    (** pydantic: the model and the fields it refused *)
| HTTPException (status_code : Z) (detail : Exception)
    (** [detail] is the text "Data generation failed: " followed by [str(e)];
        it is kept as the exception [e] it is built from. *).

Inductive Result (A : Type) : Type :=
| Ok (a : A)
| Raise (e : Exception).
Arguments Ok {A} a.
Arguments Raise {A} e.

Definition is_ok {A} (r : Result A) : bool :=
  match r with Ok _ => true | Raise _ => false end.

(* ================================================================== *)
(** ** schemas.py: enums *)

Inductive DepartmentName := HR | ENGINEERING | MARKETING | FINANCE | SALES.
Inductive ProjectStatus := PLANNING | ACTIVE | COMPLETED | ON_HOLD.
Inductive PaymentMethod := BANK_TRANSFER | CHECK | DIRECT_DEPOSIT.

(** [list(DepartmentName)], in definition order *)
Definition all_DepartmentName : list DepartmentName :=
  [HR; ENGINEERING; MARKETING; FINANCE; SALES].
Definition all_ProjectStatus : list ProjectStatus :=
  [PLANNING; ACTIVE; COMPLETED; ON_HOLD].
Definition all_PaymentMethod : list PaymentMethod :=
  [BANK_TRANSFER; CHECK; DIRECT_DEPOSIT].

(** The [str] value of a member *)
Definition DepartmentName_value (n : DepartmentName) : string :=
  match n with
  | HR => "HR"
  | ENGINEERING => "Engineering"
  | MARKETING => "Marketing"
  | FINANCE => "Finance"
  | SALES => "Sales"
  end.

(** [DepartmentName(v)]: the member whose value is [v], if any.  This is how
    pydantic reads a field declared [name: DepartmentName]. *)
Definition DepartmentName_of_value (v : string) : option DepartmentName :=
  find (fun n => String.eqb (DepartmentName_value n) v) all_DepartmentName.

(* ================================================================== *)
(** ** schemas.py: the Create models

    A model's constructor evaluates its keyword arguments, validates every
    field and raises one [ValidationError] naming the fields it refused. *)

Definition refused (ok : bool) (field : string) : list string :=
  if ok then [] else [field].

Module DepartmentCreate.
Record t := make {
  name : DepartmentName;
  location : string;
  budget : float;
  head_of_department : string;
  established_date : date;
  employee_count : Z }.
End DepartmentCreate.

(** [DepartmentCreate(name=..., ...)]: [name: DepartmentName], [budget] with
    [gt=0], [employee_count] with [ge=0]. *)
Definition DepartmentCreate (name location : string) (budget : float)
    (head_of_department : string) (established_date : date)
    (employee_count : Z) : Result DepartmentCreate.t :=
  let errors :=
    refused (match DepartmentName_of_value name with Some _ => true | None => false end)
      "name"
    ++ refused (0 <? budget)%float "budget"
    ++ refused (0 <=? employee_count) "employee_count" in
  match DepartmentName_of_value name, errors with
  | Some n, [] =>
      Ok (DepartmentCreate.make n location budget head_of_department
            established_date employee_count)
  | _, _ => Raise (ValidationError "DepartmentCreate" errors)
  end.

Module EmployeeCreate.
Record t := make {
  first_name : string;
  last_name : string;
  email : string;
  phone : string;
  hire_date : date;
  job_title : string;
  department_id : option Z }.
End EmployeeCreate.

(** The [phone] pattern [^\+?[\d\s-]{10,15}$] on ASCII text. *)
Definition phone_char (c : ascii) : bool :=
  let n := nat_of_ascii c in
  ((48 <=? n) && (n <=? 57))%nat          (* \d *)
  || ((9 <=? n) && (n <=? 13))%nat || (n =? 32)%nat   (* \s *)
  || (n =? 45)%nat.                       (* - *)

Definition phone_pattern (s : string) : bool :=
  let body :=
    match s with
    | String "+" r => r
    | _ => s
    end in
  forallb phone_char (list_ascii_of_string body)
  && (10 <=? String.length body)%nat && (String.length body <=? 15)%nat.

(** [EmployeeBase.validate_hire_date]: "Hire date cannot be in the future". *)
Definition validate_hire_date (today v : date) : bool := negb (today <? v).

(** [EmployeeCreate(first_name=..., ...)].  [EmailStr] is checked by the
    email-validator package, passed here as [email_str]. *)
Definition EmployeeCreate (email_str : string -> bool) (today : date)
    (first_name last_name email phone : string) (hire_date : date)
    (job_title : string) (department_id : option Z)
    : Result EmployeeCreate.t :=
  let errors :=
    refused ((2 <=? String.length first_name)
             && (String.length first_name <=? 50))%nat "first_name"
    ++ refused ((2 <=? String.length last_name)
                && (String.length last_name <=? 50))%nat "last_name"
    ++ refused (email_str email) "email"
    ++ refused (phone_pattern phone) "phone"
    ++ refused (validate_hire_date today hire_date) "hire_date" in
  match errors with
  | [] =>
      Ok (EmployeeCreate.make first_name last_name email phone hire_date
            job_title department_id)
  | _ => Raise (ValidationError "EmployeeCreate" errors)
  end.

Module ProjectCreate.
Record t := make {
  name : string;
  description : option string;
  start_date : date;
  end_date : option date;
  budget : float;
  status : ProjectStatus;
  department_id : Z }.
End ProjectCreate.

(** [ProjectBase.validate_end_date]: "End date must be after start date". *)
Definition validate_end_date (start_date v : date) : bool :=
  negb (v <? start_date).

Definition ProjectCreate (name description : string)
    (start_date end_date : date) (budget : float) (status : ProjectStatus)
    (department_id : Z) : Result ProjectCreate.t :=
  let errors :=
    refused (String.length name <=? 100)%nat "name"
    ++ refused (String.length description <=? 500)%nat "description"
    ++ refused (validate_end_date start_date end_date) "end_date"
    ++ refused (0 <? budget)%float "budget" in
  match errors with
  | [] =>
      Ok (ProjectCreate.make name (Some description) start_date
            (Some end_date) budget status department_id)
  | _ => Raise (ValidationError "ProjectCreate" errors)
  end.

Module SalaryCreate.
Record t := make {
  employee_id : Z;
  amount : float;
  payment_date : date;
  tax_deduction : float;
  bonus : float;
  payment_method : PaymentMethod }.
End SalaryCreate.

(** [SalaryCreate(...)]: [amount] with [gt=0], [tax_deduction] and [bonus]
    with [ge=0]. *)
Definition SalaryCreate (employee_id : Z) (amount : float)
    (payment_date : date) (tax_deduction bonus : float)
    (payment_method : PaymentMethod) : Result SalaryCreate.t :=
  let errors :=
    refused (0 <? amount)%float "amount"
    ++ refused (0 <=? tax_deduction)%float "tax_deduction"
    ++ refused (0 <=? bonus)%float "bonus" in
  match errors with
  | [] =>
      Ok (SalaryCreate.make employee_id amount payment_date tax_deduction
            bonus payment_method)
  | _ => Raise (ValidationError "SalaryCreate" errors)
  end.

(* ================================================================== *)
(** ** models.py: the mapped classes and the session

    A mapped object is the row it is stored as.  A mapped class built from
    [model_dump()] copies the validated fields; the primary key is the
    database's. *)

Module Department.
Record t := make {
  id : Z;
  name : string;
  location : string;
  budget : float;
  head_of_department : string;
  established_date : date;
  employee_count : Z }.
End Department.

Module Employee.
Record t := make {
  id : Z;
  first_name : string;
  last_name : string;
  email : string;
  phone : string;
  hire_date : date;
  job_title : string;
  department_id : option Z }.
End Employee.

Module Project.
Record t := make {
  id : Z;
  name : string;
  description : option string;
  start_date : date;
  end_date : option date;
  budget : float;
  status : ProjectStatus;
  department_id : Z }.
End Project.

Module Salary.
Record t := make {
  id : Z;
  employee_id : Z;
  amount : float;
  payment_date : date;
  tax_deduction : float;
  bonus : float;
  payment_method : PaymentMethod }.
End Salary.

Module ProjectEmployee.
Record t := make {
  employee_id : Z;
  project_id : Z;
  role : string;
  join_date : date }.
End ProjectEmployee.

Record Tables := mkTables {
  departments : list Department.t;
  employees : list Employee.t;
  projects : list Project.t;
  salaries : list Salary.t;
  project_employees : list ProjectEmployee.t }.

Definition no_rows : Tables := mkTables [] [] [] [] [].

(** The session of one request: [stored] is what is committed, what every
    other reader sees; [working] is the transaction's view, with the writes
    not yet committed.  A commit writes the transaction as it is: the unique
    columns and the keys of [models.py] are not checked by it (the generator
    writes a department name, an email and an assignment pair once each). *)
Record Session := mkSession {
  stored : Tables;
  working : Tables }.

(** The key the database gives a new row: one more than the largest key of
    the table (an [Integer] primary key, as SQLite allocates it; the engine is
    configured in [database.py], which is not among the sources). *)
Definition next_id (ids : list Z) : Z := 1 + fold_right Z.max 0 ids.

(** [s.title()] on ASCII text: a letter after a letter is lowered, any other
    letter is raised. *)
Definition is_upper (c : ascii) : bool :=
  ((65 <=? nat_of_ascii c) && (nat_of_ascii c <=? 90))%nat.
Definition is_lower (c : ascii) : bool :=
  ((97 <=? nat_of_ascii c) && (nat_of_ascii c <=? 122))%nat.

Fixpoint title_from (previous_is_cased : bool) (s : string) : string :=
  match s with
  | EmptyString => EmptyString
  | String c r =>
      let c' :=
        if previous_is_cased
        then (if is_upper c then ascii_of_nat (nat_of_ascii c + 32) else c)
        else (if is_lower c then ascii_of_nat (nat_of_ascii c - 32) else c) in
      String c' (title_from (is_upper c || is_lower c) r)
  end.
Definition title (s : string) : string := title_from false s.

(** Constants for realistic data generation *)
Definition JOB_TITLES : list string :=
  ["Software Engineer"; "HR Manager"; "Marketing Specialist";
   "Financial Analyst"; "Sales Executive"; "Product Manager"]%string.

(** The payload of a successful request. *)
Record Stats := mkStats {
  stats_departments : Z;
  stats_employees : Z;
  stats_projects : Z;
  stats_salaries : Z }.

Record Response := mkResponse {
  message : string;
  stats : Stats }.

(* ================================================================== *)
(** ** What a request takes from outside the repository *)

(** Faker's word providers used by the generator. *)
Inductive Provider :=
| city | state_abbr | name | first_name | last_name | unique_email
| color_name | sentence (nb_words : Z).

(** The runtime of one request, over the state [G] of its entropy:
    - [randbelow n] is [Random._randbelow(n)], the draw below [n] that every
      integer function of [random] is written with (Faker draws through its
      own [Random]; the two generators are one state here, threaded in
      program order);
    - [sample_indices n k] is the choice of positions inside
      [random.sample]: [k] pairwise distinct positions of a population of
      [n] (CPython picks them from a pool, or by rejection on a set when the
      population is above 21);
    - [fake_text] are Faker's word lists ([unique_email] is
      [fake.unique.email()]; that it gives up after a thousand repeated
      draws is left out);
    - [email_str] is the [EmailStr] check of email-validator;
    - [format_member] is how an f-string renders a member of
      [DepartmentName]: its value up to Python 3.10, the class and member
      name from Python 3.11 on;
    - [today] is [date.today()], one value during the request. *)
Class Runtime (G : Type) := {
  randbelow : Z -> G -> Z * G;
  sample_indices : Z -> Z -> G -> list Z * G;
  fake_text : Provider -> G -> string * G;
  email_str : string -> bool;
  format_member : DepartmentName -> string;
  today : date }.

(** What the code relies on from [random]: a draw below [n] is in
    [0, n), and a sample's positions are [k] distinct positions of the
    population. *)
Class RuntimeLaws {G : Type} (RT : Runtime G) : Prop := {
  randbelow_range : forall n g, 0 < n -> 0 <= fst (randbelow n g) < n;
  sample_indices_spec : forall n k g, 0 <= k <= n ->
    len (fst (sample_indices n k g)) = k
    /\ NoDup (fst (sample_indices n k g))
    /\ Forall (fun j => 0 <= j < n) (fst (sample_indices n k g)) }.

Section Generator.

Context {G : Type} {RT : Runtime G}.

(* ------------------------------------------------------------------ *)
(** *** The request monad *)

Record World := mkWorld {
  db : Session;
  entropy : G }.

Definition M (A : Type) : Type := World -> Result A * World.

Definition ret {A} (a : A) : M A := fun w => (Ok a, w).

Definition bind {A B} (m : M A) (k : A -> M B) : M B :=
  fun w =>
    match m w with
    | (Ok a, w') => k a w'
    | (Raise e, w') => (Raise e, w')
    end.

Definition raise {A} (e : Exception) : M A := fun w => (Raise e, w).

(** [try: m  except Exception as e: handler e] *)
Definition try_except {A} (m : M A) (handler : Exception -> M A) : M A :=
  fun w =>
    match m w with
    | (Ok a, w') => (Ok a, w')
    | (Raise e, w') => handler e w'
    end.

(** A value that may be an exception, such as a model constructor's. *)
Definition lift {A} (r : Result A) : M A := fun w => (r, w).

Notation "x <- m ;; k" := (bind m (fun x => k))
  (at level 61, m at next level, right associativity).
Notation "m ;; k" := (bind m (fun _ => k))
  (at level 61, right associativity).

(** [for x in xs: ys.append(body x)] *)
Fixpoint for_each {A B} (xs : list A) (body : A -> M B) : M (list B) :=
  match xs with
  | [] => ret []
  | x :: r => y <- body x ;; ys <- for_each r body ;; ret (y :: ys)
  end.

(** [for x in xs: body x] *)
Definition for_ {A} (xs : list A) (body : A -> M unit) : M unit :=
  for_each xs body ;; ret tt.

(** One draw from the entropy. *)
Definition draw {A} (f : G -> A * G) : M A :=
  fun w => let (a, g) := f (entropy w) in (Ok a, mkWorld (db w) g).

(** [x[i]] *)
Definition getitem {A} (x : list A) (i : Z) : M A :=
  match item x i with
  | Some a => ret a
  | None => raise (IndexError "list index out of range")
  end.

(* ------------------------------------------------------------------ *)
(** *** The [random] module *)

Definition _randbelow (n : Z) : M Z := draw (randbelow n).

(** [random.random()]: 53 random bits scaled into [0, 1). *)
Definition random : M float :=
  n <- _randbelow (2 ^ 53) ;;
  ret (float_of_int n / float_of_int (2 ^ 53))%float.

(** [random.uniform(a, b)] is [a + (b - a) * random()]. *)
Definition uniform (a b : float) : M float :=
  r <- random ;; ret (a + (b - a) * r)%float.

(** [random.randrange(start, stop)] *)
Definition randrange (start stop : Z) : M Z :=
  let width := stop - start in
  if 0 <? width then v <- _randbelow width ;; ret (start + v)
  else raise (ValueError "empty range for randrange()").

(** [random.randint(a, b)] is [randrange(a, b + 1)]. *)
Definition randint (a b : Z) : M Z := randrange a (b + 1).

(** [random.choice(seq)] *)
Definition choice {A} (seq : list A) : M A :=
  if len seq =? 0 then raise (IndexError "Cannot choose from an empty sequence")
  else i <- _randbelow (len seq) ;; getitem seq i.

(** [x[i], x[j] = x[j], x[i]] *)
Definition swap_items {A} (x : list A) (i j : nat) : M (list A) :=
  match nth_error x i, nth_error x j with
  | Some a, Some b => ret (setitem (setitem x i b) j a)
  | _, _ => raise (IndexError "list index out of range")
  end.

(** [random.shuffle(x)]:
    [for i in reversed(range(1, len(x))): j = randbelow(i + 1); swap] *)
Fixpoint shuffle_down {A} (i : nat) (x : list A) : M (list A) :=
  match i with
  | O => ret x
  | S i' =>
      j <- _randbelow (Z.of_nat i + 1) ;;
      x' <- swap_items x i (Z.to_nat j) ;;
      shuffle_down i' x'
  end.
Definition shuffle {A} (x : list A) : M (list A) :=
  shuffle_down (List.length x - 1) x.

(** [random.sample(population, k)] *)
Definition sample {A} (population : list A) (k : Z) : M (list A) :=
  let n := len population in
  if (0 <=? k) && (k <=? n) then
    positions <- draw (sample_indices n k) ;;
    for_each positions (getitem population)
  else raise (ValueError "Sample larger than population or is negative").

(* ------------------------------------------------------------------ *)
(** *** Faker *)

Definition fake (p : Provider) : M string := draw (fake_text p).

(** [fake.date_between(start_date, end_date)] on two dates: a day of the
    closed interval; Faker raises on an interval that ends before it starts. *)
Definition date_between (start_date end_date : date) : M date :=
  if end_date <? start_date then raise (ValueError "empty range")
  else v <- _randbelow (end_date - start_date + 1) ;; ret (start_date + v).

(** Faker's relative dates: ["Ny"] is [N * 365.24] days from today, and
    ["Nm"] is [N] minutes from now (months are written ["NM"]); added to a
    date, the [timedelta] counts by its whole days (its floor), so that six
    minutes more leave the date at today. *)
Definition minus_5y : date := today - 1827.
Definition minus_1y : date := today - 366.
Definition plus_6m : date := today.

(* ------------------------------------------------------------------ *)
(** *** The session *)

Definition on_working (f : Tables -> Tables) : M unit :=
  fun w =>
    (Ok tt, mkWorld (mkSession (stored (db w)) (f (working (db w)))) (entropy w)).

(** [db.commit()] *)
Definition db_commit : M unit :=
  fun w =>
    (Ok tt, mkWorld (mkSession (working (db w)) (working (db w))) (entropy w)).

(** [db.rollback()] *)
Definition db_rollback : M unit :=
  fun w =>
    (Ok tt, mkWorld (mkSession (stored (db w)) (stored (db w))) (entropy w)).

(** [db.query(X).delete()], per mapped class *)
Definition delete_ProjectEmployee : M unit :=
  on_working (fun t => mkTables (departments t) (employees t) (projects t)
                         (salaries t) []).
Definition delete_Salary : M unit :=
  on_working (fun t => mkTables (departments t) (employees t) (projects t)
                         [] (project_employees t)).
Definition delete_Project : M unit :=
  on_working (fun t => mkTables (departments t) (employees t) []
                         (salaries t) (project_employees t)).
Definition delete_Employee : M unit :=
  on_working (fun t => mkTables (departments t) [] (projects t)
                         (salaries t) (project_employees t)).
Definition delete_Department : M unit :=
  on_working (fun t => mkTables [] (employees t) (projects t)
                         (salaries t) (project_employees t)).

(** The mapped object built from [data.model_dump()], then [db.add(x)], per
    mapped class.  The key is
    the one the flush of the next [db.commit()] gives the row: rows are
    flushed in the order they were added, and the code reads a key only after
    that commit, so the object carries it from here on. *)
Definition add_Department (data : DepartmentCreate.t) : M Department.t :=
  fun w =>
    let t := working (db w) in
    let dept :=
      Department.make (next_id (map Department.id (departments t)))
        (DepartmentName_value (DepartmentCreate.name data))
        (DepartmentCreate.location data) (DepartmentCreate.budget data)
        (DepartmentCreate.head_of_department data)
        (DepartmentCreate.established_date data)
        (DepartmentCreate.employee_count data) in
    (Ok dept,
     mkWorld (mkSession (stored (db w))
                (mkTables (departments t ++ [dept]) (employees t) (projects t)
                   (salaries t) (project_employees t)))
       (entropy w)).

Definition add_Employee (data : EmployeeCreate.t) : M Employee.t :=
  fun w =>
    let t := working (db w) in
    let employee :=
      Employee.make (next_id (map Employee.id (employees t)))
        (EmployeeCreate.first_name data) (EmployeeCreate.last_name data)
        (EmployeeCreate.email data) (EmployeeCreate.phone data)
        (EmployeeCreate.hire_date data) (EmployeeCreate.job_title data)
        (EmployeeCreate.department_id data) in
    (Ok employee,
     mkWorld (mkSession (stored (db w))
                (mkTables (departments t) (employees t ++ [employee])
                   (projects t) (salaries t) (project_employees t)))
       (entropy w)).

Definition add_Project (data : ProjectCreate.t) : M Project.t :=
  fun w =>
    let t := working (db w) in
    let project :=
      Project.make (next_id (map Project.id (projects t)))
        (ProjectCreate.name data) (ProjectCreate.description data)
        (ProjectCreate.start_date data) (ProjectCreate.end_date data)
        (ProjectCreate.budget data) (ProjectCreate.status data)
        (ProjectCreate.department_id data) in
    (Ok project,
     mkWorld (mkSession (stored (db w))
                (mkTables (departments t) (employees t)
                   (projects t ++ [project]) (salaries t)
                   (project_employees t)))
       (entropy w)).

Definition add_Salary (data : SalaryCreate.t) : M Salary.t :=
  fun w =>
    let t := working (db w) in
    let salary :=
      Salary.make (next_id (map Salary.id (salaries t)))
        (SalaryCreate.employee_id data) (SalaryCreate.amount data)
        (SalaryCreate.payment_date data) (SalaryCreate.tax_deduction data)
        (SalaryCreate.bonus data) (SalaryCreate.payment_method data) in
    (Ok salary,
     mkWorld (mkSession (stored (db w))
                (mkTables (departments t) (employees t) (projects t)
                   (salaries t ++ [salary]) (project_employees t)))
       (entropy w)).

Definition add_ProjectEmployee (assignment : ProjectEmployee.t) : M unit :=
  on_working (fun t => mkTables (departments t) (employees t) (projects t)
                         (salaries t) (project_employees t ++ [assignment])).

(* ------------------------------------------------------------------ *)
(** *** routers/generate_data.py *)

Definition generate_phone : M string :=
  a <- randint 200 999 ;;
  b <- randint 200 999 ;;
  c <- randint 1000 9999 ;;
  ret ("+1-" ++ str_int a ++ "-" ++ str_int b ++ "-" ++ str_int c)%string.

(** Clear existing data in proper order *)
Definition clear_existing_data : M unit :=
  delete_ProjectEmployee ;;
  delete_Salary ;;
  delete_Project ;;
  delete_Employee ;;
  delete_Department ;;
  db_commit.

(** The body both department loops share: the keyword arguments of
    [DepartmentCreate] in their order, the mapped object, [db.add]. *)
Definition new_department (dept_name : string) (employees_per_dept : Z)
    : M Department.t :=
  c <- fake city ;;
  s <- fake state_abbr ;;
  budget <- uniform 100000 500000 ;;
  head <- fake name ;;
  established <- date_between minus_5y today ;;
  dept_data <- lift (DepartmentCreate dept_name (c ++ ", " ++ s)%string
                       (round2 budget) head established employees_per_dept) ;;
  add_Department dept_data.

(** The name of a department past the enum:
    [f"{random.choice(all_dept_names)} {random.randint(1, 100)}"]. *)
Definition modified_name (all_dept_names : list DepartmentName) : M string :=
  base_name <- choice all_dept_names ;;
  n <- randint 1 100 ;;
  ret (format_member base_name ++ " " ++ str_int n)%string.

(** 1. Generate Departments.  ([used_dept_names] is written and never
    read.) *)
Definition generate_departments (departments employees_per_dept : Z)
    : M (list Department.t) :=
  all_dept_names <- shuffle all_DepartmentName ;;
  first <- for_each (range 0 (Z.min departments (len all_dept_names)))
             (fun i =>
                dept_name <- getitem all_dept_names i ;;
                new_department (DepartmentName_value dept_name)
                  employees_per_dept) ;;
  more <- for_each (range (len all_dept_names) departments)
            (fun _ =>
               dept_name <- modified_name all_dept_names ;;
               new_department dept_name employees_per_dept) ;;
  db_commit ;;
  ret (first ++ more).

Definition new_employee (dept : Department.t) : M Employee.t :=
  first <- fake first_name ;;
  last <- fake last_name ;;
  email <- fake unique_email ;;
  phone <- generate_phone ;;
  hire_date <- date_between (Department.established_date dept) today ;;
  job_title <- choice JOB_TITLES ;;
  emp_data <- lift (EmployeeCreate email_str today first last email phone
                      hire_date job_title (Some (Department.id dept))) ;;
  add_Employee emp_data.

(** 2. Generate Employees *)
Definition generate_employees (dept_objects : list Department.t)
    (employees_per_dept : Z) : M (list Employee.t) :=
  per_dept <- for_each dept_objects
                (fun dept =>
                   for_each (range 0 employees_per_dept)
                     (fun _ => new_employee dept)) ;;
  db_commit ;;
  ret (List.concat per_dept).

Definition new_project (dept : Department.t) : M Project.t :=
  start_date <- date_between minus_1y plus_6m ;;
  color <- fake color_name ;;
  description <- fake (sentence 10) ;;
  end_date <- date_between (start_date + 30) (start_date + 180) ;;
  budget <- uniform 20000 150000 ;;
  status <- choice all_ProjectStatus ;;
  project_data <- lift (ProjectCreate ("Project " ++ title color)%string
                          description start_date end_date (round2 budget)
                          status (Department.id dept)) ;;
  add_Project project_data.

(** 3. Generate Projects *)
Definition generate_projects (dept_objects : list Department.t)
    (projects_per_dept : Z) : M (list Project.t) :=
  per_dept <- for_each dept_objects
                (fun dept =>
                   for_each (range 0 projects_per_dept)
                     (fun _ => new_project dept)) ;;
  db_commit ;;
  ret (List.concat per_dept).

(** [[e for e in employee_objects
      if e.department_id == project.department_id]] *)
Definition same_department (project : Project.t) (e : Employee.t) : bool :=
  match Employee.department_id e with
  | Some d => d =? Project.department_id project
  | None => false
  end.

Definition new_assignment (project : Project.t) (emp : Employee.t) : M unit :=
  role <- choice ["Lead"; "Member"; "Contributor"]%string ;;
  join_date <- date_between (Project.start_date project)
                 (Project.start_date project + 30) ;;
  add_ProjectEmployee
    (ProjectEmployee.make (Employee.id emp) (Project.id project) role
       join_date).

(** Assign 2-5 random employees to each project *)
Definition assign_project (employee_objects : list Employee.t)
    (employees_per_dept : Z) (project : Project.t) : M unit :=
  let candidates := filter (same_department project) employee_objects in
  k <- randint 2 (Z.min 5 employees_per_dept) ;;
  assignees <- sample candidates k ;;
  for_ assignees (new_assignment project).

(** 4. Generate Project Assignments *)
Definition generate_assignments (project_objects : list Project.t)
    (employee_objects : list Employee.t) (employees_per_dept : Z) : M unit :=
  for_ project_objects (assign_project employee_objects employees_per_dept) ;;
  db_commit.

Definition new_salary (emp : Employee.t) (base_salary : float) : M unit :=
  u_amount <- uniform 0.9 1.1 ;;
  payment_date <- date_between (Employee.hire_date emp) today ;;
  u_tax <- uniform 0.8 1.2 ;;
  u_bonus <- random ;;
  payment_method <- choice all_PaymentMethod ;;
  salary_data <- lift (SalaryCreate (Employee.id emp)
                         (round2 (base_salary * u_amount))
                         payment_date
                         (round2 (base_salary * 0.2 * u_tax))
                         (round2 (base_salary * 0.1 * u_bonus))
                         payment_method)%float ;;
  add_Salary salary_data ;;
  ret tt.

Definition employee_salaries (salaries_per_employee : Z) (emp : Employee.t)
    : M unit :=
  base_salary <- uniform 45000 120000 ;;
  for_ (range 0 salaries_per_employee) (fun _ => new_salary emp base_salary).

(** 5. Generate Salaries *)
Definition generate_salaries (employee_objects : list Employee.t)
    (salaries_per_employee : Z) : M unit :=
  for_ employee_objects (employee_salaries salaries_per_employee) ;;
  db_commit.

(** [POST /generate/mock_data] *)
Definition generate_mock_data (departments employees_per_dept
    projects_per_dept salaries_per_employee : Z) : M Response :=
  try_except
    (clear_existing_data ;;
     dept_objects <- generate_departments departments employees_per_dept ;;
     employee_objects <- generate_employees dept_objects employees_per_dept ;;
     project_objects <- generate_projects dept_objects projects_per_dept ;;
     generate_assignments project_objects employee_objects
       employees_per_dept ;;
     generate_salaries employee_objects salaries_per_employee ;;
     ret (mkResponse "Mock data generated successfully"
            (mkStats (len dept_objects) (len employee_objects)
               (len project_objects)
               (len employee_objects * salaries_per_employee))))
    (fun e => db_rollback ;; raise (HTTPException 500 e)).

(* ------------------------------------------------------------------ *)
(** *** The vocabulary of the properties *)

(** [m] only draws: it never touches the session. *)
Definition draws_only {A} (m : M A) : Prop :=
  forall w r w', m w = (r, w') -> db w' = db w.

(** [m] writes to the transaction at most: what is committed stays. *)
Definition keeps_stored {A} (m : M A) : Prop :=
  forall w r w', m w = (r, w') -> stored (db w') = stored (db w).

(** The world [w'] is [w] with [rows] appended to one table of the
    transaction, and nothing else changed but the entropy. *)
Definition adds_departments (rows : list Department.t) (w w' : World) : Prop :=
  db w' = mkSession (stored (db w))
            (mkTables (departments (working (db w)) ++ rows)
               (employees (working (db w))) (projects (working (db w)))
               (salaries (working (db w)))
               (project_employees (working (db w)))).

Definition adds_employees (rows : list Employee.t) (w w' : World) : Prop :=
  db w' = mkSession (stored (db w))
            (mkTables (departments (working (db w)))
               (employees (working (db w)) ++ rows)
               (projects (working (db w))) (salaries (working (db w)))
               (project_employees (working (db w)))).

Definition adds_projects (rows : list Project.t) (w w' : World) : Prop :=
  db w' = mkSession (stored (db w))
            (mkTables (departments (working (db w)))
               (employees (working (db w)))
               (projects (working (db w)) ++ rows)
               (salaries (working (db w)))
               (project_employees (working (db w)))).

Definition adds_salaries (rows : list Salary.t) (w w' : World) : Prop :=
  db w' = mkSession (stored (db w))
            (mkTables (departments (working (db w)))
               (employees (working (db w))) (projects (working (db w)))
               (salaries (working (db w)) ++ rows)
               (project_employees (working (db w)))).

Definition adds_assignments (rows : list ProjectEmployee.t) (w w' : World)
    : Prop :=
  db w' = mkSession (stored (db w))
            (mkTables (departments (working (db w)))
               (employees (working (db w))) (projects (working (db w)))
               (salaries (working (db w)))
               (project_employees (working (db w)) ++ rows)).

Definition drawn {A} (m : M A) (v : A) : Prop :=
  exists w w', m w = (Ok v, w').

(** The three amounts of a salary row, from the employee's base salary and
    three draws of their own. *)
Definition salary_amounts (base_salary : float) (salary : Salary.t) : Prop :=
  exists u_amount u_tax u_bonus,
    drawn (uniform 0.9 1.1) u_amount
    /\ drawn (uniform 0.8 1.2) u_tax
    /\ drawn random u_bonus
    /\ Salary.amount salary = round2 (base_salary * u_amount)%float
    /\ Salary.tax_deduction salary = round2 (base_salary * 0.2 * u_tax)%float
    /\ Salary.bonus salary = round2 (base_salary * 0.1 * u_bonus)%float.

(** [db.commit()] after the world [w1]: the transaction becomes the store. *)
Definition committed (w1 w' : World) : Prop :=
  db w' = mkSession (working (db w1)) (working (db w1)).

(** [emp] was generated for [dept]. *)
Definition employee_of (dept : Department.t) (emp : Employee.t) : Prop :=
  Employee.department_id emp = Some (Department.id dept)
  /\ Department.established_date dept <= Employee.hire_date emp <= today.

Definition employee_keys (w : World) : list Z :=
  map Employee.id (employees (working (db w))).

Definition project_keys (w : World) : list Z :=
  map Project.id (projects (working (db w))).

Fixpoint has_space (s : string) : bool :=
  match s with
  | EmptyString => false
  | String c r => Ascii.eqb c " " || has_space r
  end.

Definition department_keys (w : World) : list Z :=
  map Department.id (departments (working (db w))).

(** The fields a generated department is given. *)
Definition department_fields (employees_per_dept : Z) (dept : Department.t)
    : Prop :=
  minus_5y <= Department.established_date dept <= today
  /\ Department.employee_count dept = employees_per_dept.

(** The row that assigns [emp] to [project]. *)
Definition assignment_of (project : Project.t) (emp : Employee.t)
    (assignment : ProjectEmployee.t) : Prop :=
  ProjectEmployee.employee_id assignment = Employee.id emp
  /\ ProjectEmployee.project_id assignment = Project.id project
  /\ Project.start_date project <= ProjectEmployee.join_date assignment
     <= Project.start_date project + 30.

(** The rows of one project: one per assignee, the assignees being 2 to
    [min(5, employees_per_dept)] employees of the project's department, each
    taken once. *)
Definition assigned (employee_objects : list Employee.t)
    (employees_per_dept : Z) (project : Project.t)
    (rows : list ProjectEmployee.t) : Prop :=
  exists assignees,
    2 <= len assignees <= Z.min 5 employees_per_dept
    /\ (forall emp, In emp assignees ->
          In emp employee_objects /\ same_department project emp = true)
    /\ (NoDup employee_objects -> NoDup assignees)
    /\ Forall2 (assignment_of project) assignees rows.

(** A salary row of [emp], computed from [base_salary]. *)
Definition salary_of (emp : Employee.t) (base_salary : float)
    (salary : Salary.t) : Prop :=
  Salary.employee_id salary = Employee.id emp
  /\ Employee.hire_date emp <= Salary.payment_date salary <= today
  /\ (0 <? Salary.amount salary)%float = true
  /\ (0 <=? Salary.tax_deduction salary)%float = true
  /\ (0 <=? Salary.bonus salary)%float = true
  /\ salary_amounts base_salary salary.

(** The salary rows of one employee: as many as asked for, all from one
    base salary drawn once. *)
Definition salaries_of (salaries_per_employee : Z) (emp : Employee.t)
    (rows : list Salary.t) : Prop :=
  List.length rows = Z.to_nat salaries_per_employee
  /\ exists base_salary,
       drawn (uniform 45000 120000) base_salary
       /\ Forall (salary_of emp base_salary) rows.

(** The world once the existing data is cleared. *)
Definition after_reset (w : World) : World :=
  mkWorld (mkSession no_rows no_rows) (entropy w).

(** The five stages after the reset, as the [try] block runs them. *)
Definition generate_stages (departments employees_per_dept projects_per_dept
    salaries_per_employee : Z) : M Response :=
  bind (generate_departments departments employees_per_dept)
    (fun dept_objects =>
  bind (generate_employees dept_objects employees_per_dept)
    (fun employee_objects =>
  bind (generate_projects dept_objects projects_per_dept)
    (fun project_objects =>
  bind (generate_assignments project_objects employee_objects
          employees_per_dept)
    (fun _ =>
  bind (generate_salaries employee_objects salaries_per_employee)
    (fun _ =>
  ret (mkResponse "Mock data generated successfully"
         (mkStats (len dept_objects) (len employee_objects)
            (len project_objects)
            (len employee_objects * salaries_per_employee)))))))).

(** What each stage has written when it completes. *)
Definition departments_made (d e : Z) (depts : list Department.t) : Prop :=
  d <= 5
  /\ (exists order,
        Permutation all_DepartmentName order
        /\ map Department.name depts
           = map DepartmentName_value (firstn (Z.to_nat d) order))
  /\ Forall (department_fields e) depts
  /\ NoDup (map Department.id depts).

Definition employees_made (e : Z) (depts : list Department.t)
    (emps : list Employee.t) : Prop :=
  (exists groups,
     emps = List.concat groups
     /\ Forall2 (fun dept group =>
                   List.length group = Z.to_nat e
                   /\ Forall (employee_of dept) group) depts groups)
  /\ NoDup (map Employee.id emps).

Definition projects_made (p : Z) (depts : list Department.t)
    (projs : list Project.t) : Prop :=
  (exists groups,
     projs = List.concat groups
     /\ Forall2 (fun dept group =>
                   List.length group = Z.to_nat p
                   /\ Forall (fun project =>
                                Project.department_id project
                                = Department.id dept) group) depts groups)
  /\ NoDup (map Project.id projs).

Definition assignments_made (e : Z) (emps : list Employee.t)
    (projs : list Project.t) (rows : list ProjectEmployee.t) : Prop :=
  exists groups,
    rows = List.concat groups /\ Forall2 (assigned emps e) projs groups.

Definition salaries_made (s : Z) (emps : list Employee.t)
    (rows : list Salary.t) : Prop :=
  exists groups,
    rows = List.concat groups /\ Forall2 (salaries_of s) emps groups.

(** What the store holds after a successful request. *)
Definition generated_store (d e p s : Z) (t : Tables) : Prop :=
  departments_made d e (departments t)
  /\ employees_made e (departments t) (employees t)
  /\ projects_made p (departments t) (projects t)
  /\ assignments_made e (employees t) (projects t) (project_employees t)
  /\ salaries_made s (employees t) (salaries t).

(** The session with [t] committed and nothing pending. *)
Definition settled (t : Tables) (w : World) : Prop := db w = mkSession t t.

(** The stage a request failed in, and what the stages completed before it
    have left in the store. *)
Inductive Stage := Departments | Employees | Projects | Assignments | Salaries.

Definition left_before (stage : Stage) (d e p s : Z) (t : Tables) : Prop :=
  match stage with
  | Departments => t = no_rows
  | Employees =>
      exists depts,
        t = mkTables depts [] [] [] [] /\ departments_made d e depts
  | Projects =>
      exists depts emps,
        t = mkTables depts emps [] [] []
        /\ departments_made d e depts /\ employees_made e depts emps
  | Assignments =>
      exists depts emps projs,
        t = mkTables depts emps projs [] []
        /\ departments_made d e depts /\ employees_made e depts emps
        /\ projects_made p depts projs
  | Salaries =>
      exists depts emps projs rows,
        t = mkTables depts emps projs [] rows
        /\ departments_made d e depts /\ employees_made e depts emps
        /\ projects_made p depts projs
        /\ assignments_made e emps projs rows
  end.

(** The run of the stages of the request made in [w], up to the stage that
    raises: every stage before [stage] returns, [stage] itself raises [x],
    and [t] holds what the stages before it have committed, which is the
    rows they returned and no other row. *)
Definition raised_in (stage : Stage) (d e p s : Z) (w : World)
    (x : Exception) (t : Tables) : Prop :=
  match stage with
  | Departments =>
      exists w1,
        generate_departments d e (after_reset w) = (Raise x, w1)
        /\ t = no_rows
  | Employees =>
      exists depts w1 w2,
        generate_departments d e (after_reset w) = (Ok depts, w1)
        /\ generate_employees depts e w1 = (Raise x, w2)
        /\ t = mkTables depts [] [] [] []
  | Projects =>
      exists depts w1 emps w2 w3,
        generate_departments d e (after_reset w) = (Ok depts, w1)
        /\ generate_employees depts e w1 = (Ok emps, w2)
        /\ generate_projects depts p w2 = (Raise x, w3)
        /\ t = mkTables depts emps [] [] []
  | Assignments =>
      exists depts w1 emps w2 projs w3 w4,
        generate_departments d e (after_reset w) = (Ok depts, w1)
        /\ generate_employees depts e w1 = (Ok emps, w2)
        /\ generate_projects depts p w2 = (Ok projs, w3)
        /\ generate_assignments projs emps e w3 = (Raise x, w4)
        /\ t = mkTables depts emps projs [] []
  | Salaries =>
      exists depts w1 emps w2 projs w3 w4 w5,
        generate_departments d e (after_reset w) = (Ok depts, w1)
        /\ generate_employees depts e w1 = (Ok emps, w2)
        /\ generate_projects depts p w2 = (Ok projs, w3)
        /\ generate_assignments projs emps e w3 = (Ok tt, w4)
        /\ generate_salaries emps s w4 = (Raise x, w5)
        /\ t = mkTables depts emps projs []
               (project_employees (stored (db w4)))
  end.

(* ------------------------------------------------------------------ *)
(** *** The rows of a generated store *)

(** [emp.department_id == dept.id] and [project.department_id == dept.id] *)
Definition employee_in (dept : Department.t) (emp : Employee.t) : bool :=
  match Employee.department_id emp with
  | Some k => k =? Department.id dept
  | None => false
  end.

Definition project_in (dept : Department.t) (project : Project.t) : bool :=
  Project.department_id project =? Department.id dept.

(** Some row of [rows] has the key [k]. *)
Definition has_key {A} (key : A -> Z) (rows : list A) (k : Z) : bool :=
  existsb (fun row => key row =? k) rows.

(** The foreign keys of [models.py]: [employees.department_id] (when it is
    set) and [projects.department_id] name a department,
    [salaries.employee_id] names an employee, and a row of
    [project_employees] names an employee and a project. *)
Definition foreign_keys_resolve (t : Tables) : bool :=
  forallb (fun emp =>
             match Employee.department_id emp with
             | Some k => has_key Department.id (departments t) k
             | None => true
             end) (employees t)
  && forallb (fun project =>
                has_key Department.id (departments t)
                  (Project.department_id project)) (projects t)
  && forallb (fun salary =>
                has_key Employee.id (employees t) (Salary.employee_id salary))
       (salaries t)
  && forallb (fun a =>
                has_key Employee.id (employees t)
                  (ProjectEmployee.employee_id a)
                && has_key Project.id (projects t)
                     (ProjectEmployee.project_id a))
       (project_employees t).

(** A phone number as [generate_phone] writes it. *)
Definition generated_phone (phone : string) : Prop :=
  exists a b c,
    200 <= a <= 999 /\ 200 <= b <= 999 /\ 1000 <= c <= 9999
    /\ phone
       = ("+1-" ++ str_int a ++ "-" ++ str_int b ++ "-" ++ str_int c)%string.

(** The fields the departments stage gives a row, besides its name. *)
Definition generated_department (employees_per_dept : Z)
    (dept : Department.t) : Prop :=
  (0 <? Department.budget dept)%float = true
  /\ minus_5y <= Department.established_date dept <= today
  /\ Department.employee_count dept = employees_per_dept
  /\ 0 <= employees_per_dept.

(** The fields the employees stage gives a row. *)
Definition generated_employee (emp : Employee.t) : Prop :=
  (2 <= String.length (Employee.first_name emp) <= 50)%nat
  /\ (2 <= String.length (Employee.last_name emp) <= 50)%nat
  /\ email_str (Employee.email emp) = true
  /\ phone_pattern (Employee.phone emp) = true
  /\ generated_phone (Employee.phone emp)
  /\ Employee.hire_date emp <= today
  /\ In (Employee.job_title emp) JOB_TITLES.

(** The fields the projects stage gives a row. *)
Definition generated_project (project : Project.t) : Prop :=
  today - 366 <= Project.start_date project <= today
  /\ (exists end_date,
        Project.end_date project = Some end_date
        /\ Project.start_date project + 30 <= end_date
           <= Project.start_date project + 180)
  /\ (0 <? Project.budget project)%float = true
  /\ (exists color,
        Project.name project = ("Project " ++ title color)%string)
  /\ (String.length (Project.name project) <= 100)%nat
  /\ (exists description,
        Project.description project = Some description
        /\ (String.length description <= 500)%nat).

End Generator.

Arguments World G : clear implicits.
Arguments M G A : clear implicits.

(* ================================================================== *)
(** ** The routers of the four tables

    [routers/departments.py], [routers/employees.py], [routers/projects.py]
    and [routers/salaries.py].  A handler runs on the session its request is
    given; FastAPI has validated the request body into its Create model
    before the handler runs, and validates what the handler returns against
    the [response_model] of the route after it. *)

(** How the arguments of a call can fail to fit the parameters of the
    function, and what [float] cannot convert. *)
Inductive Mismatch : Type :=
| UnexpectedKeyword (function keyword : string)
| MultipleValues (function argument : string)
| TooManyPositional (function : string) (takes given : nat)
| MissingArguments (function : string) (names : list string)
| NotANumber (type_name : string).

(** What a request of these routers and of the analytics can raise. *)
Inductive Fault : Type :=
| Uncaught (e : Exception)
| IntegrityError (constraint : string)
    (** sqlalchemy: a unique column or a foreign key is violated *)
| DataError (column : string)
    (** sqlalchemy: a value too long for its column *)
| ResponseValidationError (fields : list string)
    (** fastapi: the fields of the response its model refuses *)
| TypeError (reason : Mismatch)
| AttributeError (type_name attribute : string)
| LibraryError (msg : string)
    (** anything else the database driver or matplotlib raises *)
| HTTPFault (status_code : Z) (detail : string)
    (** [HTTPException] with a fixed [detail] *)
| HTTPFaultFrom (status_code : Z) (detail : string) (cause : Fault)
    (** [HTTPException] whose detail is the text [detail] followed by
        [str(e)] of the exception [e] caught, kept as [cause] *).

Inductive Reply (A : Type) : Type :=
| Sent (a : A)
| Failed (f : Fault).
Arguments Sent {A} a.
Arguments Failed {A} f.

(** What the database behind the session enforces of [models.py].  Every
    engine enforces the unique columns; the length of a [String(n)] column
    and the foreign keys are enforced by some (PostgreSQL) and not by others
    (SQLite as it comes).  The engine is set up in [database.py], which is
    not among the sources. *)
Class Engine := {
  checks_varchar : bool;
  checks_foreign_keys : bool }.

(** [ProjectCreate] with its optional fields: [description] and [end_date]
    may be left out of a request body. *)
Definition ProjectCreate_body (name : string) (description : option string)
    (start_date : date) (end_date : option date) (budget : float)
    (status : ProjectStatus) (department_id : Z) : Result ProjectCreate.t :=
  let errors :=
    refused (String.length name <=? 100)%nat "name"
    ++ refused (match description with
                | Some text => (String.length text <=? 500)%nat
                | None => true
                end) "description"
    ++ refused (match end_date with
                | Some v => validate_end_date start_date v
                | None => true
                end) "end_date"
    ++ refused (0 <? budget)%float "budget" in
  match errors with
  | [] =>
      Ok (ProjectCreate.make name description start_date end_date budget
            status department_id)
  | _ => Raise (ValidationError "ProjectCreate" errors)
  end.

(** What [GET /employees/{employee_id}] answers with. *)
Module EmployeeWithRelations.
Record t := make {
  employee : Employee.t;
  department : option Department.t;
  projects : list Project.t;
  salaries : list Salary.t }.
End EmployeeWithRelations.

Section Routers.

Context {G : Type} {RT : Runtime G} {EN : Engine}.

Local Abbreviation World := (World G).

(** A handler: it reads and writes the session, and answers or raises. *)
Definition Handler (A : Type) : Type := World -> Reply A * World.

Definition answer {A} (a : A) : Handler A := fun w => (Sent a, w).

Definition fail {A} (f : Fault) : Handler A := fun w => (Failed f, w).

Definition and_then {A B} (m : Handler A) (k : A -> Handler B) : Handler B :=
  fun w =>
    match m w with
    | (Sent a, w') => k a w'
    | (Failed f, w') => (Failed f, w')
    end.

(** A step written in the monad of the generator. *)
Definition run {A} (m : M G A) : Handler A :=
  fun w =>
    match m w with
    | (Ok a, w') => (Sent a, w')
    | (Raise e, w') => (Failed (Uncaught e), w')
    end.

Notation "x <- m ;; k" := (and_then m (fun x => k))
  (at level 61, m at next level, right associativity).
Notation "m ;; k" := (and_then m (fun _ => k))
  (at level 61, right associativity).

(* ------------------------------------------------------------------ *)
(** *** The flush of one new row

    [db.commit()] first sends the INSERT of the pending row; the database
    checks it against the rows the table holds. *)

Definition too_long (text : string) (n : nat) : bool :=
  checks_varchar && (n <? String.length text)%nat.

Definition dangling {A} (key : A -> Z) (rows : list A) (k : Z) : bool :=
  checks_foreign_keys && negb (has_key key rows k).

(** The name of a department is the value of a member, of 11 characters at
    most, so that [String(50)] is never exceeded. *)
Definition flush_Department (row : Department.t) (t : Tables) : option Fault :=
  if too_long (Department.location row) 100
  then Some (DataError "departments.location")
  else if too_long (Department.head_of_department row) 50
  then Some (DataError "departments.head_of_department")
  else if existsb (fun d => String.eqb (Department.name d) (Department.name row))
            (departments t)
  then Some (IntegrityError "departments.name")
  else None.

Definition flush_Employee (row : Employee.t) (t : Tables) : option Fault :=
  if too_long (Employee.first_name row) 50
  then Some (DataError "employees.first_name")
  else if too_long (Employee.last_name row) 50
  then Some (DataError "employees.last_name")
  else if too_long (Employee.email row) 50
  then Some (DataError "employees.email")
  else if too_long (Employee.phone row) 20
  then Some (DataError "employees.phone")
  else if too_long (Employee.job_title row) 50
  then Some (DataError "employees.job_title")
  else if existsb (fun e => String.eqb (Employee.email e) (Employee.email row))
            (employees t)
  then Some (IntegrityError "employees.email")
  else if match Employee.department_id row with
          | Some k => dangling Department.id (departments t) k
          | None => false
          end
  then Some (IntegrityError "employees.department_id")
  else None.



(** [db.commit()] of a session whose one pending row is checked by [flush]
    against the committed rows. *)
Definition db_commit_row (flush : Tables -> option Fault) : Handler unit :=
  fun w =>
    match flush (stored (db w)) with
    | Some f => (Failed f, w)
    | None => run db_commit w
    end.

(* ------------------------------------------------------------------ *)
(** *** The response models of [schemas.py]

    A response model reads the fields of the row by name (from_attributes)
    and validates them as its Base model does; the result lists the fields
    it refuses. *)

Definition DepartmentResponse (row : Department.t) : list string :=
  refused (match DepartmentName_of_value (Department.name row) with
           | Some _ => true
           | None => false
           end) "name"
  ++ refused (0 <? Department.budget row)%float "budget"
  ++ refused (0 <=? Department.employee_count row) "employee_count".

Definition EmployeeResponse (row : Employee.t) : list string :=
  refused ((2 <=? String.length (Employee.first_name row))
           && (String.length (Employee.first_name row) <=? 50))%nat
    "first_name"
  ++ refused ((2 <=? String.length (Employee.last_name row))
              && (String.length (Employee.last_name row) <=? 50))%nat
       "last_name"
  ++ refused (email_str (Employee.email row)) "email"
  ++ refused (phone_pattern (Employee.phone row)) "phone"
  ++ refused (validate_hire_date today (Employee.hire_date row)) "hire_date".

Definition ProjectResponse (row : Project.t) : list string :=
  refused (String.length (Project.name row) <=? 100)%nat "name"
  ++ refused (match Project.description row with
              | Some text => (String.length text <=? 500)%nat
              | None => true
              end) "description"
  ++ refused (match Project.end_date row with
              | Some v => validate_end_date (Project.start_date row) v
              | None => true
              end) "end_date"
  ++ refused (0 <? Project.budget row)%float "budget".

Definition SalaryResponse (row : Salary.t) : list string :=
  refused (0 <? Salary.amount row)%float "amount"
  ++ refused (0 <=? Salary.tax_deduction row)%float "tax_deduction"
  ++ refused (0 <=? Salary.bonus row)%float "bonus".

(** The relationships of [models.Employee]: [department] is the row its
    foreign key names, [projects] are the rows of [project_employees] that
    name the employee, [salaries] the rows of [salaries] that do. *)
Definition Employee_department (t : Tables) (employee : Employee.t)
    : option Department.t :=
  match Employee.department_id employee with
  | Some k => find (fun d => Department.id d =? k) (departments t)
  | None => None
  end.

Definition Employee_projects (t : Tables) (employee : Employee.t)
    : list ProjectEmployee.t :=
  filter (fun a => ProjectEmployee.employee_id a =? Employee.id employee)
    (project_employees t).

Definition Employee_salaries (t : Tables) (employee : Employee.t)
    : list Salary.t :=
  filter (fun salary => Salary.employee_id salary =? Employee.id employee)
    (salaries t).

(** An element of [projects: List[ProjectResponse]] read from a row of
    [project_employees]: the row has none of the required fields. *)
Definition ProjectResponse_of_ProjectEmployee (a : ProjectEmployee.t)
    : list string :=
  ["name"; "start_date"; "budget"; "department_id"; "id"]%string.

Definition EmployeeWithRelations_errors (t : Tables) (employee : Employee.t)
    : list string :=
  EmployeeResponse employee
  ++ match Employee_department t employee with
     | Some dept => DepartmentResponse dept
     | None => []
     end
  ++ List.concat (map ProjectResponse_of_ProjectEmployee
                    (Employee_projects t employee))
  ++ List.concat (map SalaryResponse (Employee_salaries t employee)).

(** The return value [body] serialized, when its model refuses nothing. *)
Definition respond {A} (errors : list string) (body : A) : Handler A :=
  match errors with
  | [] => answer body
  | _ => fail (ResponseValidationError errors)
  end.

(** [db.refresh(row)]: the row is read back by its key. *)
Definition refresh {A} (table : Tables -> list A) (key : A -> Z) (row : A)
    : Handler A :=
  fun w =>
    match find (fun r => key r =? key row) (table (working (db w))) with
    | Some r => (Sent r, w)
    | None => (Failed (LibraryError "Could not refresh instance"), w)
    end.

(** [db.query(X).all()] *)
Definition query_all {A} (table : Tables -> list A) : Handler (list A) :=
  fun w => (Sent (table (working (db w))), w).

(* ------------------------------------------------------------------ *)
(** *** routers/departments.py *)

Definition create_department (department : DepartmentCreate.t)
    : Handler Department.t :=
  db_department <- run (add_Department department) ;;
  db_commit_row (flush_Department db_department) ;;
  db_department <- refresh departments Department.id db_department ;;
  respond (DepartmentResponse db_department) db_department.

Definition read_departments : Handler (list Department.t) :=
  rows <- query_all departments ;;
  respond (List.concat (map DepartmentResponse rows)) rows.

(* ------------------------------------------------------------------ *)
(** *** routers/employees.py *)

Definition create_employee (employee : EmployeeCreate.t)
    : Handler Employee.t :=
  db_employee <- run (add_Employee employee) ;;
  db_commit_row (flush_Employee db_employee) ;;
  db_employee <- refresh employees Employee.id db_employee ;;
  respond (EmployeeResponse db_employee) db_employee.

Definition read_employees : Handler (list Employee.t) :=
  rows <- query_all employees ;;
  respond (List.concat (map EmployeeResponse rows)) rows.

Definition get_employee_with_relations (employee_id : Z)
    : Handler EmployeeWithRelations.t :=
  fun w =>
    let t := working (db w) in
    match find (fun e => Employee.id e =? employee_id) (employees t) with
    | None => fail (HTTPFault 404 "Employee not found") w
    | Some employee =>
        respond (EmployeeWithRelations_errors t employee)
          (EmployeeWithRelations.make employee
             (Employee_department t employee) []
             (Employee_salaries t employee)) w
    end.

(* ------------------------------------------------------------------ *)
(** *** routers/projects.py *)


Definition read_projects : Handler (list Project.t) :=
  rows <- query_all projects ;;
  respond (List.concat (map ProjectResponse rows)) rows.

(* ------------------------------------------------------------------ *)
(** *** routers/salaries.py *)


Definition read_salaries : Handler (list Salary.t) :=
  rows <- query_all salaries ;;
  respond (List.concat (map SalaryResponse rows)) rows.

(* ------------------------------------------------------------------ *)
(** *** The vocabulary of the properties of the routers *)

(** The row a mapped class makes of a Create model, under the key [k]. *)
Definition Department_row (k : Z) (data : DepartmentCreate.t) : Department.t :=
  Department.make k (DepartmentName_value (DepartmentCreate.name data))
    (DepartmentCreate.location data) (DepartmentCreate.budget data)
    (DepartmentCreate.head_of_department data)
    (DepartmentCreate.established_date data)
    (DepartmentCreate.employee_count data).

Definition Employee_row (k : Z) (data : EmployeeCreate.t) : Employee.t :=
  Employee.make k (EmployeeCreate.first_name data)
    (EmployeeCreate.last_name data) (EmployeeCreate.email data)
    (EmployeeCreate.phone data) (EmployeeCreate.hire_date data)
    (EmployeeCreate.job_title data) (EmployeeCreate.department_id data).



(** The tables with one more row. *)
Definition with_department (row : Department.t) (t : Tables) : Tables :=
  mkTables (departments t ++ [row]) (employees t) (projects t) (salaries t)
    (project_employees t).

Definition with_employee (row : Employee.t) (t : Tables) : Tables :=
  mkTables (departments t) (employees t ++ [row]) (projects t) (salaries t)
    (project_employees t).



End Routers.

Arguments Handler G A : clear implicits.

(* ================================================================== *)
(** ** routers/analytics.py *)

(** The row of the salary statistics: each aggregate is NULL over no row. *)
Module SalaryStats.
Record t := make {
  avg : option float;
  min : option float;
  max : option float;
  stddev : option float }.
End SalaryStats.

(** What [func.date(...)] comes back as: a [date], or text where the engine
    has no date type. *)
Inductive SqlDate : Type :=
| DateValue (d : date)
| TextValue (text : string).

(** What a chart function draws on its axes. *)
Inductive Chart : Type :=
| Pie (labels : list string) (sizes : list Z) (title : string)
| Bar (labels : list string) (values : list float) (title ylabel : string)
| Line (dates : list string) (values : list Z) (title : string).

(** What the summary takes from outside the repository: the answers of the
    database to its five queries (on the rows the session sees; the hire
    trend also on the first day it counts), matplotlib ([pyplot] is
    [plt.subplots()] and the drawing on the axes, [savefig] the PNG of the
    figure), [base64.b64encode] and [date.strftime("%Y-%m-%d")].  Each
    query and each call of matplotlib may raise. *)
Class Reporting := {
  dept_counts_query : Tables -> Reply (list (string * Z));
  salary_stats_query : Tables -> Reply (option SalaryStats.t);
  project_status_query : Tables -> Reply (list (string * Z));
  hire_trend_query : date -> Tables -> Reply (list (SqlDate * Z));
  budget_allocation_query : Tables -> Reply (list (string * float));
  pyplot : Chart -> Reply unit;
  savefig : Chart -> Reply string;
  b64encode : string -> string;
  isoformat : date -> string }.

Module SalaryStatistics.
Record t := make {
  average : float;
  minimum : float;
  maximum : float;
  standard_deviation : float }.
End SalaryStatistics.

Record SummaryData := mkSummaryData {
  department_distribution : list (string * Z);
  salary_statistics : SalaryStatistics.t;
  project_status : list (string * Z);
  recent_hires_trend : list (string * Z);
  budget_allocation : list (string * float) }.

Record Visualizations := mkVisualizations {
  department_distribution_png : string;
  salary_statistics_png : string;
  project_status_png : string;
  budget_allocation_png : string;
  hire_trend_png : string }.

Record ChartConfigs := mkChartConfigs {
  distribution_type : string;
  data_labels : list string;
  data_values : list Z;
  statistics_type : string;
  categories : list string;
  series_name : string;
  series_data : list float }.

Record Summary := mkSummary {
  summary_data : SummaryData;
  visualizations : Visualizations;
  chart_configs : ChartConfigs }.

(** [d[k] = v] and [dict(pairs)] on a dict kept in insertion order. *)
Fixpoint dict_set {V} (k : string) (v : V) (d : list (string * V))
    : list (string * V) :=
  match d with
  | [] => [(k, v)]
  | (k', v') :: r =>
      if String.eqb k k' then (k, v) :: r else (k', v') :: dict_set k v r
  end.

Definition dict {V} (pairs : list (string * V)) : list (string * V) :=
  fold_left (fun d kv => dict_set (fst kv) (snd kv) d) pairs [].

(** The arguments of a call, bound to the parameters [params] of a function
    that has no default, no keyword-only parameter and no starred one:
    each keyword must name a parameter that no positional argument has
    filled, the positional arguments must not outnumber the parameters, and
    no parameter may be left without a value. *)
Definition bind_arguments (function : string) (params : list string)
    (positional : nat) (keywords : list string) : option Fault :=
  match find (fun k => negb (existsb (String.eqb k) params)) keywords with
  | Some k => Some (TypeError (UnexpectedKeyword function k))
  | None =>
      match find (fun k => existsb (String.eqb k) (firstn positional params))
              keywords with
      | Some k => Some (TypeError (MultipleValues function k))
      | None =>
          if (List.length params <? positional)%nat
          then Some (TypeError (TooManyPositional function
                                  (List.length params) positional))
          else
            match filter (fun name => negb (existsb (String.eqb name) keywords))
                    (skipn positional params) with
            | [] => None
            | names => Some (TypeError (MissingArguments function names))
            end
      end
  end.

Section Analytics.

Context {G : Type} {RT : Runtime G} {RP : Reporting}.

Definition then_ {A B} (m : Reply A) (k : A -> Reply B) : Reply B :=
  match m with
  | Sent a => k a
  | Failed f => Failed f
  end.

Notation "x <- m ;; k" := (then_ m (fun x => k))
  (at level 61, m at next level, right associativity).
Notation "m ;; k" := (then_ m (fun _ => k))
  (at level 61, right associativity).

(** [try: m  except Exception as e: raise handler e] *)
Definition try_raise {A} (m : Reply A) (handler : Fault -> Fault) : Reply A :=
  match m with
  | Sent a => Sent a
  | Failed f => Failed (handler f)
  end.

(** [f(...)]: the arguments are bound, then the body runs. *)
Definition call {A} (function : string) (params : list string)
    (positional : nat) (keywords : list string) (body : Reply A) : Reply A :=
  match bind_arguments function params positional keywords with
  | Some f => Failed f
  | None => body
  end.

(** [float(x)] of a value of the database *)
Definition float_ (x : option float) : Reply float :=
  match x with
  | Some v => Sent v
  | None => Failed (TypeError (NotANumber "NoneType"))
  end.

(** [float(x or 0)] *)
Definition float_or_0 (x : option float) : float :=
  match x with
  | Some v => if (v =? 0)%float then 0%float else v
  | None => 0%float
  end.

(** [h.date.strftime("%Y-%m-%d")] *)
Definition strftime (v : SqlDate) : Reply string :=
  match v with
  | DateValue d => Sent (isoformat d)
  | TextValue _ => Failed (AttributeError "str" "strftime")
  end.

Fixpoint for_all {A B} (xs : list A) (body : A -> Reply B) : Reply (list B) :=
  match xs with
  | [] => Sent []
  | x :: r => y <- body x ;; ys <- for_all r body ;; Sent (y :: ys)
  end.

(** Helper function to generate base64 encoded chart images *)
Definition create_chart_image (fig : Chart) : Reply string :=
  png <- savefig fig ;;
  Sent (b64encode png).

Definition generate_pie_chart (labels : list string) (sizes : list Z)
    (title : string) : Reply string :=
  pyplot (Pie labels sizes title) ;;
  create_chart_image (Pie labels sizes title).

Definition generate_bar_chart (labels : list string) (values : list float)
    (title ylabel : string) : Reply string :=
  pyplot (Bar labels values title ylabel) ;;
  create_chart_image (Bar labels values title ylabel).

Definition generate_line_chart (dates : list string) (values : list Z)
    (title : string) : Reply string :=
  pyplot (Line dates values title) ;;
  create_chart_image (Line dates values title).

(** [salary_stats.avg] and the like, on what [.first()] returned *)
Definition stats_of (salary_stats : option SalaryStats.t)
    : Reply SalaryStats.t :=
  match salary_stats with
  | Some row => Sent row
  | None => Failed (AttributeError "NoneType" "avg")
  end.

(** The four numbers of the salary chart and of the summary:
    [[float(avg), float(min), float(max), float(stddev or 0)]]. *)
Definition salary_numbers (salary_stats : option SalaryStats.t)
    : Reply (list float) :=
  row <- stats_of salary_stats ;;
  average <- float_ (SalaryStats.avg row) ;;
  minimum <- float_ (SalaryStats.min row) ;;
  maximum <- float_ (SalaryStats.max row) ;;
  Sent [average; minimum; maximum; float_or_0 (SalaryStats.stddev row)].

Definition data_url (chart : string) : string :=
  ("data:image/png;base64," ++ chart)%string.

(** [GET /analytics/visual-summary] *)
Definition get_visual_analytics_summary (db : Session) : Reply Summary :=
  try_raise
    (dept_counts <- dept_counts_query (working db) ;;
     salary_stats <- salary_stats_query (working db) ;;
     project_status <- project_status_query (working db) ;;
     hire_trend <- hire_trend_query (today - 90) (working db) ;;
     budget_allocation <- budget_allocation_query (working db) ;;
     dept_chart <-
       call "generate_pie_chart" ["labels"; "sizes"; "title"]%string 3 []
         (generate_pie_chart (map fst dept_counts) (map snd dept_counts)
            "Employee Distribution by Department") ;;
     numbers <- salary_numbers salary_stats ;;
     salary_chart <-
       call "generate_bar_chart" ["labels"; "values"; "title"; "ylabel"]%string 4 []
         (generate_bar_chart ["Average"; "Minimum"; "Maximum"; "Std Dev"]%string
            numbers "Salary Statistics" "USD") ;;
     project_chart <-
       call "generate_pie_chart" ["labels"; "sizes"; "title"]%string 3 []
         (generate_pie_chart (map fst project_status) (map snd project_status)
            "Project Status Distribution") ;;
     budget_chart <-
       call "generate_bar_chart" ["labels"; "values"; "title"; "ylabel"]%string 4
         ["horizontal"]%string
         (generate_bar_chart (map fst budget_allocation)
            (map snd budget_allocation) "Department Budget Allocation"
            "USD") ;;
     dates <- for_all hire_trend (fun h => strftime (fst h)) ;;
     hire_trend_chart <-
       call "generate_line_chart" ["dates"; "values"; "title"]%string 3 []
         (generate_line_chart dates (map snd hire_trend)
            "Hiring Trend (Last 90 Days)") ;;
     rounded <- salary_numbers salary_stats ;;
     dates' <- for_all hire_trend (fun h => strftime (fst h)) ;;
     Sent (mkSummary
             (mkSummaryData (dict dept_counts)
                (SalaryStatistics.make
                   (round2 (nth 0 rounded 0%float))
                   (round2 (nth 1 rounded 0%float))
                   (round2 (nth 2 rounded 0%float))
                   (round2 (nth 3 rounded 0%float)))
                (dict project_status)
                (combine dates' (map snd hire_trend))
                budget_allocation)
             (mkVisualizations (data_url dept_chart) (data_url salary_chart)
                (data_url project_chart) (data_url budget_chart)
                (data_url hire_trend_chart))
             (mkChartConfigs "pie" (map fst dept_counts) (map snd dept_counts)
                "bar" ["Average"; "Minimum"; "Maximum"; "Std Dev"]%string
                "Salary" (map round2 rounded))))
    (fun e => HTTPFaultFrom 500 "Analytics generation failed: " e).

End Analytics.

(* ================================================================== *)
(** ** A runtime read off a tape

    The entropy is a tape of numbers read front to back (a tape that has run
    out reads 0); a word is the entry of a small word list at a drawn
    position.  It is the runtime the example requests below are run with. *)

Definition Tape := list Z.

Definition tape_randbelow (n : Z) (t : Tape) : Z * Tape :=
  match t with
  | [] => (0, t)
  | z :: r => (z mod n, r)
  end.

(** [k] positions of [n], counted upwards from a drawn start, wrapping. *)
Definition tape_sample_indices (n k : Z) (t : Tape) : list Z * Tape :=
  let (start, t') := tape_randbelow n t in
  (map (fun i => (start + i) mod n) (range 0 k), t').

Definition vocabulary (p : Provider) : list string :=
  match p with
  | city => ["Springfield"; "Riverton"; "Lakewood"; "Fairview"]
  | state_abbr => ["IL"; "OH"; "TX"]
  | name => ["Ada Lovelace"; "Alan Turing"; "Grace Hopper"]
  | first_name => ["Ada"; "Alan"; "Grace"; "Edsger"; "Barbara"]
  | last_name => ["Lovelace"; "Turing"; "Hopper"; "Dijkstra"; "Liskov"]
  | unique_email => []
  | color_name => ["dark slate blue"; "olive drab"; "coral"]
  | sentence _ =>
      ["Serve sound answer step old plan you house maybe table."]
  end%string.

(** A word of the provider's list; an email is made distinct by a number. *)
Definition tape_fake_text (p : Provider) (t : Tape) : string * Tape :=
  match p with
  | unique_email =>
      let (z, t') := tape_randbelow (10 ^ 9) t in
      (("user" ++ str_int z ++ "@example.org")%string, t')
  | _ =>
      let (i, t') := tape_randbelow (len (vocabulary p)) t in
      (nth (Z.to_nat i) (vocabulary p) EmptyString, t')
  end.

(** A stand-in for [EmailStr]: some text, an at sign, some text. *)
Fixpoint has_at (s : string) : bool :=
  match s with
  | EmptyString => false
  | String _ EmptyString => false
  | String _ (String "@" (String _ _)) => true
  | String _ r => has_at r
  end.

(** A tape: [n] numbers of 53 bits from a linear congruential generator. *)
Fixpoint lcg (n : nat) (x : Z) : Tape :=
  match n with
  | O => []
  | S n' =>
      let x' := (x * 6364136223846793005 + 1442695040888963407) mod 2 ^ 64 in
      x' / 2 ^ 11 :: lcg n' x'
  end.

(** A member as Python 3.11 and later render it in an f-string. *)
Definition DepartmentName_str (n : DepartmentName) : string :=
  match n with
  | HR => "DepartmentName.HR"
  | ENGINEERING => "DepartmentName.ENGINEERING"
  | MARKETING => "DepartmentName.MARKETING"
  | FINANCE => "DepartmentName.FINANCE"
  | SALES => "DepartmentName.SALES"
  end.

(** The tape as the runtime of a request made on the day [d]. *)
Definition on_day (d : date) : Runtime Tape :=
  {| randbelow := tape_randbelow;
     sample_indices := tape_sample_indices;
     fake_text := tape_fake_text;
     email_str := has_at;
     format_member := DepartmentName_str;
     today := d |}.

(** Two engines: one that enforces the unique columns only, and one that
    also enforces the lengths of the columns and the foreign keys. *)
Definition lenient : Engine :=
  {| checks_varchar := false; checks_foreign_keys := false |}.

Definition strict : Engine :=
  {| checks_varchar := true; checks_foreign_keys := true |}.

(** A database that answers the five queries of the summary from the rows
    (the statistics are those of the first salary, NULL when there is
    none), and a matplotlib that draws every chart as its title. *)
Definition employees_by_department (t : Tables) : list (string * Z) :=
  map (fun d =>
         (Department.name d,
          len (filter (fun e =>
                         match Employee.department_id e with
                         | Some k => k =? Department.id d
                         | None => false
                         end) (employees t))))
    (departments t).

Definition first_salary_stats (t : Tables) : option SalaryStats.t :=
  match salaries t with
  | [] => Some (SalaryStats.make None None None None)
  | salary :: _ =>
      Some (SalaryStats.make (Some (Salary.amount salary))
              (Some (Salary.amount salary)) (Some (Salary.amount salary))
              None)
  end.

Definition chart_title (c : Chart) : string :=
  match c with
  | Pie _ _ title => title
  | Bar _ _ title _ => title
  | Line _ _ title => title
  end.

Definition example_reporting : Reporting :=
  {| dept_counts_query := fun t => Sent (employees_by_department t);
     salary_stats_query := fun t => Sent (first_salary_stats t);
     project_status_query := fun t => Sent [("Planning"%string, len (projects t))];
     hire_trend_query := fun _ _ => Sent [];
     budget_allocation_query :=
       fun t => Sent (map (fun d => (Department.name d, Department.budget d))
                        (departments t));
     pyplot := fun _ => Sent tt;
     savefig := fun c => Sent (chart_title c);
     b64encode := fun png => png;
     isoformat := fun d => str_int d |}.

(* ================================================================== *)
(** ** Example requests *)

(** The day of the examples, 2026-11-03, and the tape they draw from. *)
Definition example_runtime : Runtime Tape := on_day 739923.

Definition empty_store : World Tape :=
  mkWorld (mkSession no_rows no_rows) (lcg 200 2026).

(** A store that already holds a department and one of its employees. *)
Definition old_rows : Tables :=
  mkTables
    [Department.make 7 "Sales" "Fairview, OH" 250000 "Grace Hopper" 739000 1]
    [Employee.make 3 "Edsger" "Dijkstra" "edsger@example.org"
       "+1-555-123-4567" 739100 "Sales Executive" (Some 7)]
    [] [] [].

Definition old_store : World Tape :=
  mkWorld (mkSession old_rows old_rows) (lcg 200 2026).

(** [generate(departments=2, employees_per_dept=3, projects_per_dept=1,
    salaries_per_employee=2)] on the empty store. *)
Definition generated : Result Response * World Tape :=
  Eval vm_compute in
    @generate_mock_data Tape example_runtime 2 3 1 2 empty_store.

Definition generated_response : Response :=
  mkResponse "Mock data generated successfully" (mkStats 2 6 2 12).

(** [generate(departments=1, employees_per_dept=1, projects_per_dept=1,
    salaries_per_employee=3)] on the store with old rows. *)
Definition failed : Result Response * World Tape :=
  Eval vm_compute in
    @generate_mock_data Tape example_runtime 1 1 1 3 old_store.

(** The first employee, assignment and salary of the generated store. *)
Definition an_employee : Employee.t :=
  Eval vm_compute in
    nth 0 (employees (stored (db (snd generated))))
      (Employee.make 0 "" "" "" "" 0 "" None).

Definition an_assignment : ProjectEmployee.t :=
  Eval vm_compute in
    nth 0 (project_employees (stored (db (snd generated))))
      (ProjectEmployee.make 0 0 "" 0).

Definition a_salary : Salary.t :=
  Eval vm_compute in
    nth 0 (salaries (stored (db (snd generated))))
      (Salary.make 0 0 0 0 0 0 CHECK).

(** A second request, [generate(1, 2, 1, 1)], right after the first. *)
Definition regenerated : Result Response * World Tape :=
  Eval vm_compute in
    @generate_mock_data Tape example_runtime 1 2 1 1 (snd generated).

Definition regenerated_response : Response :=
  mkResponse "Mock data generated successfully" (mkStats 1 2 1 2).

(** The first project of the generated store. *)
Definition a_project : Project.t :=
  Eval vm_compute in
    nth 0 (projects (stored (db (snd generated))))
      (Project.make 0 "" None 0 None 0 PLANNING 0).

(** [generate(1, 2, 1, -1)] on the empty store. *)
Definition overdrawn : Result Response * World Tape :=
  Eval vm_compute in
    @generate_mock_data Tape example_runtime 1 2 1 (-1) empty_store.

Definition overdrawn_response : Response :=
  mkResponse "Mock data generated successfully" (mkStats 1 2 1 (-2)).

(** The first department of the generated store. *)
Definition a_department : Department.t :=
  Eval vm_compute in
    nth 0 (departments (stored (db (snd generated))))
      (Department.make 0 "" "" 0 "" 0 0).

(** The employee that the first assignment names. *)
Definition an_assigned_employee : Employee.t :=
  Eval vm_compute in
    nth 1 (employees (stored (db (snd generated))))
      (Employee.make 0 "" "" "" "" 0 "" None).

(** Request bodies for the routers, as their Create models hold them. *)
Definition a_new_department : DepartmentCreate.t :=
  DepartmentCreate.make HR "Lakewood, TX" 300000 "Alan Turing" 739500 4.

Definition a_second_sales : DepartmentCreate.t :=
  DepartmentCreate.make SALES "Riverton, IL" 120000 "Ada Lovelace" 739600 2.


Definition a_second_edsger : EmployeeCreate.t :=
  EmployeeCreate.make "Edsger" "Wybe" "edsger@example.org"
    "+1-555-000-1111" 739700 "HR Manager" None.



(* ================================================================== *)
(** * Properties *)

Create HintDb frame discriminated.

Section Properties.

Context {G : Type} {RT : Runtime G} {RL : RuntimeLaws RT}.

Local Abbreviation M := (M G).
Local Abbreviation World := (World G).
Local Abbreviation draws_only m := (@draws_only G _ m).
Local Abbreviation keeps_stored m := (@keeps_stored G _ m).
Local Abbreviation drawn m v := (@drawn G _ m v).
Local Abbreviation committed := (@committed G).
Local Abbreviation settled := (@settled G).
Local Abbreviation adds_departments := (@adds_departments G).
Local Abbreviation adds_employees := (@adds_employees G).
Local Abbreviation adds_projects := (@adds_projects G).
Local Abbreviation adds_salaries := (@adds_salaries G).
Local Abbreviation adds_assignments := (@adds_assignments G).
Local Abbreviation employee_keys := (@employee_keys G).
Local Abbreviation project_keys := (@project_keys G).
Local Abbreviation department_keys := (@department_keys G).
Local Abbreviation after_reset := (@after_reset G).

(* ------------------------------------------------------------------ *)
(** ** The monad *)

Lemma bind_ok {A B} (m : M A) (k : A -> M B) w b w' :
  bind m k w = (Ok b, w') ->
  exists a w1, m w = (Ok a, w1) /\ k a w1 = (Ok b, w').
Proof.
  unfold bind. destruct (m w) as [[a|e] w1]; intros H.
  - exists a, w1. split; [reflexivity|exact H].
  - discriminate.
Qed.

Lemma bind_raise {A B} (m : M A) (k : A -> M B) w e w' :
  bind m k w = (Raise e, w') ->
  m w = (Raise e, w')
  \/ exists a w1, m w = (Ok a, w1) /\ k a w1 = (Raise e, w').
Proof.
  unfold bind. destruct (m w) as [[a|e0] w1]; intros H.
  - right. exists a, w1. split; [reflexivity|exact H].
  - left. inversion H. reflexivity.
Qed.

Lemma bind_eq {A B} (m : M A) (k : A -> M B) w a w1 :
  m w = (Ok a, w1) -> bind m k w = k a w1.
Proof. unfold bind. intros ->. reflexivity. Qed.

Lemma bind_eq_raise {A B} (m : M A) (k : A -> M B) w e w1 :
  m w = (Raise e, w1) -> bind m k w = (Raise e, w1).
Proof. unfold bind. intros ->. reflexivity. Qed.

Lemma ret_ok {A} (a b : A) (w w' : World) :
  ret a w = (Ok b, w') -> b = a /\ w' = w.
Proof. unfold ret. intros H. inversion H. split; reflexivity. Qed.

(** Decompose a successful run along its binds. *)
Ltac run_ok H :=
  match type of H with
  | bind _ _ _ = (Ok _, _) =>
      let a := fresh "v" in
      let w1 := fresh "w" in
      let H1 := fresh "Hrun" in
      apply bind_ok in H; destruct H as (a & w1 & H1 & H); run_ok H
  | ret _ _ = (Ok _, _) =>
      apply ret_ok in H; destruct H as [? ?]; subst
  | _ => idtac
  end.

(** *** Loops *)

(** A successful loop keeps what every successful turn keeps: [R done out w]
    relates the items gone through, what they returned and the world. *)
Lemma for_each_ok {A B} (body : A -> M B)
    (R : list A -> list B -> World -> Prop) xs :
  forall w ys w',
    for_each xs body w = (Ok ys, w') ->
    R [] [] w ->
    (forall done x out w1 y w2,
        R done out w1 -> In x xs -> body x w1 = (Ok y, w2) ->
        R (done ++ [x]) (out ++ [y]) w2) ->
    R xs ys w'.
Proof.
  assert (Hgen : forall rest done out w ys w',
             for_each rest body w = (Ok ys, w') ->
             R done out w ->
             (forall done x out w1 y w2,
                 R done out w1 -> In x rest -> body x w1 = (Ok y, w2) ->
                 R (done ++ [x]) (out ++ [y]) w2) ->
             R (done ++ rest) (out ++ ys) w').
  { induction rest as [|x rest IH]; intros done out w ys w' Hrun HR Hstep.
    - simpl in Hrun. apply ret_ok in Hrun. destruct Hrun; subst.
      rewrite !app_nil_r. exact HR.
    - simpl in Hrun.
      apply bind_ok in Hrun as (y & w1 & Hy & Hrun).
      apply bind_ok in Hrun as (ys' & w2 & Hys & Hrun).
      apply ret_ok in Hrun as [-> ->].
      replace (done ++ x :: rest) with ((done ++ [x]) ++ rest)
        by (rewrite <- app_assoc; reflexivity).
      replace (out ++ y :: ys') with ((out ++ [y]) ++ ys')
        by (rewrite <- app_assoc; reflexivity).
      eapply IH; [exact Hys| |].
      + eapply Hstep; [exact HR|left; reflexivity|exact Hy].
      + intros. eapply Hstep; eauto. right. assumption. }
  intros w ys w' Hrun HR Hstep.
  exact (Hgen xs [] [] w ys w' Hrun HR Hstep).
Qed.

Lemma for_ok {A} (body : A -> M unit) xs w u w' :
  for_ xs body w = (Ok u, w') ->
  exists ys, for_each xs body w = (Ok ys, w').
Proof.
  unfold for_. intros H. apply bind_ok in H as (ys & w1 & Hys & H).
  apply ret_ok in H as [_ ->]. exists ys. exact Hys.
Qed.

(** The first turn that raises ends the loop. *)
Lemma for_each_first_raises {A B} (body : A -> M B) x rest w e w' :
  body x w = (Raise e, w') ->
  for_each (x :: rest) body w = (Raise e, w').
Proof. intros H. simpl. apply bind_eq_raise. exact H. Qed.

Lemma for_first_raises {A} (body : A -> M unit) x rest w e w' :
  body x w = (Raise e, w') ->
  for_ (x :: rest) body w = (Raise e, w').
Proof.
  intros H. unfold for_. apply bind_eq_raise.
  apply for_each_first_raises. exact H.
Qed.

(* ------------------------------------------------------------------ *)
(** ** What a computation leaves alone *)

Lemma draws_only_keeps_stored {A} (m : M A) : draws_only m -> keeps_stored m.
Proof. intros H w r w' E. rewrite (H _ _ _ E). reflexivity. Qed.

Lemma draws_only_ret {A} (a : A) : draws_only (ret a).
Proof. intros w r w' E. inversion E. reflexivity. Qed.

Lemma draws_only_raise {A} e : draws_only (@raise G A e).
Proof. intros w r w' E. inversion E. reflexivity. Qed.

Lemma draws_only_lift {A} (x : Result A) : draws_only (lift x).
Proof. intros w r w' E. inversion E. reflexivity. Qed.

Lemma draws_only_draw {A} (f : G -> A * G) : draws_only (draw f).
Proof.
  intros w r w' E. unfold draw in E.
  destruct (f (entropy w)). inversion E. reflexivity.
Qed.

Lemma draws_only_bind {A B} (m : M A) (k : A -> M B) :
  draws_only m -> (forall a, draws_only (k a)) -> draws_only (bind m k).
Proof.
  intros Hm Hk w r w' E. unfold bind in E.
  destruct (m w) as [[a|e] w1] eqn:Em.
  - rewrite (Hk a _ _ _ E). exact (Hm _ _ _ Em).
  - inversion E; subst. exact (Hm _ _ _ Em).
Qed.

Lemma draws_only_for_each {A B} (body : A -> M B) xs :
  (forall x, draws_only (body x)) -> draws_only (for_each xs body).
Proof.
  intros Hb. induction xs as [|x xs IH]; simpl.
  - apply draws_only_ret.
  - apply draws_only_bind; [apply Hb|]. intros y.
    apply draws_only_bind; [exact IH|]. intros ys. apply draws_only_ret.
Qed.

Lemma draws_only_getitem {A} (x : list A) i : draws_only (getitem x i).
Proof.
  unfold getitem. destruct (item x i);
    [apply draws_only_ret|apply draws_only_raise].
Qed.

Lemma keeps_stored_bind {A B} (m : M A) (k : A -> M B) :
  keeps_stored m -> (forall a, keeps_stored (k a)) -> keeps_stored (bind m k).
Proof.
  intros Hm Hk w r w' E. unfold bind in E.
  destruct (m w) as [[a|e] w1] eqn:Em.
  - rewrite (Hk a _ _ _ E). exact (Hm _ _ _ Em).
  - inversion E; subst. exact (Hm _ _ _ Em).
Qed.

Lemma keeps_stored_for_each {A B} (body : A -> M B) xs :
  (forall x, keeps_stored (body x)) -> keeps_stored (for_each xs body).
Proof.
  intros Hb. induction xs as [|x xs IH]; simpl.
  - apply draws_only_keeps_stored, draws_only_ret.
  - apply keeps_stored_bind; [apply Hb|]. intros y.
    apply keeps_stored_bind; [exact IH|]. intros ys.
    apply draws_only_keeps_stored, draws_only_ret.
Qed.

Lemma keeps_stored_for {A} (body : A -> M unit) xs :
  (forall x, keeps_stored (body x)) -> keeps_stored (for_ xs body).
Proof.
  intros Hb. unfold for_. apply keeps_stored_bind.
  - apply keeps_stored_for_each. exact Hb.
  - intros _. apply draws_only_keeps_stored, draws_only_ret.
Qed.

Lemma keeps_stored_on_working f : keeps_stored (on_working f).
Proof. intros w r w' E. inversion E. reflexivity. Qed.

Hint Resolve draws_only_ret draws_only_raise draws_only_lift draws_only_draw
  draws_only_getitem : frame.

(** Settle [draws_only] along the binds, the loops and the branches. *)
Ltac draws :=
  repeat first
    [ apply draws_only_bind; [|intros ?]
    | apply draws_only_for_each; intros ?
    | solve [auto with frame]
    | match goal with
      | |- draws_only (if ?c then _ else _) => destruct c
      | |- draws_only (match ?c with _ => _ end) => destruct c
      end ].

Lemma draws_only_randbelow n : draws_only (_randbelow n).
Proof. unfold _randbelow. draws. Qed.
Hint Resolve draws_only_randbelow : frame.

Lemma draws_only_random : draws_only random.
Proof. unfold random. draws. Qed.
Hint Resolve draws_only_random : frame.

Lemma draws_only_uniform a b : draws_only (uniform a b).
Proof. unfold uniform. draws. Qed.

Lemma draws_only_randrange a b : draws_only (randrange a b).
Proof. unfold randrange. draws. Qed.
Hint Resolve draws_only_uniform draws_only_randrange : frame.

Lemma draws_only_randint a b : draws_only (randint a b).
Proof. unfold randint. draws. Qed.

Lemma draws_only_choice {A} (seq : list A) : draws_only (choice seq).
Proof. unfold choice. draws. Qed.

Lemma draws_only_swap_items {A} (x : list A) i j : draws_only (swap_items x i j).
Proof. unfold swap_items. draws. Qed.
Hint Resolve draws_only_randint draws_only_choice draws_only_swap_items : frame.

Lemma draws_only_shuffle_down {A} i : forall x : list A, draws_only (shuffle_down i x).
Proof. induction i as [|i IH]; intros x; simpl; draws. Qed.

Lemma draws_only_shuffle {A} (x : list A) : draws_only (shuffle x).
Proof. apply draws_only_shuffle_down. Qed.

Lemma draws_only_sample {A} (population : list A) k : draws_only (sample population k).
Proof. unfold sample. draws. Qed.

Lemma draws_only_fake p : draws_only (fake p).
Proof. unfold fake. draws. Qed.

Lemma draws_only_date_between a b : draws_only (date_between a b).
Proof. unfold date_between. draws. Qed.
Hint Resolve draws_only_shuffle draws_only_sample draws_only_fake
  draws_only_date_between : frame.

Lemma draws_only_generate_phone : draws_only generate_phone.
Proof. unfold generate_phone. draws. Qed.

Lemma draws_only_modified_name names : draws_only (modified_name names).
Proof. unfold modified_name. draws. Qed.
Hint Resolve draws_only_generate_phone draws_only_modified_name : frame.

(* ------------------------------------------------------------------ *)
(** ** The [random] module and Faker *)

Lemma randbelow_ok n w :
  0 < n ->
  exists v w', _randbelow n w = (Ok v, w') /\ 0 <= v < n /\ db w' = db w.
Proof.
  intros Hn. unfold _randbelow, draw.
  pose proof (@randbelow_range G RT RL n (entropy w) Hn) as Hr.
  destruct (randbelow n (entropy w)) as [v g]. simpl in Hr.
  exists v, (mkWorld (db w) g). repeat split; try lia.
Qed.

Lemma randbelow_inv n w r w' :
  _randbelow n w = (r, w') -> 0 < n -> exists v, r = Ok v /\ 0 <= v < n.
Proof.
  intros H Hn. destruct (randbelow_ok w Hn) as (v & w1 & E & Hv & _).
  rewrite E in H. inversion H; subst. exists v. split; [reflexivity|exact Hv].
Qed.

Lemma randint_ok a b w v w' :
  randint a b w = (Ok v, w') -> a <= v <= b.
Proof.
  unfold randint, randrange. destruct (0 <? b + 1 - a) eqn:E; intros H.
  - apply Z.ltb_lt in E.
    apply bind_ok in H as (x & w1 & Hx & H). apply ret_ok in H as [-> ->].
    apply randbelow_inv in Hx; [|exact E].
    destruct Hx as (x' & Hx' & Hr). inversion Hx'; subst. lia.
  - discriminate.
Qed.

Lemma randint_empty a b w :
  b < a ->
  randint a b w = (Raise (ValueError "empty range for randrange()"), w).
Proof.
  intros H. unfold randint, randrange.
  destruct (0 <? b + 1 - a) eqn:E; [apply Z.ltb_lt in E; lia|reflexivity].
Qed.

Lemma item_in {A} (x : list A) i a : item x i = Some a -> In a x.
Proof.
  unfold item. destruct (i <? 0); [discriminate|].
  apply nth_error_In.
Qed.

Lemma getitem_ok {A} (x : list A) i (w : World) a w' :
  getitem x i w = (Ok a, w') -> item x i = Some a /\ w' = w.
Proof.
  unfold getitem. destruct (item x i) as [b|]; intros H.
  - apply ret_ok in H as [-> ->]. split; reflexivity.
  - discriminate.
Qed.

Lemma choice_ok {A} (seq : list A) w a w' :
  choice seq w = (Ok a, w') -> In a seq.
Proof.
  unfold choice. destruct (len seq =? 0); [discriminate|]. intros H.
  apply bind_ok in H as (i & w1 & _ & H).
  apply getitem_ok in H as [H _]. exact (item_in _ _ H).
Qed.

Lemma date_between_ok s e w d w' :
  date_between s e w = (Ok d, w') -> s <= d <= e.
Proof.
  unfold date_between. destruct (e <? s) eqn:E; [discriminate|].
  apply Z.ltb_ge in E. intros H.
  apply bind_ok in H as (v & w1 & Hv & H). apply ret_ok in H as [-> ->].
  apply randbelow_inv in Hv; [|lia].
  destruct Hv as (v' & Hv' & Hr). inversion Hv'; subst. lia.
Qed.

(** *** [random.shuffle] returns a rearrangement *)

Lemma length_setitem {A} (x : list A) : forall i v,
  List.length (setitem x i v) = List.length x.
Proof.
  induction x as [|a x IH]; intros [|i] v; simpl; try reflexivity.
  rewrite IH. reflexivity.
Qed.

Lemma setitem_takes_out {A} (x : list A) : forall j (b h : A),
  nth_error x j = Some b -> Permutation (h :: x) (b :: setitem x j h).
Proof.
  induction x as [|c x IH]; intros [|j] b h Hb; simpl in *; try discriminate.
  - inversion Hb; subst. apply perm_swap.
  - eapply perm_trans; [apply perm_swap|].
    eapply perm_trans; [apply perm_skip, IH; exact Hb|]. apply perm_swap.
Qed.

Lemma swap_is_permutation {A} (x : list A) : forall i j a b,
  nth_error x i = Some a -> nth_error x j = Some b ->
  Permutation x (setitem (setitem x i b) j a).
Proof.
  induction x as [|h x IH]; intros [|i] [|j] a b Ha Hb; simpl in *;
    try discriminate.
  - inversion Ha; inversion Hb; subst. apply Permutation_refl.
  - inversion Ha; subst. apply setitem_takes_out. exact Hb.
  - inversion Hb; subst. apply setitem_takes_out. exact Ha.
  - apply perm_skip. apply IH; assumption.
Qed.

Lemma shuffle_down_ok {A} i : forall (x : list A) w,
  (i < List.length x)%nat \/ i = O ->
  exists x' w', shuffle_down i x w = (Ok x', w') /\ Permutation x x'.
Proof.
  induction i as [|i IH]; intros x w Hi.
  - exists x, w. split; [reflexivity|apply Permutation_refl].
  - destruct Hi as [Hi|Hi]; [|discriminate]. simpl shuffle_down.
    destruct (@randbelow_ok (Z.of_nat (S i) + 1) w ltac:(lia))
      as (j & w1 & Ej & Hj & _).
    erewrite bind_eq; [|exact Ej].
    destruct (nth_error x (S i)) as [a|] eqn:Ea;
      [|apply nth_error_None in Ea; lia].
    destruct (nth_error x (Z.to_nat j)) as [b|] eqn:Eb;
      [|apply nth_error_None in Eb; lia].
    assert (Es : swap_items x (S i) (Z.to_nat j) w1
                 = (Ok (setitem (setitem x (S i) b) (Z.to_nat j) a), w1)).
    { unfold swap_items. rewrite Ea, Eb. reflexivity. }
    erewrite bind_eq; [|exact Es].
    destruct (IH (setitem (setitem x (S i) b) (Z.to_nat j) a) w1)
      as (x' & w' & E & HP).
    { left. rewrite !length_setitem. lia. }
    exists x', w'. split; [exact E|].
    eapply perm_trans; [|exact HP].
    apply swap_is_permutation; assumption.
Qed.

Lemma shuffle_ok {A} (x : list A) w :
  exists x' w', shuffle x w = (Ok x', w') /\ Permutation x x' /\ db w' = db w.
Proof.
  unfold shuffle.
  destruct (@shuffle_down_ok A (List.length x - 1) x w) as (x' & w' & E & HP).
  { destruct x; simpl; [right; reflexivity|left; lia]. }
  exists x', w'. repeat split; try assumption.
  exact (draws_only_shuffle_down _ _ _ E).
Qed.

(** *** [random.sample] returns distinct members of the population *)

Lemma item_inj {A} (x : list A) i j a :
  NoDup x -> item x i = Some a -> item x j = Some a -> 0 <= i -> 0 <= j ->
  i = j.
Proof.
  unfold item. intros Hx Hi Hj Hi0 Hj0.
  destruct (i <? 0) eqn:Ei; [discriminate|].
  destruct (j <? 0) eqn:Ej; [discriminate|].
  assert (Z.to_nat i = Z.to_nat j); [|lia].
  eapply (proj1 (NoDup_nth_error x) Hx).
  - apply nth_error_Some. rewrite Hi. discriminate.
  - rewrite Hi, Hj. reflexivity.
Qed.

Lemma for_each_getitem {A} (population : list A) :
  forall positions (w : World) l w',
  for_each positions (getitem population) w = (Ok l, w') ->
  Forall2 (fun j a => item population j = Some a) positions l.
Proof.
  induction positions as [|j positions IH]; intros w l w' H; simpl in H.
  - apply ret_ok in H as [-> _]. constructor.
  - apply bind_ok in H as (a & w1 & Ha & H).
    apply bind_ok in H as (l' & w2 & Hl & H). apply ret_ok in H as [-> ->].
    apply getitem_ok in Ha as [Ha ->]. constructor; [exact Ha|].
    eapply IH; exact Hl.
Qed.

Lemma items_in {A} (population : list A) positions l :
  Forall2 (fun j a => item population j = Some a) positions l ->
  forall a, In a l ->
  exists j, In j positions /\ item population j = Some a.
Proof.
  induction 1 as [|j b ps l Hj H IH]; intros a Ha.
  - destruct Ha.
  - destruct Ha as [->|Ha].
    + exists j. split; [left; reflexivity|exact Hj].
    + destruct (IH a Ha) as (j' & Hin & Hit).
      exists j'. split; [right; exact Hin|exact Hit].
Qed.

Lemma items_NoDup {A} (population : list A) positions l :
  NoDup population -> NoDup positions -> Forall (fun j => 0 <= j) positions ->
  Forall2 (fun j a => item population j = Some a) positions l ->
  NoDup l.
Proof.
  intros Hpop Hnd Hpos H. induction H as [|j a ps l Hja H IH].
  - constructor.
  - inversion Hnd; subst. inversion Hpos; subst.
    constructor; [|apply IH; assumption].
    intros Hal. destruct (@items_in _ _ _ _ H a Hal) as (j' & Hj'in & Hj').
    assert (0 <= j') by (rewrite Forall_forall in H5; apply H5; exact Hj'in).
    assert (j = j') by (apply (@item_inj _ population j j' a); assumption).
    subst. contradiction.
Qed.

Lemma sample_ok {A} (population : list A) k w l w' :
  sample population k w = (Ok l, w') ->
  0 <= k <= len population /\ len l = k
  /\ (forall a, In a l -> In a population)
  /\ (NoDup population -> NoDup l).
Proof.
  unfold sample.
  destruct ((0 <=? k) && (k <=? len population)) eqn:E; [|discriminate].
  apply andb_true_iff in E as [E1 E2].
  apply Z.leb_le in E1, E2. intros H.
  apply bind_ok in H as (positions & w1 & Hp & H).
  unfold draw in Hp.
  pose proof (@sample_indices_spec G RT RL (len population) k (entropy w)
                (conj E1 E2)) as (Hlen & Hnd & Hin).
  destruct (sample_indices (len population) k (entropy w)) as [ps g].
  simpl in *. inversion Hp; subst positions w1.
  apply for_each_getitem in H.
  split; [lia|]. split; [|split].
  - unfold len in *. rewrite <- (Forall2_length H). exact Hlen.
  - intros a Ha. destruct (@items_in _ _ _ _ H a Ha) as (j & _ & Hj).
    eapply item_in; exact Hj.
  - intros Hpop. eapply items_NoDup; try eassumption.
    eapply Forall_impl; [|exact Hin]. simpl. intros; lia.
Qed.

(* ------------------------------------------------------------------ *)
(** ** The Create models accept only what their fields allow *)

Lemma refused_nil ok field : refused ok field = [] -> ok = true.
Proof. destruct ok; [reflexivity|discriminate]. Qed.

Lemma DepartmentName_round_trip n :
  DepartmentName_of_value (DepartmentName_value n) = Some n.
Proof. destruct n; reflexivity. Qed.

Lemma DepartmentName_of_value_sound v n :
  DepartmentName_of_value v = Some n -> v = DepartmentName_value n.
Proof.
  unfold DepartmentName_of_value. intros H.
  apply find_some in H as [_ H]. apply String.eqb_eq in H. symmetry. exact H.
Qed.

Lemma DepartmentCreate_ok name location budget head established count data :
  DepartmentCreate name location budget head established count = Ok data ->
  exists n,
    DepartmentName_of_value name = Some n
    /\ data = DepartmentCreate.make n location budget head established count
    /\ (0 <? budget)%float = true
    /\ 0 <= count.
Proof.
  unfold DepartmentCreate.
  destruct (DepartmentName_of_value name) as [n|]; [|discriminate].
  destruct (refused _ "name" ++ refused _ "budget" ++ refused _ "employee_count")
    as [|f fs] eqn:E; [|discriminate].
  apply app_eq_nil in E as [_ E]. apply app_eq_nil in E as [E1 E2].
  apply refused_nil in E1, E2. apply Z.leb_le in E2.
  intros H. inversion H; subst. exists n. repeat split; assumption.
Qed.

(** A field that is refused makes the constructor raise. *)
Lemma DepartmentCreate_name_refused name location budget head established count :
  DepartmentName_of_value name = None ->
  exists fields,
    DepartmentCreate name location budget head established count
    = Raise (ValidationError "DepartmentCreate" fields)
    /\ In "name"%string fields.
Proof.
  intros Hn. unfold DepartmentCreate. rewrite Hn.
  eexists. split; [reflexivity|]. left. reflexivity.
Qed.

Lemma EmployeeCreate_ok first last email phone hire_date job_title dept data :
  EmployeeCreate email_str today first last email phone hire_date job_title dept
  = Ok data ->
  data = EmployeeCreate.make first last email phone hire_date job_title dept
  /\ hire_date <= today.
Proof.
  unfold EmployeeCreate.
  match goal with |- match ?l with _ => _ end = _ -> _ =>
    destruct l as [|f fs] eqn:E; [|discriminate] end.
  repeat (apply app_eq_nil in E as [_ E]).
  apply refused_nil in E. unfold validate_hire_date in E.
  apply negb_true_iff, Z.ltb_ge in E.
  intros H. inversion H; subst. split; [reflexivity|exact E].
Qed.

Lemma ProjectCreate_ok name description start_date end_date budget status dept data :
  ProjectCreate name description start_date end_date budget status dept = Ok data ->
  data = ProjectCreate.make name (Some description) start_date (Some end_date)
           budget status dept.
Proof.
  unfold ProjectCreate.
  match goal with |- match ?l with _ => _ end = _ -> _ =>
    destruct l as [|f fs]; [|discriminate] end.
  intros H. inversion H; subst. reflexivity.
Qed.

Lemma SalaryCreate_ok employee_id amount payment_date tax bonus method data :
  SalaryCreate employee_id amount payment_date tax bonus method = Ok data ->
  data = SalaryCreate.make employee_id amount payment_date tax bonus method
  /\ (0 <? amount)%float = true
  /\ (0 <=? tax)%float = true
  /\ (0 <=? bonus)%float = true.
Proof.
  unfold SalaryCreate.
  match goal with |- match ?l with _ => _ end = _ -> _ =>
    destruct l as [|f fs] eqn:E; [|discriminate] end.
  apply app_eq_nil in E as [E1 E]. apply app_eq_nil in E as [E2 E3].
  apply refused_nil in E1, E2, E3.
  intros H. inversion H; subst. repeat split; assumption.
Qed.

(* ------------------------------------------------------------------ *)
(** ** What one stage writes *)

Lemma tables_eta (t : Tables) :
  t = mkTables (departments t) (employees t) (projects t) (salaries t)
        (project_employees t).
Proof. destruct t; reflexivity. Qed.

Lemma session_same (s : Session) :
  s = mkSession (stored s)
        (mkTables (departments (working s)) (employees (working s))
           (projects (working s)) (salaries (working s))
           (project_employees (working s))).
Proof. destruct s as [st [a b c d e]]; reflexivity. Qed.

(** Decompose [H : bind m k w = (Ok _, _)] at a draw: the value drawn and
    the session left as it was. *)
Ltac draw_step H :=
  let x := fresh "x" in
  let w1 := fresh "w" in
  let Hx := fresh "Hx" in
  let D := fresh "D" in
  apply bind_ok in H as (x & w1 & Hx & H);
  match type of Hx with
  | ?m _ = _ =>
      assert (D : draws_only m) by (auto with frame);
      specialize (D _ _ _ Hx)
  end.

(** Read the session of a later world back to the one it was drawn from. *)
Ltac same_db :=
  repeat match goal with
         | D : db ?a = db ?b |- context [db ?a] => rewrite D
         end.

Lemma new_department_ok dept_name employees_per_dept w dept w' :
  new_department dept_name employees_per_dept w = (Ok dept, w') ->
  adds_departments [dept] w w'
  /\ Department.id dept
     = next_id (map Department.id (departments (working (db w))))
  /\ (exists n, DepartmentName_of_value dept_name = Some n
                /\ Department.name dept = DepartmentName_value n)
  /\ minus_5y <= Department.established_date dept <= today
  /\ Department.employee_count dept = employees_per_dept.
Proof.
  unfold new_department. intros H.
  do 6 draw_step H.
  match goal with E : date_between _ _ _ = _ |- _ =>
    apply date_between_ok in E end.
  match goal with E : lift _ _ = _ |- _ =>
    unfold lift in E; inversion E; subst; clear E end.
  match goal with E : DepartmentCreate _ _ _ _ _ _ = _ |- _ =>
    apply DepartmentCreate_ok in E as (n & Hn & -> & _ & _) end.
  unfold add_Department in H. inversion H; subst; clear H.
  unfold adds_departments. simpl. same_db.
  repeat split; try lia. exists n. split; [exact Hn|reflexivity].
Qed.

Lemma new_employee_ok dept w emp w' :
  new_employee dept w = (Ok emp, w') ->
  adds_employees [emp] w w'
  /\ Employee.id emp = next_id (map Employee.id (employees (working (db w))))
  /\ Employee.department_id emp = Some (Department.id dept)
  /\ Department.established_date dept <= Employee.hire_date emp <= today.
Proof.
  unfold new_employee. intros H.
  do 7 draw_step H.
  match goal with E : date_between _ _ _ = _ |- _ =>
    apply date_between_ok in E end.
  match goal with E : lift _ _ = _ |- _ =>
    unfold lift in E; inversion E; subst; clear E end.
  match goal with E : EmployeeCreate _ _ _ _ _ _ _ _ _ = _ |- _ =>
    apply EmployeeCreate_ok in E as (-> & Hh) end.
  unfold add_Employee in H. inversion H; subst; clear H.
  unfold adds_employees. simpl. same_db.
  repeat split; lia.
Qed.

Lemma new_project_ok dept w project w' :
  new_project dept w = (Ok project, w') ->
  adds_projects [project] w w'
  /\ Project.id project = next_id (map Project.id (projects (working (db w))))
  /\ Project.department_id project = Department.id dept.
Proof.
  unfold new_project. intros H.
  do 7 draw_step H.
  match goal with E : lift _ _ = _ |- _ =>
    unfold lift in E; inversion E; subst; clear E end.
  match goal with E : ProjectCreate _ _ _ _ _ _ _ = _ |- _ =>
    apply ProjectCreate_ok in E as -> end.
  unfold add_Project in H. inversion H; subst; clear H.
  unfold adds_projects. simpl. same_db.
  repeat split.
Qed.

Lemma new_assignment_ok project emp w u w' :
  new_assignment project emp w = (Ok u, w') ->
  exists assignment,
    adds_assignments [assignment] w w'
    /\ ProjectEmployee.employee_id assignment = Employee.id emp
    /\ ProjectEmployee.project_id assignment = Project.id project
    /\ Project.start_date project <= ProjectEmployee.join_date assignment
       <= Project.start_date project + 30.
Proof.
  unfold new_assignment. intros H.
  do 2 draw_step H.
  match goal with E : date_between _ _ _ = _ |- _ =>
    apply date_between_ok in E end.
  unfold add_ProjectEmployee, on_working in H. inversion H; subst; clear H.
  eexists. unfold adds_assignments. simpl. same_db.
  split; [reflexivity|]. simpl. repeat split; lia.
Qed.

Lemma new_salary_ok emp base_salary w u w' :
  new_salary emp base_salary w = (Ok u, w') ->
  exists salary,
    adds_salaries [salary] w w'
    /\ Salary.employee_id salary = Employee.id emp
    /\ Employee.hire_date emp <= Salary.payment_date salary <= today
    /\ (0 <? Salary.amount salary)%float = true
    /\ (0 <=? Salary.tax_deduction salary)%float = true
    /\ (0 <=? Salary.bonus salary)%float = true
    /\ salary_amounts base_salary salary.
Proof.
  unfold new_salary. intros H.
  do 6 draw_step H.
  match goal with E : date_between _ _ _ = _ |- _ =>
    apply date_between_ok in E end.
  match goal with E : lift _ _ = _ |- _ =>
    unfold lift in E; inversion E; subst; clear E end.
  match goal with E : SalaryCreate _ _ _ _ _ _ = _ |- _ =>
    apply SalaryCreate_ok in E as (-> & Ha & Ht & Hb) end.
  apply bind_ok in H as (salary & w6 & Hadd & H).
  apply ret_ok in H as [_ ->].
  unfold add_Salary in Hadd. inversion Hadd; subst; clear Hadd.
  eexists. unfold adds_salaries. simpl. same_db.
  split; [reflexivity|]. simpl. repeat split; try assumption; try lia.
  unfold salary_amounts. simpl.
  do 3 eexists. repeat split; try reflexivity; unfold drawn; eauto.
Qed.

(* ------------------------------------------------------------------ *)
(** ** What a loop writes *)

Lemma adds_departments_nil (w w' : World) :
  db w' = db w -> adds_departments [] w w'.
Proof.
  intros H. unfold adds_departments. rewrite app_nil_r, H.
  apply session_same.
Qed.

Lemma adds_employees_nil (w w' : World) :
  db w' = db w -> adds_employees [] w w'.
Proof.
  intros H. unfold adds_employees. rewrite app_nil_r, H.
  apply session_same.
Qed.

Lemma adds_projects_nil (w w' : World) :
  db w' = db w -> adds_projects [] w w'.
Proof.
  intros H. unfold adds_projects. rewrite app_nil_r, H.
  apply session_same.
Qed.

Lemma adds_salaries_nil (w w' : World) :
  db w' = db w -> adds_salaries [] w w'.
Proof.
  intros H. unfold adds_salaries. rewrite app_nil_r, H.
  apply session_same.
Qed.

Lemma adds_assignments_nil (w w' : World) :
  db w' = db w -> adds_assignments [] w w'.
Proof.
  intros H. unfold adds_assignments. rewrite app_nil_r, H.
  apply session_same.
Qed.

Lemma adds_departments_app r1 r2 (w w1 w2 : World) :
  adds_departments r1 w w1 -> adds_departments r2 w1 w2 ->
  adds_departments (r1 ++ r2) w w2.
Proof.
  unfold adds_departments. intros H1 H2. rewrite H2, H1. simpl.
  rewrite app_assoc. reflexivity.
Qed.

Lemma adds_employees_app r1 r2 (w w1 w2 : World) :
  adds_employees r1 w w1 -> adds_employees r2 w1 w2 ->
  adds_employees (r1 ++ r2) w w2.
Proof.
  unfold adds_employees. intros H1 H2. rewrite H2, H1. simpl.
  rewrite app_assoc. reflexivity.
Qed.

Lemma adds_projects_app r1 r2 (w w1 w2 : World) :
  adds_projects r1 w w1 -> adds_projects r2 w1 w2 ->
  adds_projects (r1 ++ r2) w w2.
Proof.
  unfold adds_projects. intros H1 H2. rewrite H2, H1. simpl.
  rewrite app_assoc. reflexivity.
Qed.

Lemma adds_salaries_app r1 r2 (w w1 w2 : World) :
  adds_salaries r1 w w1 -> adds_salaries r2 w1 w2 ->
  adds_salaries (r1 ++ r2) w w2.
Proof.
  unfold adds_salaries. intros H1 H2. rewrite H2, H1. simpl.
  rewrite app_assoc. reflexivity.
Qed.

Lemma adds_assignments_app r1 r2 (w w1 w2 : World) :
  adds_assignments r1 w w1 -> adds_assignments r2 w1 w2 ->
  adds_assignments (r1 ++ r2) w w2.
Proof.
  unfold adds_assignments. intros H1 H2. rewrite H2, H1. simpl.
  rewrite app_assoc. reflexivity.
Qed.

Section LoopWrites.

(** A table, by the relation "these rows were appended to it". *)
Variable Row : Type.
Variable adds : list Row -> World -> World -> Prop.
Hypothesis adds_nil : forall w w', db w' = db w -> adds [] w w'.
Hypothesis adds_app : forall r1 r2 w w1 w2,
  adds r1 w w1 -> adds r2 w1 w2 -> adds (r1 ++ r2) w w2.

(** When every successful turn on [x] appends rows that satisfy [P x], and
    keeps [Inv], the loop appends the rows of its turns in order.  [turns]
    pairs what each turn returned with the rows it appended. *)
Lemma for_each_adds {A B} (body : A -> M B)
    (P : A -> B -> list Row -> Prop) (Inv : World -> Prop) xs :
  (forall x w1 y w2,
      In x xs -> Inv w1 -> body x w1 = (Ok y, w2) ->
      exists rows, adds rows w1 w2 /\ P x y rows /\ Inv w2) ->
  forall w ys w',
    Inv w -> for_each xs body w = (Ok ys, w') ->
    exists turns,
      ys = map fst turns
      /\ adds (List.concat (map snd turns)) w w'
      /\ Forall2 (fun x t => P x (fst t) (snd t)) xs turns
      /\ Inv w'.
Proof.
  intros Hbody w ys w' Hinv Hrun.
  apply (@for_each_ok _ _ body
           (fun done out w1 =>
              exists turns,
                out = map fst turns
                /\ adds (List.concat (map snd turns)) w w1
                /\ Forall2 (fun x t => P x (fst t) (snd t)) done turns
                /\ Inv w1) xs w ys w' Hrun).
  - exists []. simpl. repeat split; auto.
  - intros done x out w1 y w2 (turns & Hout & Hadds & HF & Hi) Hx Hy.
    destruct (Hbody x w1 y w2 Hx Hi Hy) as (rows & Hrows & HP & Hi2).
    exists (turns ++ [(y, rows)]). repeat split.
    + rewrite map_app, Hout. reflexivity.
    + rewrite map_app, concat_app. simpl. rewrite app_nil_r.
      eapply adds_app; eassumption.
    + apply Forall2_app; [exact HF|]. constructor; [exact HP|constructor].
    + exact Hi2.
Qed.

End LoopWrites.

(** Rows and loop results, when a turn returns the very row it appends. *)
Lemma turns_rows {A B} (P : A -> B -> Prop) xs (turns : list (B * list B)) :
  Forall2 (fun x t => snd t = [fst t] /\ P x (fst t)) xs turns ->
  List.concat (map snd turns) = map fst turns /\ Forall2 P xs (map fst turns).
Proof.
  induction 1 as [|x [y rows] xs turns [Hr HP] HF [IH1 IH2]]; simpl in *.
  - split; [reflexivity|constructor].
  - subst rows. simpl. rewrite IH1. split; [reflexivity|].
    constructor; assumption.
Qed.

(** The same when a turn returns the list of rows it appends. *)
Lemma turns_groups {A B} (P : A -> list B -> Prop) xs
    (turns : list (list B * list B)) :
  Forall2 (fun x t => snd t = fst t /\ P x (fst t)) xs turns ->
  map snd turns = map fst turns /\ Forall2 P xs (map fst turns).
Proof.
  induction 1 as [|x [y rows] xs turns [Hr HP] HF [IH1 IH2]]; simpl in *.
  - split; [reflexivity|constructor].
  - subst rows. rewrite IH1. split; [reflexivity|].
    constructor; assumption.
Qed.

(** The same when a turn returns nothing. *)
Lemma turns_units {A B} (P : A -> list B -> Prop) xs
    (turns : list (unit * list B)) :
  Forall2 (fun x t => P x (snd t)) xs turns ->
  Forall2 P xs (map snd turns).
Proof.
  induction 1 as [|x [y rows] xs turns HP HF IH]; simpl in *; constructor;
    assumption.
Qed.

(** *** Primary keys *)

Lemma next_id_above ids : forall i, In i ids -> i < next_id ids.
Proof.
  unfold next_id. induction ids as [|a ids IH]; intros i Hi.
  - destruct Hi.
  - cbn [fold_right]. destruct Hi as [->|Hi]; [lia|].
    specialize (IH i Hi). lia.
Qed.

Lemma next_id_fresh ids : NoDup ids -> NoDup (ids ++ [next_id ids]).
Proof.
  intros H. apply NoDup_app.
  - exact H.
  - constructor; [intros []|constructor].
  - intros i Hi [Hn|[]]. pose proof (next_id_above ids i Hi). lia.
Qed.

Lemma Forall2_right {A B} (Q : B -> Prop) (xs : list A) ys :
  Forall2 (fun _ y => Q y) xs ys -> Forall Q ys.
Proof. induction 1; constructor; assumption. Qed.

Lemma length_range start stop :
  List.length (range start stop) = Z.to_nat (stop - start).
Proof. unfold range. rewrite length_map, length_seq. reflexivity. Qed.

Lemma db_commit_ok w u w' : db_commit w = (Ok u, w') -> committed w w'.
Proof. unfold db_commit, committed. intros H. inversion H. reflexivity. Qed.

(* ------------------------------------------------------------------ *)
(** ** Stage 2: employees *)

Lemma adds_employee_key emp (w w' : World) :
  adds_employees [emp] w w' ->
  Employee.id emp = next_id (employee_keys w) ->
  NoDup (employee_keys w) -> NoDup (employee_keys w').
Proof.
  unfold adds_employees, employee_keys. intros Hdb Hid H. rewrite Hdb. simpl.
  rewrite map_app. simpl. rewrite Hid. apply next_id_fresh. exact H.
Qed.

Lemma employees_of_dept_ok dept employees_per_dept w group w' :
  for_each (range 0 employees_per_dept) (fun _ => new_employee dept) w
  = (Ok group, w') ->
  NoDup (employee_keys w) ->
  adds_employees group w w'
  /\ List.length group = Z.to_nat employees_per_dept
  /\ Forall (employee_of dept) group
  /\ NoDup (employee_keys w').
Proof.
  intros Hrun Hkeys.
  destruct (@for_each_adds _ adds_employees adds_employees_nil
              adds_employees_app _ _ (fun _ => new_employee dept)
              (fun _ emp rows => rows = [emp] /\ employee_of dept emp)
              (fun w => NoDup (employee_keys w))
              (range 0 employees_per_dept))
    with (3 := Hrun) as (turns & Hys & Hadds & HF & Hinv); [|exact Hkeys|].
  { intros _ w1 emp w2 _ Hi Hnew.
    apply new_employee_ok in Hnew as (Ha & Hid & Hd & Hh).
    exists [emp]. split; [exact Ha|]. split; [split; [reflexivity|split; assumption]|].
    eapply adds_employee_key; eassumption. }
  apply (@turns_rows _ _ (fun _ emp => employee_of dept emp)) in HF as [Hc HF].
  rewrite Hc, <- Hys in Hadds. rewrite <- Hys in HF.
  split; [exact Hadds|]. split; [|split; [|exact Hinv]].
  - rewrite <- (Forall2_length HF), length_range. f_equal. lia.
  - exact (Forall2_right _ HF).
Qed.

Lemma generate_employees_ok dept_objects employees_per_dept w employee_objects w' :
  generate_employees dept_objects employees_per_dept w
  = (Ok employee_objects, w') ->
  NoDup (employee_keys w) ->
  exists groups w1,
    employee_objects = List.concat groups
    /\ Forall2 (fun dept group =>
                  List.length group = Z.to_nat employees_per_dept
                  /\ Forall (employee_of dept) group) dept_objects groups
    /\ adds_employees employee_objects w w1
    /\ committed w1 w'
    /\ NoDup (employee_keys w1).
Proof.
  unfold generate_employees. intros Hrun Hkeys.
  apply bind_ok in Hrun as (per_dept & w1 & Hloop & Hrun).
  apply bind_ok in Hrun as (u & w2 & Hcommit & Hrun).
  apply ret_ok in Hrun as [-> ->]. apply db_commit_ok in Hcommit.
  destruct (@for_each_adds _ adds_employees adds_employees_nil
              adds_employees_app _ _
              (fun dept => for_each (range 0 employees_per_dept)
                             (fun _ => new_employee dept))
              (fun dept group rows =>
                 rows = group
                 /\ List.length group = Z.to_nat employees_per_dept
                 /\ Forall (employee_of dept) group)
              (fun w => NoDup (employee_keys w))
              dept_objects)
    with (3 := Hloop) as (turns & Hys & Hadds & HF & Hinv); [|exact Hkeys|].
  { intros dept wa group wb _ Hi Hg.
    apply employees_of_dept_ok in Hg as (Ha & Hl & Hf & Hk); [|exact Hi].
    exists group. repeat split; assumption. }
  apply (@turns_groups _ _ (fun dept group =>
            List.length group = Z.to_nat employees_per_dept
            /\ Forall (employee_of dept) group)) in HF as [Hc HF].
  rewrite Hc, <- Hys in Hadds. rewrite <- Hys in HF.
  exists per_dept, w1. repeat split; assumption.
Qed.

(* ------------------------------------------------------------------ *)
(** ** Stage 3: projects *)

Lemma adds_project_key project (w w' : World) :
  adds_projects [project] w w' ->
  Project.id project = next_id (project_keys w) ->
  NoDup (project_keys w) -> NoDup (project_keys w').
Proof.
  unfold adds_projects, project_keys. intros Hdb Hid H. rewrite Hdb. simpl.
  rewrite map_app. simpl. rewrite Hid. apply next_id_fresh. exact H.
Qed.

Lemma projects_of_dept_ok dept projects_per_dept w group w' :
  for_each (range 0 projects_per_dept) (fun _ => new_project dept) w
  = (Ok group, w') ->
  NoDup (project_keys w) ->
  adds_projects group w w'
  /\ List.length group = Z.to_nat projects_per_dept
  /\ Forall (fun project =>
               Project.department_id project = Department.id dept) group
  /\ NoDup (project_keys w').
Proof.
  intros Hrun Hkeys.
  destruct (@for_each_adds _ adds_projects adds_projects_nil
              adds_projects_app _ _ (fun _ => new_project dept)
              (fun _ project rows =>
                 rows = [project]
                 /\ Project.department_id project = Department.id dept)
              (fun w => NoDup (project_keys w))
              (range 0 projects_per_dept))
    with (3 := Hrun) as (turns & Hys & Hadds & HF & Hinv); [|exact Hkeys|].
  { intros _ w1 project w2 _ Hi Hnew.
    apply new_project_ok in Hnew as (Ha & Hid & Hd).
    exists [project]. split; [exact Ha|]. split; [split; [reflexivity|assumption]|].
    eapply adds_project_key; eassumption. }
  apply (@turns_rows _ _ (fun _ project =>
            Project.department_id project = Department.id dept))
    in HF as [Hc HF].
  rewrite Hc, <- Hys in Hadds. rewrite <- Hys in HF.
  split; [exact Hadds|]. split; [|split; [|exact Hinv]].
  - rewrite <- (Forall2_length HF), length_range. f_equal. lia.
  - exact (Forall2_right _ HF).
Qed.

Lemma generate_projects_ok dept_objects projects_per_dept w project_objects w' :
  generate_projects dept_objects projects_per_dept w
  = (Ok project_objects, w') ->
  NoDup (project_keys w) ->
  exists groups w1,
    project_objects = List.concat groups
    /\ Forall2 (fun dept group =>
                  List.length group = Z.to_nat projects_per_dept
                  /\ Forall (fun project =>
                               Project.department_id project
                               = Department.id dept) group)
         dept_objects groups
    /\ adds_projects project_objects w w1
    /\ committed w1 w'
    /\ NoDup (project_keys w1).
Proof.
  unfold generate_projects. intros Hrun Hkeys.
  apply bind_ok in Hrun as (per_dept & w1 & Hloop & Hrun).
  apply bind_ok in Hrun as (u & w2 & Hcommit & Hrun).
  apply ret_ok in Hrun as [-> ->]. apply db_commit_ok in Hcommit.
  destruct (@for_each_adds _ adds_projects adds_projects_nil
              adds_projects_app _ _
              (fun dept => for_each (range 0 projects_per_dept)
                             (fun _ => new_project dept))
              (fun dept group rows =>
                 rows = group
                 /\ List.length group = Z.to_nat projects_per_dept
                 /\ Forall (fun project =>
                              Project.department_id project
                              = Department.id dept) group)
              (fun w => NoDup (project_keys w))
              dept_objects)
    with (3 := Hloop) as (turns & Hys & Hadds & HF & Hinv); [|exact Hkeys|].
  { intros dept wa group wb _ Hi Hg.
    apply projects_of_dept_ok in Hg as (Ha & Hl & Hf & Hk); [|exact Hi].
    exists group. repeat split; assumption. }
  apply (@turns_groups _ _ (fun dept group =>
            List.length group = Z.to_nat projects_per_dept
            /\ Forall (fun project =>
                         Project.department_id project
                         = Department.id dept) group)) in HF as [Hc HF].
  rewrite Hc, <- Hys in Hadds. rewrite <- Hys in HF.
  exists per_dept, w1. repeat split; assumption.
Qed.

(* ------------------------------------------------------------------ *)
(** ** Stage 1: departments *)

Lemma modified_name_ok all_dept_names w dept_name w' :
  modified_name all_dept_names w = (Ok dept_name, w') ->
  exists base_name n,
    In base_name all_dept_names /\ 1 <= n <= 100
    /\ dept_name = (format_member base_name ++ " " ++ str_int n)%string.
Proof.
  unfold modified_name. intros H.
  apply bind_ok in H as (base_name & w1 & Hb & H).
  apply bind_ok in H as (n & w2 & Hn & H). apply ret_ok in H as [-> ->].
  apply choice_ok in Hb. apply randint_ok in Hn.
  exists base_name, n. repeat split; try assumption; lia.
Qed.

Lemma has_space_app prefix suffix :
  has_space (prefix ++ " " ++ suffix)%string = true.
Proof.
  change (" " ++ suffix)%string with (String " " suffix).
  induction prefix as [|c prefix IH]; simpl.
  - reflexivity.
  - rewrite IH. apply orb_true_r.
Qed.

(** No member of [DepartmentName] has a value with a space in it, so none
    is a name with a suffix, however the member is rendered. *)
Lemma modified_name_is_no_member prefix suffix :
  DepartmentName_of_value (prefix ++ " " ++ suffix)%string = None.
Proof.
  destruct (DepartmentName_of_value (prefix ++ " " ++ suffix)) as [n|] eqn:E;
    [|reflexivity].
  apply DepartmentName_of_value_sound in E.
  apply (f_equal has_space) in E. rewrite has_space_app in E.
  destruct n; discriminate.
Qed.

Lemma adds_department_key dept (w w' : World) :
  adds_departments [dept] w w' ->
  Department.id dept = next_id (department_keys w) ->
  NoDup (department_keys w) -> NoDup (department_keys w').
Proof.
  unfold adds_departments, department_keys. intros Hdb Hid H. rewrite Hdb.
  simpl. rewrite map_app. simpl. rewrite Hid. apply next_id_fresh. exact H.
Qed.

Lemma skipn_nth_error {A} (l : list A) : forall a v,
  nth_error l a = Some v -> skipn a l = v :: skipn (S a) l.
Proof.
  induction l as [|x l IH]; intros [|a] v H; simpl in *; try discriminate.
  - inversion H; reflexivity.
  - rewrite (IH a v H). destruct l; reflexivity.
Qed.

(** Rows named after the members at the positions [a, a + k) carry the
    names of that stretch of the list, in order. *)
Lemma names_of_positions (order : list DepartmentName) : forall k a depts,
  Forall2 (fun j dept =>
             exists n, nth_error order j = Some n
                       /\ Department.name dept = DepartmentName_value n)
    (seq a k) depts ->
  map Department.name depts
  = map DepartmentName_value (firstn k (skipn a order)).
Proof.
  induction k as [|k IH]; intros a depts H; simpl in H.
  - inversion H; subst. reflexivity.
  - inversion H as [|j dept js depts' (n & Hn & Hname) H']; subst.
    rewrite (skipn_nth_error _ _ Hn). cbn [firstn map].
    rewrite Hname. f_equal. apply IH. exact H'.
Qed.

Lemma Forall2_map_l {A A' B} (f : A -> A') (R : A' -> B -> Prop) xs ys :
  Forall2 R (map f xs) ys <-> Forall2 (fun x y => R (f x) y) xs ys.
Proof.
  split.
  - revert ys. induction xs as [|x xs IH]; intros ys H; inversion H; subst;
      constructor; auto.
  - induction 1; simpl; constructor; auto.
Qed.

(** The turns of the first loop: the members at the positions [0, k), in
    the shuffled order. *)
Lemma first_departments_ok order e k w first w' :
  for_each (range 0 k)
    (fun i => bind (getitem order i)
                (fun dept_name =>
                   new_department (DepartmentName_value dept_name) e)) w
  = (Ok first, w') ->
  NoDup (department_keys w) ->
  adds_departments first w w'
  /\ map Department.name first
     = map DepartmentName_value (firstn (Z.to_nat k) order)
  /\ Forall (department_fields e) first
  /\ NoDup (department_keys w').
Proof.
  intros Hfirst Hkeys.
  destruct (@for_each_adds _ adds_departments adds_departments_nil
              adds_departments_app _ _
              (fun i => bind (getitem order i)
                          (fun dept_name =>
                             new_department (DepartmentName_value dept_name)
                               e))
              (fun i dept rows =>
                 rows = [dept]
                 /\ (exists n, nth_error order (Z.to_nat i) = Some n
                               /\ Department.name dept = DepartmentName_value n)
                    /\ department_fields e dept)
              (fun w => NoDup (department_keys w))
              (range 0 k))
    with (3 := Hfirst) as (turns & Hys & Hadds & HF & Hinv); [|exact Hkeys|].
  { intros i wa dept wb Hi Hinv Hbody.
    apply bind_ok in Hbody as (dept_name & wc & Hget & Hnew).
    apply getitem_ok in Hget as [Hitem ->].
    apply new_department_ok in Hnew as (Ha & Hid & (n & Hn & Hname) & Hest & Hcount).
    rewrite DepartmentName_round_trip in Hn. inversion Hn; subst n.
    exists [dept]. split; [exact Ha|]. split.
    - split; [reflexivity|]. split.
      + exists dept_name. split; [|exact Hname].
        unfold item in Hitem. destruct (i <? 0); [discriminate|exact Hitem].
      + split; assumption.
    - eapply adds_department_key; eassumption. }
  apply (@turns_rows _ _
           (fun i dept =>
              (exists n, nth_error order (Z.to_nat i) = Some n
                         /\ Department.name dept = DepartmentName_value n)
              /\ department_fields e dept)) in HF as [Hc HF].
  rewrite Hc, <- Hys in Hadds. rewrite <- Hys in HF.
  split; [exact Hadds|]. split; [|split; [|exact Hinv]].
  - unfold range in HF. apply Forall2_map_l in HF.
    replace (Z.to_nat (k - 0)) with (Z.to_nat k) in HF by lia.
    rewrite (@names_of_positions order (Z.to_nat k) 0 first).
    + reflexivity.
    + eapply Forall2_impl; [|exact HF]. simpl.
      intros j dept [(n & Hn & Hname) _]. exists n.
      rewrite Nat2Z.id in Hn. split; assumption.
  - apply (@Forall2_right _ _ (department_fields e) (range 0 k)).
    eapply Forall2_impl; [|exact HF]. simpl. intros i dept [_ H]. exact H.
Qed.

(** A turn of the second loop never completes. *)
Lemma no_modified_department names e w dept w' :
  bind (modified_name names) (fun dept_name => new_department dept_name e) w
  = (Ok dept, w') -> False.
Proof.
  intros H. apply bind_ok in H as (dept_name & wb & Hname & Hnew).
  apply modified_name_ok in Hname as (base_name & n & _ & _ & ->).
  apply new_department_ok in Hnew as (_ & _ & (m & Hm & _) & _).
  rewrite modified_name_is_no_member in Hm. discriminate.
Qed.

Lemma generate_departments_ok departments employees_per_dept w dept_objects w' :
  generate_departments departments employees_per_dept w
  = (Ok dept_objects, w') ->
  NoDup (department_keys w) ->
  exists order w1,
    Permutation all_DepartmentName order
    /\ departments <= 5
    /\ map Department.name dept_objects
       = map DepartmentName_value (firstn (Z.to_nat departments) order)
    /\ Forall (department_fields employees_per_dept) dept_objects
    /\ adds_departments dept_objects w w1
    /\ committed w1 w'
    /\ NoDup (department_keys w1).
Proof.
  unfold generate_departments. intros Hrun Hkeys.
  apply bind_ok in Hrun as (order & w0 & Hshuffle & Hrun).
  apply bind_ok in Hrun as (first & w1 & Hfirst & Hrun).
  apply bind_ok in Hrun as (more & w2 & Hmore & Hrun).
  apply bind_ok in Hrun as (u & w3 & Hcommit & Hrun).
  apply ret_ok in Hrun as [-> ->]. apply db_commit_ok in Hcommit.
  (* the shuffle *)
  destruct (shuffle_ok all_DepartmentName w) as (order' & w0' & E & Hperm & Hdb0).
  rewrite E in Hshuffle. inversion Hshuffle; subst order' w0'. clear E Hshuffle.
  assert (Hlen : len order = 5).
  { unfold len. rewrite <- (Permutation_length Hperm). reflexivity. }
  rewrite Hlen in *.
  (* past the enum: no such name is accepted, so the loop has no turn *)
  assert (Hd : departments <= 5).
  { destruct (Z_le_gt_dec departments 5) as [|Hgt]; [assumption|exfalso].
    assert (Hr : exists rest, range 5 departments = 5 :: rest).
    { unfold range. destruct (Z.to_nat (departments - 5)) as [|k] eqn:Ek; [lia|].
      simpl. eexists. reflexivity. }
    destruct Hr as (rest & Hr). rewrite Hr in Hmore. simpl in Hmore.
    apply bind_ok in Hmore as (dept & wa & Hbody & _).
    exact (no_modified_department _ _ _ Hbody). }
  assert (Hnone : range 5 departments = []).
  { unfold range. replace (Z.to_nat (departments - 5)) with O by lia.
    reflexivity. }
  rewrite Hnone in Hmore. simpl in Hmore. apply ret_ok in Hmore as [-> ->].
  rewrite app_nil_r.
  (* the enum's names, in shuffled order *)
  replace (Z.min departments 5) with departments in Hfirst by lia.
  apply first_departments_ok in Hfirst as (Hadds & Hnames & Hfields & Hinv).
  2:{ unfold department_keys in *. rewrite Hdb0. exact Hkeys. }
  exists order, w1. split; [exact Hperm|]. split; [exact Hd|].
  split; [exact Hnames|]. split; [exact Hfields|].
  split; [|split; [exact Hcommit|exact Hinv]].
  unfold adds_departments in *. rewrite Hadds, Hdb0. reflexivity.
Qed.

(* ------------------------------------------------------------------ *)
(** ** Stage 4: assignments *)

Lemma turns_singletons {A B} (P : A -> B -> Prop) xs
    (turns : list (unit * list B)) :
  Forall2 (fun x t => exists b, snd t = [b] /\ P x b) xs turns ->
  Forall2 P xs (List.concat (map snd turns)).
Proof.
  induction 1 as [|x [u rows] xs turns (b & Hr & HP) HF IH]; simpl in *.
  - constructor.
  - subst rows. simpl. constructor; assumption.
Qed.

Lemma assign_project_ok employee_objects employees_per_dept project w u w' :
  assign_project employee_objects employees_per_dept project w = (Ok u, w') ->
  exists rows,
    adds_assignments rows w w'
    /\ assigned employee_objects employees_per_dept project rows.
Proof.
  unfold assign_project. intros H.
  apply bind_ok in H as (k & w1 & Hk & H).
  apply bind_ok in H as (assignees & w2 & Hs & H).
  pose proof (draws_only_randint _ _ _ Hk) as D1.
  pose proof (draws_only_sample _ _ _ Hs) as D2.
  apply randint_ok in Hk.
  apply sample_ok in Hs as (_ & Hlen & Hin & Hnd).
  apply for_ok in H as (ys & H).
  destruct (@for_each_adds _ adds_assignments adds_assignments_nil
              adds_assignments_app _ _ (new_assignment project)
              (fun emp _ rows =>
                 exists a, rows = [a] /\ assignment_of project emp a)
              (fun _ => True) assignees)
    with (3 := H) as (turns & Hys & Hadds & HF & _); [|exact I|].
  { intros emp wa y wb _ _ Hnew.
    apply new_assignment_ok in Hnew as (a & Ha & Hrow).
    exists [a]. split; [exact Ha|]. split; [|exact I].
    exists a. split; [reflexivity|exact Hrow]. }
  apply (@turns_singletons _ _ (assignment_of project)) in HF.
  exists (List.concat (map snd turns)). split.
  - unfold adds_assignments in *. rewrite Hadds, D2, D1. reflexivity.
  - exists assignees. split; [lia|]. split; [|split; [|exact HF]].
    + intros emp He. apply Hin in He. apply filter_In in He. exact He.
    + intros Hemps. apply Hnd. apply NoDup_filter. exact Hemps.
Qed.

Lemma generate_assignments_ok project_objects employee_objects
    employees_per_dept w u w' :
  generate_assignments project_objects employee_objects employees_per_dept w
  = (Ok u, w') ->
  exists groups w1,
    Forall2 (assigned employee_objects employees_per_dept) project_objects
      groups
    /\ adds_assignments (List.concat groups) w w1
    /\ committed w1 w'.
Proof.
  unfold generate_assignments. intros H.
  apply bind_ok in H as (u1 & w1 & Hloop & Hcommit).
  apply db_commit_ok in Hcommit. apply for_ok in Hloop as (ys & Hloop).
  destruct (@for_each_adds _ adds_assignments adds_assignments_nil
              adds_assignments_app _ _
              (assign_project employee_objects employees_per_dept)
              (fun project _ rows =>
                 assigned employee_objects employees_per_dept project rows)
              (fun _ => True) project_objects)
    with (3 := Hloop) as (turns & Hys & Hadds & HF & _); [|exact I|].
  { intros project wa y wb _ _ Hp.
    apply assign_project_ok in Hp as (rows & Ha & Hrows).
    exists rows. repeat split; assumption. }
  apply (@turns_units _ _ (assigned employee_objects employees_per_dept)) in HF.
  exists (map snd turns), w1. repeat split; assumption.
Qed.

(* ------------------------------------------------------------------ *)
(** ** Stage 5: salaries *)

Lemma turns_singletons_all {A B} (P : B -> Prop) (xs : list A)
    (turns : list (unit * list B)) :
  Forall2 (fun _ t => exists b, snd t = [b] /\ P b) xs turns ->
  Forall P (List.concat (map snd turns))
  /\ List.length (List.concat (map snd turns)) = List.length xs.
Proof.
  induction 1 as [|x [u rows] xs turns (b & Hr & HP) HF [IH1 IH2]]; simpl in *.
  - split; [constructor|reflexivity].
  - subst rows. simpl. split; [constructor; assumption|].
    rewrite IH2. reflexivity.
Qed.

Lemma employee_salaries_ok salaries_per_employee emp w u w' :
  employee_salaries salaries_per_employee emp w = (Ok u, w') ->
  exists rows,
    adds_salaries rows w w' /\ salaries_of salaries_per_employee emp rows.
Proof.
  unfold employee_salaries. intros H.
  apply bind_ok in H as (base_salary & w1 & Hbase & H).
  pose proof (draws_only_uniform _ _ _ Hbase) as D1.
  apply for_ok in H as (ys & H).
  destruct (@for_each_adds _ adds_salaries adds_salaries_nil
              adds_salaries_app _ _ (fun _ : Z => new_salary emp base_salary)
              (fun _ _ rows =>
                 exists salary, rows = [salary]
                                /\ salary_of emp base_salary salary)
              (fun _ => True) (range 0 salaries_per_employee))
    with (3 := H) as (turns & Hys & Hadds & HF & _); [|exact I|].
  { intros i wa y wb _ _ Hnew.
    apply new_salary_ok in Hnew as (salary & Ha & Hrow).
    exists [salary]. split; [exact Ha|]. split; [|exact I].
    exists salary. split; [reflexivity|exact Hrow]. }
  apply (@turns_singletons_all _ _ (salary_of emp base_salary)) in HF
    as [Hall Hlen].
  exists (List.concat (map snd turns)). split.
  - unfold adds_salaries in *. rewrite Hadds, D1. reflexivity.
  - split.
    + rewrite Hlen, length_range. f_equal. lia.
    + exists base_salary. split; [|exact Hall].
      exists w, w1. exact Hbase.
Qed.

Lemma generate_salaries_ok employee_objects salaries_per_employee w u w' :
  generate_salaries employee_objects salaries_per_employee w = (Ok u, w') ->
  exists groups w1,
    Forall2 (salaries_of salaries_per_employee) employee_objects groups
    /\ adds_salaries (List.concat groups) w w1
    /\ committed w1 w'.
Proof.
  unfold generate_salaries. intros H.
  apply bind_ok in H as (u1 & w1 & Hloop & Hcommit).
  apply db_commit_ok in Hcommit. apply for_ok in Hloop as (ys & Hloop).
  destruct (@for_each_adds _ adds_salaries adds_salaries_nil
              adds_salaries_app _ _
              (employee_salaries salaries_per_employee)
              (fun emp _ rows => salaries_of salaries_per_employee emp rows)
              (fun _ => True) employee_objects)
    with (3 := Hloop) as (turns & Hys & Hadds & HF & _); [|exact I|].
  { intros emp wa y wb _ _ Hp.
    apply employee_salaries_ok in Hp as (rows & Ha & Hrows).
    exists rows. split; [exact Ha|]. split; [exact Hrows|exact I]. }
  apply (@turns_units _ _ (salaries_of salaries_per_employee)) in HF.
  exists (map snd turns), w1. split; [exact HF|]. split; assumption.
Qed.

(* ------------------------------------------------------------------ *)
(** ** A stage that raises has committed nothing *)

Lemma keeps_stored_add_Department data : keeps_stored (add_Department data).
Proof. intros w r w' E. inversion E. reflexivity. Qed.

Lemma keeps_stored_add_Employee data : keeps_stored (add_Employee data).
Proof. intros w r w' E. inversion E. reflexivity. Qed.

Lemma keeps_stored_add_Project data : keeps_stored (add_Project data).
Proof. intros w r w' E. inversion E. reflexivity. Qed.

Lemma keeps_stored_add_Salary data : keeps_stored (add_Salary data).
Proof. intros w r w' E. inversion E. reflexivity. Qed.

Lemma keeps_stored_add_ProjectEmployee a : keeps_stored (add_ProjectEmployee a).
Proof. apply keeps_stored_on_working. Qed.

Hint Resolve keeps_stored_add_Department keeps_stored_add_Employee
  keeps_stored_add_Project keeps_stored_add_Salary
  keeps_stored_add_ProjectEmployee keeps_stored_on_working : frame.

(** Settle [keeps_stored] along the binds and the loops. *)
Ltac keeps :=
  repeat first
    [ apply keeps_stored_bind; [|intros ?]
    | apply keeps_stored_for_each; intros ?
    | apply keeps_stored_for; intros ?
    | solve [auto with frame]
    | apply draws_only_keeps_stored; solve [auto with frame] ].

Lemma keeps_stored_new_department dept_name e :
  keeps_stored (new_department dept_name e).
Proof. unfold new_department. keeps. Qed.

Lemma keeps_stored_new_employee dept : keeps_stored (new_employee dept).
Proof. unfold new_employee. keeps. Qed.

Lemma keeps_stored_new_project dept : keeps_stored (new_project dept).
Proof. unfold new_project. keeps. Qed.

Lemma keeps_stored_new_assignment project emp :
  keeps_stored (new_assignment project emp).
Proof. unfold new_assignment. keeps. Qed.

Lemma keeps_stored_new_salary emp base_salary :
  keeps_stored (new_salary emp base_salary).
Proof. unfold new_salary. keeps. Qed.

Hint Resolve keeps_stored_new_department keeps_stored_new_employee
  keeps_stored_new_project keeps_stored_new_assignment
  keeps_stored_new_salary : frame.

Lemma keeps_stored_assign_project emps e project :
  keeps_stored (assign_project emps e project).
Proof. unfold assign_project. keeps. Qed.

Lemma keeps_stored_employee_salaries s emp :
  keeps_stored (employee_salaries s emp).
Proof. unfold employee_salaries. keeps. Qed.

Hint Resolve keeps_stored_assign_project keeps_stored_employee_salaries : frame.

(** A computation that ends in [db.commit()] raises only before it. *)
Lemma raises_before_commit {A B} (m : M A) (k : A -> B) w x w' :
  keeps_stored m ->
  bind m (fun a => bind db_commit (fun _ => ret (k a))) w = (Raise x, w') ->
  stored (db w') = stored (db w).
Proof.
  intros Hm H. apply bind_raise in H as [H|(a & w1 & _ & H)].
  - exact (Hm _ _ _ H).
  - discriminate.
Qed.

Lemma generate_departments_raises d e w x w' :
  generate_departments d e w = (Raise x, w') ->
  stored (db w') = stored (db w).
Proof.
  unfold generate_departments. intros H.
  apply bind_raise in H as [H|(order & w1 & H1 & H)].
  { exact (draws_only_keeps_stored (@draws_only_shuffle _ _) _ H). }
  rewrite <- (draws_only_keeps_stored (@draws_only_shuffle _ _) _ H1).
  apply bind_raise in H as [H|(first & w2 & H2 & H)].
  { revert H. apply keeps_stored_for_each. intros i. keeps. }
  assert (E2 : stored (db w2) = stored (db w1)).
  { revert H2. apply keeps_stored_for_each. intros i. keeps. }
  rewrite <- E2.
  apply bind_raise in H as [H|(more & w3 & H3 & H)].
  { revert H. apply keeps_stored_for_each. intros i. keeps. }
  discriminate.
Qed.

Lemma generate_employees_raises depts e w x w' :
  generate_employees depts e w = (Raise x, w') ->
  stored (db w') = stored (db w).
Proof.
  unfold generate_employees. apply raises_before_commit. keeps.
Qed.

Lemma generate_projects_raises depts p w x w' :
  generate_projects depts p w = (Raise x, w') ->
  stored (db w') = stored (db w).
Proof.
  unfold generate_projects. apply raises_before_commit. keeps.
Qed.

Lemma generate_assignments_raises projs emps e w x w' :
  generate_assignments projs emps e w = (Raise x, w') ->
  stored (db w') = stored (db w).
Proof.
  unfold generate_assignments. intros H.
  apply bind_raise in H as [H|(a & w1 & _ & H)]; [|discriminate].
  revert H. apply keeps_stored_for. intros project. auto with frame.
Qed.

Lemma generate_salaries_raises emps s w x w' :
  generate_salaries emps s w = (Raise x, w') ->
  stored (db w') = stored (db w).
Proof.
  unfold generate_salaries. intros H.
  apply bind_raise in H as [H|(a & w1 & _ & H)]; [|discriminate].
  revert H. apply keeps_stored_for. intros emp. auto with frame.
Qed.

(* ------------------------------------------------------------------ *)
(** ** The request as a whole *)

Lemma clear_existing_data_eq w :
  clear_existing_data w = (Ok tt, after_reset w).
Proof. reflexivity. Qed.

Lemma generate_mock_data_eq d e p s w :
  generate_mock_data d e p s w
  = match generate_stages d e p s (after_reset w) with
    | (Ok response, w') => (Ok response, w')
    | (Raise x, w') =>
        (Raise (HTTPException 500 x),
         mkWorld (mkSession (stored (db w')) (stored (db w'))) (entropy w'))
    end.
Proof.
  unfold generate_mock_data, try_except.
  erewrite bind_eq; [|apply clear_existing_data_eq].
  fold (generate_stages d e p s).
  destruct (generate_stages d e p s (after_reset w)) as [[response|x] w'];
    reflexivity.
Qed.

Lemma departments_stage d e g depts w1 :
  generate_departments d e (mkWorld (mkSession no_rows no_rows) g)
  = (Ok depts, w1) ->
  settled (mkTables depts [] [] [] []) w1 /\ departments_made d e depts.
Proof.
  intros H.
  apply generate_departments_ok in H
    as (order & w1a & Hperm & Hd & Hnames & Hfields & A1 & C1 & K1);
    [|constructor].
  unfold adds_departments in A1. simpl in A1.
  unfold committed in C1. rewrite A1 in C1. simpl in C1.
  unfold department_keys in K1. rewrite A1 in K1. simpl in K1.
  split; [exact C1|]. split; [exact Hd|].
  split; [exists order; split; assumption|]. split; assumption.
Qed.

Lemma employees_stage e depts w1 emps w2 :
  settled (mkTables depts [] [] [] []) w1 ->
  generate_employees depts e w1 = (Ok emps, w2) ->
  settled (mkTables depts emps [] [] []) w2 /\ employees_made e depts emps.
Proof.
  unfold settled. intros C1 H.
  apply generate_employees_ok in H
    as (groups & w2a & He & HeF & A2 & C2 & K2);
    [|unfold employee_keys; rewrite C1; constructor].
  unfold adds_employees in A2. rewrite C1 in A2. simpl in A2.
  unfold committed in C2. rewrite A2 in C2. simpl in C2.
  unfold employee_keys in K2. rewrite A2 in K2. simpl in K2.
  split; [exact C2|]. split; [exists groups; split; assumption|exact K2].
Qed.

Lemma projects_stage p depts emps w2 projs w3 :
  settled (mkTables depts emps [] [] []) w2 ->
  generate_projects depts p w2 = (Ok projs, w3) ->
  settled (mkTables depts emps projs [] []) w3 /\ projects_made p depts projs.
Proof.
  unfold settled. intros C2 H.
  apply generate_projects_ok in H
    as (groups & w3a & Hp & HpF & A3 & C3 & K3);
    [|unfold project_keys; rewrite C2; constructor].
  unfold adds_projects in A3. rewrite C2 in A3. simpl in A3.
  unfold committed in C3. rewrite A3 in C3. simpl in C3.
  unfold project_keys in K3. rewrite A3 in K3. simpl in K3.
  split; [exact C3|]. split; [exists groups; split; assumption|exact K3].
Qed.

Lemma assignments_stage e depts emps projs w3 u w4 :
  settled (mkTables depts emps projs [] []) w3 ->
  generate_assignments projs emps e w3 = (Ok u, w4) ->
  exists rows,
    settled (mkTables depts emps projs [] rows) w4
    /\ assignments_made e emps projs rows.
Proof.
  unfold settled. intros C3 H.
  apply generate_assignments_ok in H as (groups & w4a & HaF & A4 & C4).
  unfold adds_assignments in A4. rewrite C3 in A4. simpl in A4.
  unfold committed in C4. rewrite A4 in C4. simpl in C4.
  exists (List.concat groups). split; [exact C4|].
  exists groups. split; [reflexivity|exact HaF].
Qed.

Lemma salaries_stage s depts emps projs assignments w4 u w5 :
  settled (mkTables depts emps projs [] assignments) w4 ->
  generate_salaries emps s w4 = (Ok u, w5) ->
  exists rows,
    settled (mkTables depts emps projs rows assignments) w5
    /\ salaries_made s emps rows.
Proof.
  unfold settled. intros C4 H.
  apply generate_salaries_ok in H as (groups & w5a & HsF & A5 & C5).
  unfold adds_salaries in A5. rewrite C4 in A5. simpl in A5.
  unfold committed in C5. rewrite A5 in C5. simpl in C5.
  exists (List.concat groups). split; [exact C5|].
  exists groups. split; [reflexivity|exact HsF].
Qed.

(** Every way the five stages can end. *)
Lemma generate_stages_outcome d e p s g r w' :
  generate_stages d e p s (mkWorld (mkSession no_rows no_rows) g) = (r, w') ->
  match r with
  | Ok response =>
      exists t,
        settled t w' /\ generated_store d e p s t
        /\ response
           = mkResponse "Mock data generated successfully"
               (mkStats (len (departments t)) (len (employees t))
                  (len (projects t)) (len (employees t) * s))
  | Raise x =>
      exists stage, left_before stage d e p s (stored (db w'))
  end.
Proof.
  unfold generate_stages. set (w0 := mkWorld (mkSession no_rows no_rows) g).
  destruct (generate_departments d e w0) as [[depts|x] w1] eqn:E1;
    [erewrite bind_eq by exact E1|erewrite bind_eq_raise by exact E1].
  2:{ intros H. inversion H; subst.
      exists Departments. simpl.
      rewrite (generate_departments_raises _ _ _ E1). reflexivity. }
  apply departments_stage in E1 as [S1 M1].
  destruct (generate_employees depts e w1) as [[emps|x] w2] eqn:E2;
    [erewrite bind_eq by exact E2|erewrite bind_eq_raise by exact E2].
  2:{ intros H. inversion H; subst.
      exists Employees. simpl.
      rewrite (generate_employees_raises _ _ _ E2), S1. simpl.
      exists depts. split; [reflexivity|exact M1]. }
  apply (employees_stage _ S1) in E2 as [S2 M2].
  destruct (generate_projects depts p w2) as [[projs|x] w3] eqn:E3;
    [erewrite bind_eq by exact E3|erewrite bind_eq_raise by exact E3].
  2:{ intros H. inversion H; subst.
      exists Projects. simpl.
      rewrite (generate_projects_raises _ _ _ E3), S2. simpl.
      exists depts, emps. split; [reflexivity|]. split; [exact M1|exact M2]. }
  apply (projects_stage _ S2) in E3 as [S3 M3].
  destruct (generate_assignments projs emps e w3) as [[u4|x] w4] eqn:E4;
    [erewrite bind_eq by exact E4|erewrite bind_eq_raise by exact E4].
  2:{ intros H. inversion H; subst.
      exists Assignments. simpl.
      rewrite (generate_assignments_raises _ _ _ _ E4), S3. simpl.
      exists depts, emps, projs. split; [reflexivity|].
      split; [exact M1|]. split; [exact M2|exact M3]. }
  apply (assignments_stage _ S3) in E4 as (arows & S4 & M4).
  destruct (generate_salaries emps s w4) as [[u5|x] w5] eqn:E5;
    [erewrite bind_eq by exact E5|erewrite bind_eq_raise by exact E5].
  2:{ intros H. inversion H; subst.
      exists Salaries. simpl.
      rewrite (generate_salaries_raises _ _ _ E5), S4. simpl.
      exists depts, emps, projs, arows. split; [reflexivity|].
      split; [exact M1|]. split; [exact M2|]. split; [exact M3|exact M4]. }
  apply (salaries_stage _ S4) in E5 as (srows & S5 & M5).
  intros H. unfold ret in H. inversion H; subst.
  exists (mkTables depts emps projs srows arows).
  split; [exact S5|]. split; [|reflexivity].
  unfold generated_store. simpl.
  split; [exact M1|]. split; [exact M2|]. split; [exact M3|].
  split; [exact M4|exact M5].
Qed.

(** The stage that raises, the exception it raises and what is committed
    by then. *)
Lemma generate_stages_raise d e p s w x w' :
  generate_stages d e p s (after_reset w) = (Raise x, w') ->
  exists stage,
    raised_in stage d e p s w x (stored (db w'))
    /\ left_before stage d e p s (stored (db w')).
Proof.
  unfold generate_stages.
  destruct (generate_departments d e (after_reset w)) as [[depts|x1] w1] eqn:E1;
    [erewrite bind_eq by exact E1|erewrite bind_eq_raise by exact E1].
  2:{ intros H. inversion H; subst.
      exists Departments. simpl.
      rewrite (generate_departments_raises _ _ _ E1). simpl.
      split; [exists w'; split; [exact E1|reflexivity]|reflexivity]. }
  pose proof E1 as F1. unfold after_reset in F1.
  apply departments_stage in F1 as [S1 M1].
  destruct (generate_employees depts e w1) as [[emps|x2] w2] eqn:E2;
    [erewrite bind_eq by exact E2|erewrite bind_eq_raise by exact E2].
  2:{ intros H. inversion H; subst.
      exists Employees. simpl.
      rewrite (generate_employees_raises _ _ _ E2), S1. simpl.
      split; [|exists depts; split; [reflexivity|exact M1]].
      exists depts, w1, w'. repeat split; assumption. }
  pose proof E2 as F2. apply (employees_stage _ S1) in F2 as [S2 M2].
  destruct (generate_projects depts p w2) as [[projs|x3] w3] eqn:E3;
    [erewrite bind_eq by exact E3|erewrite bind_eq_raise by exact E3].
  2:{ intros H. inversion H; subst.
      exists Projects. simpl.
      rewrite (generate_projects_raises _ _ _ E3), S2. simpl.
      split; [|exists depts, emps; split; [reflexivity|];
               split; [exact M1|exact M2]].
      exists depts, w1, emps, w2, w'. repeat split; assumption. }
  pose proof E3 as F3. apply (projects_stage _ S2) in F3 as [S3 M3].
  destruct (generate_assignments projs emps e w3) as [[u4|x4] w4] eqn:E4;
    [erewrite bind_eq by exact E4|erewrite bind_eq_raise by exact E4].
  2:{ intros H. inversion H; subst.
      exists Assignments. simpl.
      rewrite (generate_assignments_raises _ _ _ _ E4), S3. simpl.
      split; [|exists depts, emps, projs; split; [reflexivity|];
               split; [exact M1|]; split; [exact M2|exact M3]].
      exists depts, w1, emps, w2, projs, w3, w'. repeat split; assumption. }
  destruct u4.
  pose proof E4 as F4.
  apply (assignments_stage _ S3) in F4 as (arows & S4 & M4).
  destruct (generate_salaries emps s w4) as [[u5|x5] w5] eqn:E5;
    [erewrite bind_eq by exact E5|erewrite bind_eq_raise by exact E5].
  2:{ intros H. inversion H; subst.
      exists Salaries. simpl.
      rewrite (generate_salaries_raises _ _ _ E5), S4. simpl.
      split; [|exists depts, emps, projs, arows; split; [reflexivity|];
               split; [exact M1|]; split; [exact M2|];
               split; [exact M3|exact M4]].
      exists depts, w1, emps, w2, projs, w3, w4, w'.
      repeat split; try assumption. rewrite S4. reflexivity. }
  unfold ret. intros H. discriminate H.
Qed.

(** Every way a request can end. *)
Lemma generate_mock_data_outcome d e p s w r w' :
  generate_mock_data d e p s w = (r, w') ->
  match r with
  | Ok response =>
      exists t,
        settled t w' /\ generated_store d e p s t
        /\ response
           = mkResponse "Mock data generated successfully"
               (mkStats (len (departments t)) (len (employees t))
                  (len (projects t)) (len (employees t) * s))
  | Raise y =>
      exists x stage,
        y = HTTPException 500 x
        /\ settled (stored (db w')) w'
        /\ left_before stage d e p s (stored (db w'))
  end.
Proof.
  rewrite generate_mock_data_eq. unfold after_reset.
  destruct (generate_stages d e p s _) as [[response|x] w1] eqn:E;
    intros H; inversion H; subst; apply generate_stages_outcome in E.
  - exact E.
  - destruct E as (stage & Hleft). exists x, stage.
    split; [reflexivity|]. split; [reflexivity|exact Hleft].
Qed.

Lemma generate_mock_data_ok d e p s w response w' :
  generate_mock_data d e p s w = (Ok response, w') ->
  exists t,
    settled t w' /\ generated_store d e p s t
    /\ response
       = mkResponse "Mock data generated successfully"
           (mkStats (len (departments t)) (len (employees t))
              (len (projects t)) (len (employees t) * s)).
Proof. intros H. exact (generate_mock_data_outcome _ _ _ _ _ H). Qed.

(* ------------------------------------------------------------------ *)
(** ** Rows and their owners *)

Lemma length_concat_groups {A B} (P : A -> list B -> Prop) n xs groups :
  Forall2 (fun x group => List.length group = n /\ P x group) xs groups ->
  List.length (List.concat groups) = (List.length xs * n)%nat.
Proof.
  induction 1 as [|x group xs groups [Hl _] HF IH]; simpl.
  - reflexivity.
  - rewrite length_app, IH, Hl. reflexivity.
Qed.

Lemma in_concat_groups {A B} (R : A -> list B -> Prop) xs groups y :
  Forall2 R xs groups -> In y (List.concat groups) ->
  exists x group, In x xs /\ R x group /\ In y group.
Proof.
  induction 1 as [|x group xs groups HR HF IH]; simpl; intros Hy.
  - destruct Hy.
  - apply in_app_or in Hy as [Hy|Hy].
    + exists x, group. split; [left; reflexivity|split; assumption].
    + destruct (IH Hy) as (x' & group' & Hx & HR' & Hy').
      exists x', group'. split; [right; exact Hx|split; assumption].
Qed.

Lemma Forall2_in_r {A B} (R : A -> B -> Prop) xs ys y :
  Forall2 R xs ys -> In y ys -> exists x, In x xs /\ R x y.
Proof.
  induction 1 as [|x y' xs ys HR HF IH]; simpl; intros Hy.
  - destruct Hy.
  - destruct Hy as [->|Hy].
    + exists x. split; [left; reflexivity|exact HR].
    + destruct (IH Hy) as (x' & Hx & HR').
      exists x'. split; [right; exact Hx|exact HR'].
Qed.

(** Rows with distinct keys are told apart by their key. *)
Lemma same_key {A} (key : A -> Z) l x y :
  NoDup (map key l) -> In x l -> In y l -> key x = key y -> x = y.
Proof.
  induction l as [|a l IH]; simpl; intros Hnd Hx Hy Hk; [destruct Hx|].
  inversion Hnd as [|? ? Hnotin Hnd']; subst.
  destruct Hx as [->|Hx], Hy as [->|Hy].
  - reflexivity.
  - exfalso. apply Hnotin. rewrite Hk. apply in_map. exact Hy.
  - exfalso. apply Hnotin. rewrite <- Hk. apply in_map. exact Hx.
  - apply IH; assumption.
Qed.

Lemma departments_made_length d e depts :
  departments_made d e depts -> List.length depts = Z.to_nat d.
Proof.
  intros (Hd & (order & Hperm & Hnames) & _).
  apply (f_equal (@List.length string)) in Hnames.
  rewrite !length_map, length_firstn in Hnames.
  rewrite <- (Permutation_length Hperm) in Hnames. simpl in Hnames. lia.
Qed.

Lemma shuffled_names_distinct order k :
  Permutation all_DepartmentName order ->
  NoDup (map DepartmentName_value (firstn k order)).
Proof.
  intros Hperm. apply NoDup_map_NoDup_ForallPairs.
  - intros a b _ _. destruct a, b; simpl; intros H; congruence.
  - assert (Hnd : NoDup order).
    { eapply Permutation_NoDup; [exact Hperm|].
      unfold all_DepartmentName.
      repeat (constructor; [simpl; intuition discriminate|]). constructor. }
    rewrite <- (firstn_skipn k order) in Hnd.
    exact (NoDup_app_remove_r _ _ Hnd).
Qed.

Lemma departments_made_names d e depts :
  departments_made d e depts -> NoDup (map Department.name depts).
Proof.
  intros (_ & (order & Hperm & Hnames) & _). rewrite Hnames.
  apply shuffled_names_distinct. exact Hperm.
Qed.

(** The employee a row belongs to, and the department an employee belongs
    to, are found by key. *)
Lemma owner_department e depts emps emp :
  employees_made e depts emps -> In emp emps ->
  exists dept, In dept depts /\ employee_of dept emp.
Proof.
  intros [(groups & -> & HF) _] Hin.
  destruct (@in_concat_groups _ _ _ _ _ _ HF Hin)
    as (dept & group & Hd & [_ Hall] & Hg).
  exists dept. split; [exact Hd|].
  rewrite Forall_forall in Hall. exact (Hall _ Hg).
Qed.

Lemma owner_employee s emps rows salary :
  salaries_made s emps rows -> In salary rows ->
  exists emp base_salary, In emp emps /\ salary_of emp base_salary salary.
Proof.
  intros (groups & -> & HF) Hin.
  destruct (@in_concat_groups _ _ _ _ _ _ HF Hin)
    as (emp & group & He & [_ (base & _ & Hall)] & Hg).
  exists emp, base. split; [exact He|].
  rewrite Forall_forall in Hall. exact (Hall _ Hg).
Qed.

Lemma assignment_parties e emps projs rows a :
  assignments_made e emps projs rows -> In a rows ->
  exists emp project,
    In emp emps /\ In project projs /\ assignment_of project emp a
    /\ Employee.department_id emp = Some (Project.department_id project).
Proof.
  intros (groups & -> & HF) Hin.
  destruct (@in_concat_groups _ _ _ _ _ _ HF Hin)
    as (project & group & Hp & (assignees & _ & Hfrom & _ & Hrows) & Hg).
  destruct (@Forall2_in_r _ _ _ _ _ _ Hrows Hg) as (emp & He & Ha).
  destruct (Hfrom emp He) as [Hemp Hsame].
  exists emp, project. repeat split; try assumption; try apply Ha.
  unfold same_department in Hsame.
  destruct (Employee.department_id emp) as [dd|]; [|discriminate].
  apply Z.eqb_eq in Hsame. rewrite Hsame. reflexivity.
Qed.

Lemma filter_all {A} (f : A -> bool) l :
  (forall x, In x l -> f x = true) -> filter f l = l.
Proof.
  induction l as [|a l IH]; simpl; intros H; [reflexivity|].
  rewrite (H a (or_introl eq_refl)), IH; [reflexivity|].
  intros x Hx. apply H. right. exact Hx.
Qed.

Lemma filter_none {A} (f : A -> bool) l :
  (forall x, In x l -> f x = false) -> filter f l = [].
Proof.
  induction l as [|a l IH]; simpl; intros H; [reflexivity|].
  rewrite (H a (or_introl eq_refl)). apply IH.
  intros x Hx. apply H. right. exact Hx.
Qed.


(** The assignment rows that carry a project's key are the rows generated
    for that project. *)
Lemma assignments_of_project e emps projs rows project :
  assignments_made e emps projs rows -> NoDup (map Project.id projs) ->
  In project projs ->
  assigned emps e project
    (filter (fun a => ProjectEmployee.project_id a =? Project.id project) rows).
Proof.
  intros (groups & -> & HF) Hnd Hin.
  assert (Hkey : forall project2 group2 a,
             assigned emps e project2 group2 -> In a group2 ->
             ProjectEmployee.project_id a = Project.id project2).
  { intros project2 group2 a (assignees & _ & _ & _ & Hrows) Ha.
    destruct (@Forall2_in_r _ _ _ _ _ _ Hrows Ha) as (emp & _ & _ & Hid & _).
    exact Hid. }
  induction HF as [|project0 group projs groups Hgroup HF IH]; [destruct Hin|].
  simpl in Hnd. inversion Hnd as [|? ? Hnotin Hnd']; subst.
  simpl. rewrite filter_app.
  destruct Hin as [->|Hin].
  - rewrite filter_all.
    + rewrite filter_none; [rewrite app_nil_r; exact Hgroup|].
      intros a Ha.
      destruct (@in_concat_groups _ _ _ _ _ _ HF Ha)
        as (project2 & group2 & Hp2 & Hg2 & Ha2).
      apply Z.eqb_neq. rewrite (Hkey _ _ _ Hg2 Ha2). intros Heq.
      apply Hnotin. rewrite <- Heq. apply in_map. exact Hp2.
    + intros a Ha. apply Z.eqb_eq. exact (Hkey _ _ _ Hgroup Ha).
  - rewrite filter_none; [simpl; apply IH; assumption|].
    intros a Ha. apply Z.eqb_neq. rewrite (Hkey _ _ _ Hgroup Ha). intros Heq.
    apply Hnotin. rewrite Heq. apply in_map. exact Hin.
Qed.

Lemma assignees_of_rows project assignees rows :
  Forall2 (assignment_of project) assignees rows ->
  map ProjectEmployee.employee_id rows = map Employee.id assignees.
Proof.
  induction 1 as [|emp a assignees rows (Hid & _) HF IH]; simpl.
  - reflexivity.
  - rewrite Hid, IH. reflexivity.
Qed.

(** No salary row is made for a count below zero. *)
Lemma no_salaries s emps rows :
  s <= 0 -> salaries_made s emps rows -> rows = [].
Proof.
  intros Hs (groups & -> & HF).
  induction HF as [|emp group emps groups (Hl & _) HF IH]; [reflexivity|].
  simpl. rewrite IH. replace (Z.to_nat s) with O in Hl by lia.
  destruct group; [reflexivity|discriminate].
Qed.

(** With fewer than two employees per department no project can be given
    its assignees. *)
Lemma no_assignees d e p depts emps projs rows :
  1 <= d -> 1 <= p -> e < 2 ->
  departments_made d e depts -> projects_made p depts projs ->
  assignments_made e emps projs rows -> False.
Proof.
  intros Hd Hp He M1 [(pgroups & -> & HpF) _] (agroups & _ & HaF).
  apply departments_made_length in M1.
  destruct HpF as [|dept group depts pgroups [Hl _] HpF]; [simpl in M1; lia|].
  destruct group as [|project group]; [simpl in Hl; lia|].
  simpl in HaF. inversion HaF as [|? rows0 ? ? Hassigned _]; subst.
  destruct Hassigned as (assignees & Hlen & _). lia.
Qed.

Lemma assign_project_raises emps e project w :
  e < 2 ->
  assign_project emps e project w
  = (Raise (ValueError "empty range for randrange()"), w).
Proof.
  intros He. unfold assign_project.
  apply bind_eq_raise. apply randint_empty. lia.
Qed.

Lemma generate_assignments_raises_at_once project rest emps e w :
  e < 2 ->
  generate_assignments (project :: rest) emps e w
  = (Raise (ValueError "empty range for randrange()"), w).
Proof.
  intros He. unfold generate_assignments. apply bind_eq_raise.
  apply for_first_raises. apply assign_project_raises. exact He.
Qed.

(** The number of rows a successful request leaves in each table. *)
Lemma generated_store_counts d e p s t :
  0 <= d -> 0 <= e -> 0 <= p -> 0 <= s ->
  generated_store d e p s t ->
  len (departments t) = d
  /\ len (employees t) = d * e
  /\ len (projects t) = d * p
  /\ len (salaries t) = d * e * s.
Proof.
  intros Hd He Hp Hs Hgen.
  destruct Hgen as (M1 & [(eg & Hemps & HeF) _] & [(pg & Hprojs & HpF) _]
                    & _ & (sg & Hsals & HsF)).
  pose proof (departments_made_length M1) as L1.
  pose proof (@length_concat_groups _ _ _ _ _ _ HeF) as L2.
  rewrite <- Hemps in L2.
  pose proof (@length_concat_groups _ _ _ _ _ _ HpF) as L3.
  rewrite <- Hprojs in L3.
  pose proof (@length_concat_groups _ _
                (fun emp rows =>
                   exists base_salary,
                     drawn (uniform 45000 120000) base_salary
                     /\ Forall (salary_of emp base_salary) rows)
                (Z.to_nat s) _ _ HsF) as L4.
  rewrite <- Hsals in L4.
  unfold len. rewrite L4, L3, L2, L1. repeat split; nia.
Qed.

(** With no department asked for, the first stage only shuffles and
    commits. *)
Lemma generate_no_department e w :
  exists w',
    generate_departments 0 e w = (Ok [], w')
    /\ db w' = mkSession (working (db w)) (working (db w)).
Proof.
  unfold generate_departments.
  destruct (shuffle_ok all_DepartmentName w) as (order & w1 & E & Hperm & Hdb).
  erewrite bind_eq by exact E.
  assert (Hlen : len order = 5).
  { unfold len. rewrite <- (Permutation_length Hperm). reflexivity. }
  rewrite Hlen. simpl.
  eexists. split; [reflexivity|]. simpl. rewrite Hdb. reflexivity.
Qed.

(* ------------------------------------------------------------------ *)
(** ** The department names in the transaction, however the stage ends *)

(** A loop runs some turns to their end; then it is over, or the next turn
    raises. *)
Lemma for_each_prefix {A B} (body : A -> M B) xs : forall w r w',
  for_each xs body w = (r, w') ->
  exists done rest ys w1,
    xs = done ++ rest
    /\ for_each done body w = (Ok ys, w1)
    /\ match r with
       | Ok out => rest = [] /\ out = ys /\ w' = w1
       | Raise x =>
           exists y rest', rest = y :: rest' /\ body y w1 = (Raise x, w')
       end.
Proof.
  induction xs as [|x xs IH]; intros w r w' H; simpl in H.
  - unfold ret in H. inversion H; subst.
    exists [], [], [], w'. repeat split; reflexivity.
  - unfold bind at 1 in H. destruct (body x w) as [[y|e] w1] eqn:Ex.
    + unfold bind at 1 in H.
      destruct (for_each xs body w1) as [[ys|e] w2] eqn:Exs;
        unfold ret in H; inversion H; subst;
        destruct (IH _ _ _ Exs) as (done & rest & ys' & w3 & Hxs & Hdone & Hr);
        exists (x :: done), rest, (y :: ys'), w3;
        (split; [simpl; f_equal; exact Hxs|]);
        (split; [simpl; erewrite bind_eq by exact Ex;
                 erewrite bind_eq by exact Hdone; reflexivity|]).
      * destruct Hr as (-> & -> & ->). repeat split; reflexivity.
      * exact Hr.
    + inversion H; subst. exists [], (x :: xs), [], w.
      split; [reflexivity|]. split; [reflexivity|].
      exists x, xs. split; [reflexivity|exact Ex].
Qed.

Lemma raises_after_draw {A B} (m : M A) (k : A -> M B) :
  draws_only m ->
  (forall a w x w', k a w = (Raise x, w') -> db w' = db w) ->
  forall w x w', bind m k w = (Raise x, w') -> db w' = db w.
Proof.
  intros Hm Hk w x w' H. apply bind_raise in H as [H|(a & w1 & Ha & H)].
  - exact (Hm _ _ _ H).
  - rewrite (Hk _ _ _ _ H). exact (Hm _ _ _ Ha).
Qed.

(** [new_department] raises before it adds. *)
Lemma new_department_raises dept_name e w x w' :
  new_department dept_name e w = (Raise x, w') -> db w' = db w.
Proof.
  unfold new_department. revert w x w'.
  repeat (apply raises_after_draw; [solve [auto with frame]|intros ?]).
  intros w x w' H. discriminate.
Qed.

Lemma seq_prefix l1 : forall a n l2,
  seq a n = l1 ++ l2 -> l1 = seq a (List.length l1).
Proof.
  induction l1 as [|x l1 IH]; intros a n l2 H; [reflexivity|].
  destruct n as [|n]; [discriminate|]. simpl in H. inversion H; subst.
  simpl. f_equal. eapply IH. eassumption.
Qed.

Lemma range_prefix m done rest :
  range 0 m = done ++ rest -> done = range 0 (len done).
Proof.
  unfold range. intros H.
  apply map_eq_app in H as (l1 & l2 & Hseq & <- & _).
  apply seq_prefix in Hseq. unfold len. rewrite length_map.
  replace (Z.to_nat (Z.of_nat (List.length l1) - 0)) with (List.length l1) by lia.
  rewrite <- Hseq. reflexivity.
Qed.

Lemma generate_departments_names d e w r w' :
  departments (working (db w)) = [] ->
  generate_departments d e w = (r, w') ->
  exists order k,
    Permutation all_DepartmentName order
    /\ map Department.name (departments (working (db w')))
       = map DepartmentName_value (firstn k order).
Proof.
  intros Hnone H. unfold generate_departments in H.
  destruct (shuffle_ok all_DepartmentName w) as (order & w0 & E & Hperm & Hdb0).
  erewrite bind_eq in H by exact E.
  exists order.
  assert (Hkeys : NoDup (department_keys w0)).
  { unfold department_keys. rewrite Hdb0, Hnone. constructor. }
  assert (Hstart : departments (working (db w0)) = []).
  { rewrite Hdb0. exact Hnone. }
  unfold bind at 1 in H.
  destruct (for_each (range 0 (Z.min d (len order))) _ w0) as [r1 w1] eqn:E1.
  apply for_each_prefix in E1
    as (done & rest & first & w1a & Hsplit & Hdone & Hr1).
  rewrite (range_prefix _ _ _ Hsplit) in Hdone.
  apply first_departments_ok in Hdone as (Hadds & Hnames & _ & _);
    [|exact Hkeys].
  assert (Hw1a : map Department.name (departments (working (db w1a)))
                 = map DepartmentName_value
                     (firstn (Z.to_nat (len done)) order)).
  { unfold adds_departments in Hadds. rewrite Hadds. simpl.
    rewrite Hstart. simpl. exact Hnames. }
  exists (Z.to_nat (len done)).
  split; [exact Hperm|].
  destruct r1 as [out|x].
  - destruct Hr1 as (_ & _ & ->).
    unfold bind at 1 in H.
    destruct (for_each (range (len order) d) _ w1a) as [r2 w2] eqn:E2.
    apply for_each_prefix in E2
      as (done2 & rest2 & more & w2a & _ & Hdone2 & Hr2).
    destruct done2 as [|i done2].
    + simpl in Hdone2. apply ret_ok in Hdone2 as [-> ->].
      destruct r2 as [out2|x].
      * destruct Hr2 as (_ & _ & ->).
        unfold bind, db_commit, ret in H. inversion H; subst. simpl.
        exact Hw1a.
      * destruct Hr2 as (y & rest' & _ & Hy). inversion H; subst.
        assert (Hdb : db w' = db w1a).
        { revert Hy. apply raises_after_draw; [auto with frame|].
          intros a wa xa wb. apply new_department_raises. }
        rewrite Hdb. exact Hw1a.
    + exfalso. simpl in Hdone2.
      apply bind_ok in Hdone2 as (dept & wa & Hbody & _).
      exact (no_modified_department _ _ _ Hbody).
  - destruct Hr1 as (y & rest' & _ & Hy). inversion H; subst.
    assert (Hdb : db w' = db w1a).
    { revert Hy. apply raises_after_draw; [auto with frame|].
      intros a wa xa wb. apply new_department_raises. }
    rewrite Hdb. exact Hw1a.
Qed.

(* ================================================================== *)
(** * The claims *)

(** C1, as the code has it: a request ends in one of two ways only.  Either it
    succeeds and returns the full stats, or the handler answers with a single
    HTTP 500 that carries the exception raised by the first stage that
    fails; then nothing is left pending, and the store holds what the last
    commit left: the rows that existed before the request are deleted, the
    rows returned by every stage completed before the failing one are
    persisted, and the rows of the failing stage are discarded. *)
Theorem failure_keeps_completed_stages d e p s w r w' :
  generate_mock_data d e p s w = (r, w') ->
  match r with
  | Ok response =>
      exists t,
        settled t w' /\ generated_store d e p s t
        /\ response
           = mkResponse "Mock data generated successfully"
               (mkStats (len (departments t)) (len (employees t))
                  (len (projects t)) (len (employees t) * s))
  | Raise y =>
      exists x stage,
        y = HTTPException 500 x
        /\ settled (stored (db w')) w'
        /\ raised_in stage d e p s w x (stored (db w'))
        /\ left_before stage d e p s (stored (db w'))
  end.
Proof.
  intros H. destruct r as [response|y].
  - exact (generate_mock_data_ok _ _ _ _ _ H).
  - rewrite generate_mock_data_eq in H.
    destruct (generate_stages d e p s (after_reset w)) as [[response|x] w1] eqn:E;
      inversion H; subst. clear H.
    apply generate_stages_raise in E as (stage & Hraised & Hleft).
    exists x, stage. split; [reflexivity|]. split; [reflexivity|].
    split; [exact Hraised|exact Hleft].
Qed.

(** C2: after a successful request for non-negative counts the store holds
    exactly [d] departments, [d * e] employees, [d * p] projects and
    [d * e * s] salaries, and the stats returned report these four counts. *)
Theorem generated_counts d e p s w response w' :
  0 <= d -> 0 <= e -> 0 <= p -> 0 <= s ->
  generate_mock_data d e p s w = (Ok response, w') ->
  len (departments (stored (db w'))) = d
  /\ len (employees (stored (db w'))) = d * e
  /\ len (projects (stored (db w'))) = d * p
  /\ len (salaries (stored (db w'))) = d * e * s
  /\ stats response = mkStats d (d * e) (d * p) (d * e * s).
Proof.
  intros Hd He Hp Hs H.
  apply generate_mock_data_ok in H as (t & Hdb & Hgen & ->).
  unfold settled in Hdb. rewrite Hdb. simpl.
  destruct (generated_store_counts Hd He Hp Hs Hgen) as (L1 & L2 & L3 & L4).
  rewrite L1, L2, L3, L4. repeat split; reflexivity.
Qed.

(** C3: when a department gets fewer than two employees and some project
    has to be staffed, the request fails with an error and no assignment is
    ever stored; the assignment stage itself raises at its first project
    (the [ValueError] of [randint(2, min(5, employees_per_dept))]), and that
    is the error reported whenever the three stages before it complete. *)
Theorem too_few_employees_raise d e p s w :
  1 <= d -> 1 <= p -> e < 2 ->
  (exists x w',
     generate_mock_data d e p s w = (Raise (HTTPException 500 x), w')
     /\ project_employees (stored (db w')) = []
     /\ project_employees (working (db w')) = [])
  /\ (forall project rest emps w3,
        generate_assignments (project :: rest) emps e w3
        = (Raise (ValueError "empty range for randrange()"), w3))
  /\ (forall depts w1 emps w2 projs w3,
        generate_departments d e (after_reset w) = (Ok depts, w1) ->
        generate_employees depts e w1 = (Ok emps, w2) ->
        generate_projects depts p w2 = (Ok projs, w3) ->
        fst (generate_mock_data d e p s w)
        = Raise (HTTPException 500
                   (ValueError "empty range for randrange()"))).
Proof.
  intros Hd Hp He. split; [|split].
  - destruct (generate_mock_data d e p s w) as [[response|y] w'] eqn:E.
    + exfalso. apply generate_mock_data_ok in E as (t & _ & Hgen & _).
      destruct Hgen as (M1 & _ & M3 & M4 & _).
      exact (no_assignees Hd Hp He M1 M3 M4).
    + apply generate_mock_data_outcome in E as (x & stage & -> & Hs & Hleft).
      exists x, w'. split; [reflexivity|].
      assert (Hnone : project_employees (stored (db w')) = []).
      { destruct stage; simpl in Hleft.
        - rewrite Hleft. reflexivity.
        - destruct Hleft as (depts & -> & _). reflexivity.
        - destruct Hleft as (depts & emps & -> & _). reflexivity.
        - destruct Hleft as (depts & emps & projs & -> & _). reflexivity.
        - destruct Hleft as (depts & emps & projs & rows & _ & M1 & _ & M3 & M4).
          exfalso. exact (no_assignees Hd Hp He M1 M3 M4). }
      split; [exact Hnone|]. unfold settled in Hs. rewrite Hs. simpl.
      exact Hnone.
  - intros project rest emps w3.
    apply generate_assignments_raises_at_once. exact He.
  - intros depts w1 emps w2 projs w3 E1 E2 E3.
    rewrite generate_mock_data_eq. unfold generate_stages.
    erewrite bind_eq by exact E1. erewrite bind_eq by exact E2.
    erewrite bind_eq by exact E3.
    unfold after_reset in E1.
    apply departments_stage in E1 as [S1 M1].
    apply (employees_stage _ S1) in E2 as [S2 M2].
    apply (projects_stage _ S2) in E3 as [S3 [(pgroups & Hprojs & HpF) _]].
    apply departments_made_length in M1.
    destruct HpF as [|dept group depts pgroups [Hl _] HpF]; [simpl in M1; lia|].
    destruct group as [|project group]; [simpl in Hl; lia|].
    subst projs. simpl.
    erewrite bind_eq_raise
      by (apply generate_assignments_raises_at_once; exact He).
    reflexivity.
Qed.

(** The department names a request writes are pairwise distinct canonical
    names.  In the transaction of the departments stage, however the stage
    ends, and in the store after the request, however the request ends, the
    names are the values of the first members of one rearrangement of the
    five canonical names; after a successful request they are its first [d]
    members, and [d] is at most five.  A name past the fifth is built by
    [modified_name] from a drawn member, a space and a number from 1 to 100,
    with no check against the names in use; [DepartmentCreate] refuses every
    such name, so a request for more than five departments fails. *)
Theorem department_names_distinct d e p s w :
  (forall r w',
      generate_departments d e (after_reset w) = (r, w') ->
      NoDup (map Department.name (departments (working (db w'))))
      /\ exists order k,
           Permutation all_DepartmentName order
           /\ map Department.name (departments (working (db w')))
              = map DepartmentName_value (firstn k order))
  /\ NoDup (map Department.name
              (departments (stored (db (snd (generate_mock_data d e p s w))))))
  /\ (forall response w',
        generate_mock_data d e p s w = (Ok response, w') ->
        d <= 5
        /\ exists order,
             Permutation all_DepartmentName order
             /\ map Department.name (departments (stored (db w')))
                = map DepartmentName_value (firstn (Z.to_nat d) order))
  /\ (forall names w1 dept_name w2,
        modified_name names w1 = (Ok dept_name, w2) ->
        (exists base_name n,
            In base_name names /\ 1 <= n <= 100
            /\ dept_name
               = (format_member base_name ++ " " ++ str_int n)%string)
        /\ forall location budget head established count,
             is_ok (DepartmentCreate dept_name location budget head
                      established count) = false)
  /\ (5 < d ->
      exists x,
        fst (generate_mock_data d e p s w) = Raise (HTTPException 500 x)).
Proof.
  split; [|split; [|split; [|split]]].
  - intros r w' E.
    apply generate_departments_names in E as (order & k & Hperm & Hnames);
      [|reflexivity].
    split; [|exists order, k; split; assumption].
    rewrite Hnames. apply shuffled_names_distinct. exact Hperm.
  - destruct (generate_mock_data d e p s w) as [[response|y] w'] eqn:E;
      apply generate_mock_data_outcome in E; simpl.
    + destruct E as (t & Hdb & (M1 & _) & _). unfold settled in Hdb.
      rewrite Hdb. simpl. exact (departments_made_names M1).
    + destruct E as (x & stage & _ & _ & Hleft).
      destruct stage; simpl in Hleft.
      * rewrite Hleft. constructor.
      * destruct Hleft as (depts & -> & M1). exact (departments_made_names M1).
      * destruct Hleft as (depts & emps & -> & M1 & _).
        exact (departments_made_names M1).
      * destruct Hleft as (depts & emps & projs & -> & M1 & _).
        exact (departments_made_names M1).
      * destruct Hleft as (depts & emps & projs & rows & -> & M1 & _).
        exact (departments_made_names M1).
  - intros response w' E.
    apply generate_mock_data_ok in E as (t & Hdb & (M1 & _) & _).
    unfold settled in Hdb. rewrite Hdb. simpl.
    destruct M1 as (Hd & Horder & _). split; assumption.
  - intros names w1 dept_name w2 E.
    apply modified_name_ok in E as (base_name & n & Hin & Hn & ->).
    split; [exists base_name, n; repeat split; try assumption; lia|].
    intros location budget head established count.
    destruct (@DepartmentCreate_name_refused
                (format_member base_name ++ " " ++ str_int n)
                location budget head established count
                (modified_name_is_no_member (format_member base_name)
                   (str_int n)))
      as (fields & -> & _).
    reflexivity.
  - intros Hd.
    destruct (generate_mock_data d e p s w) as [[response|y] w'] eqn:E.
    + apply generate_mock_data_ok in E as (t & _ & ((Hle & _) & _) & _). lia.
    + apply generate_mock_data_outcome in E as (x & stage & -> & _).
      exists x. reflexivity.
Qed.

(** C5: every employee in the store after a successful request belongs to
    one of its departments, and was hired on or after the day that
    department was established and on or before today. *)
Theorem hire_date_within_department_lifetime d e p s w response w' emp :
  generate_mock_data d e p s w = (Ok response, w') ->
  In emp (employees (stored (db w'))) ->
  (exists dept,
      In dept (departments (stored (db w')))
      /\ Employee.department_id emp = Some (Department.id dept))
  /\ (forall dept,
        In dept (departments (stored (db w'))) ->
        Employee.department_id emp = Some (Department.id dept) ->
        Department.established_date dept <= Employee.hire_date emp <= today).
Proof.
  intros H. apply generate_mock_data_ok in H as (t & Hdb & Hgen & _).
  unfold settled in Hdb. rewrite Hdb. simpl. intros Hin.
  destruct Hgen as ((_ & _ & _ & Hkeys) & M2 & _).
  destruct (@owner_department _ _ _ _ M2 Hin) as (dept0 & Hd0 & Hof & Hhire).
  split; [exists dept0; split; assumption|].
  intros dept Hd Hdept. rewrite Hof in Hdept. inversion Hdept as [Hid].
  rewrite <- (@same_key _ Department.id _ _ _ Hkeys Hd0 Hd Hid). exact Hhire.
Qed.

(** C6: every assignment in the store after a successful request links an
    employee and a project of the store, and the employee's department is
    the project's. *)
Theorem assignment_within_department d e p s w response w' a :
  generate_mock_data d e p s w = (Ok response, w') ->
  In a (project_employees (stored (db w'))) ->
  (exists emp project,
      In emp (employees (stored (db w')))
      /\ In project (projects (stored (db w')))
      /\ ProjectEmployee.employee_id a = Employee.id emp
      /\ ProjectEmployee.project_id a = Project.id project)
  /\ (forall emp project,
        In emp (employees (stored (db w'))) ->
        In project (projects (stored (db w'))) ->
        ProjectEmployee.employee_id a = Employee.id emp ->
        ProjectEmployee.project_id a = Project.id project ->
        Employee.department_id emp = Some (Project.department_id project)).
Proof.
  intros H. apply generate_mock_data_ok in H as (t & Hdb & Hgen & _).
  unfold settled in Hdb. rewrite Hdb. simpl. intros Hin.
  destruct Hgen as (_ & [_ Hekeys] & [_ Hpkeys] & M4 & _).
  destruct (@assignment_parties _ _ _ _ _ M4 Hin)
    as (emp0 & project0 & He0 & Hp0 & (Haemp & Haproj & _) & Hsame).
  split; [exists emp0, project0; repeat split; assumption|].
  intros emp project He Hp Hea Hpa.
  rewrite <- (@same_key _ Employee.id _ _ _ Hekeys He0 He) by congruence.
  rewrite <- (@same_key _ Project.id _ _ _ Hpkeys Hp0 Hp) by congruence.
  exact Hsame.
Qed.

(** C7: every salary in the store after a successful request belongs to one
    of its employees, is paid on or after that employee's hire date, and has
    a positive amount, a non-negative tax deduction and a non-negative
    bonus. *)
Theorem salary_after_hire_and_positive d e p s w response w' salary :
  generate_mock_data d e p s w = (Ok response, w') ->
  In salary (salaries (stored (db w'))) ->
  (0 <? Salary.amount salary)%float = true
  /\ (0 <=? Salary.tax_deduction salary)%float = true
  /\ (0 <=? Salary.bonus salary)%float = true
  /\ (exists emp,
        In emp (employees (stored (db w')))
        /\ Salary.employee_id salary = Employee.id emp)
  /\ (forall emp,
        In emp (employees (stored (db w'))) ->
        Salary.employee_id salary = Employee.id emp ->
        Employee.hire_date emp <= Salary.payment_date salary).
Proof.
  intros H. apply generate_mock_data_ok in H as (t & Hdb & Hgen & _).
  unfold settled in Hdb. rewrite Hdb. simpl. intros Hin.
  destruct Hgen as (_ & [_ Hekeys] & _ & _ & M5).
  destruct (@owner_employee _ _ _ _ M5 Hin)
    as (emp0 & base & He0 & Hid & Hdate & Hamount & Htax & Hbonus & _).
  repeat split; try assumption.
  - exists emp0. split; assumption.
  - intros emp He Hemp.
    rewrite <- (@same_key _ Employee.id _ _ _ Hekeys He0 He) by congruence. lia.
Qed.


(** C9: of two successful requests in a row, the second ends exactly as it
    would on an empty store: nothing of what the first one wrote is left,
    and the store holds the rows the second generated, in the second's
    counts. *)
Theorem second_request_replaces_first d1 e1 p1 s1 d2 e2 p2 s2 w r1 w1 r2 w2 :
  0 <= d2 -> 0 <= e2 -> 0 <= p2 -> 0 <= s2 ->
  generate_mock_data d1 e1 p1 s1 w = (Ok r1, w1) ->
  generate_mock_data d2 e2 p2 s2 w1 = (Ok r2, w2) ->
  generate_mock_data d2 e2 p2 s2
    (mkWorld (mkSession no_rows no_rows) (entropy w1)) = (Ok r2, w2)
  /\ generated_store d2 e2 p2 s2 (stored (db w2))
  /\ len (departments (stored (db w2))) = d2
  /\ len (employees (stored (db w2))) = d2 * e2
  /\ len (projects (stored (db w2))) = d2 * p2
  /\ len (salaries (stored (db w2))) = d2 * e2 * s2.
Proof.
  intros Hd He Hp Hs _ H2. split.
  - rewrite generate_mock_data_eq in *. exact H2.
  - apply generate_mock_data_ok in H2 as (t & Hdb & Hgen & _).
    unfold settled in Hdb. rewrite Hdb. simpl.
    split; [exact Hgen|]. exact (generated_store_counts Hd He Hp Hs Hgen).
Qed.

(** C10: a request for no department succeeds whatever the other counts:
    it deletes every row of the five tables, creates none, and returns the
    stats 0, 0, 0, 0. *)
Theorem zero_departments_is_a_reset e p s w :
  exists w',
    generate_mock_data 0 e p s w
    = (Ok (mkResponse "Mock data generated successfully" (mkStats 0 0 0 0)),
       w')
    /\ db w' = mkSession no_rows no_rows.
Proof.
  rewrite generate_mock_data_eq. unfold generate_stages.
  destruct (generate_no_department e (after_reset w)) as (w1 & E & Hdb).
  erewrite bind_eq by exact E. simpl.
  eexists. split; [reflexivity|]. simpl. rewrite Hdb. reflexivity.
Qed.

(* ================================================================== *)
(** * Further properties of the generator *)

(** Every project of a successful request is staffed: the assignment rows
    that name it are between 2 and [min(5, employees_per_dept)], and they
    name pairwise distinct employees. *)
Theorem projects_are_staffed d e p s w response w' project :
  generate_mock_data d e p s w = (Ok response, w') ->
  In project (projects (stored (db w'))) ->
  let rows :=
    filter (fun a => ProjectEmployee.project_id a =? Project.id project)
      (project_employees (stored (db w'))) in
  2 <= len rows <= Z.min 5 e
  /\ NoDup (map ProjectEmployee.employee_id rows).
Proof.
  intros H Hin.
  apply generate_mock_data_ok in H as (t & Hdb & Hgen & _).
  unfold settled in Hdb. rewrite Hdb in *. simpl in *.
  destruct Hgen as (_ & (_ & Hemps) & (_ & Hprojs) & M4 & _).
  destruct (@assignments_of_project _ _ _ _ _ M4 Hprojs Hin)
    as (assignees & Hlen & Hfrom & Hnd & Hrows).
  split.
  - unfold len in *. rewrite <- (Forall2_length Hrows). exact Hlen.
  - rewrite (assignees_of_rows Hrows).
    apply NoDup_map_NoDup_ForallPairs.
    + intros a b Ha Hb Hk.
      exact (@same_key _ Employee.id _ _ _ Hemps
               (proj1 (Hfrom a Ha)) (proj1 (Hfrom b Hb)) Hk).
    + apply Hnd. exact (NoDup_map_inv _ _ Hemps).
Qed.

(** A request for more than five departments fails in the departments
    stage: it answers HTTP 500 and leaves every table empty. *)
Theorem more_than_five_departments_fail d e p s w :
  5 < d ->
  exists x w',
    generate_mock_data d e p s w = (Raise (HTTPException 500 x), w')
    /\ db w' = mkSession no_rows no_rows.
Proof.
  intros Hd.
  destruct (generate_mock_data d e p s w) as [[response|y] w'] eqn:E;
    apply generate_mock_data_outcome in E.
  - destruct E as (t & _ & ((Hle & _) & _) & _). lia.
  - destruct E as (x & stage & -> & Hs & Hleft).
    exists x, w'. split; [reflexivity|].
    unfold settled in Hs. rewrite Hs.
    destruct stage; simpl in Hleft.
    + rewrite Hleft. reflexivity.
    + destruct Hleft as (depts & _ & (Hle & _)). lia.
    + destruct Hleft as (depts & emps & _ & (Hle & _) & _). lia.
    + destruct Hleft as (depts & emps & projs & _ & (Hle & _) & _). lia.
    + destruct Hleft as (depts & emps & projs & rows & _ & (Hle & _) & _). lia.
Qed.

(** The request parameters are unconstrained: a request with a negative
    [salaries_per_employee] can succeed; it stores no salary row, and the
    salaries it reports are the number of employees times that count. *)
Theorem negative_salaries_are_reported d e p s w response w' :
  s < 0 ->
  generate_mock_data d e p s w = (Ok response, w') ->
  salaries (stored (db w')) = []
  /\ stats_salaries (stats response)
     = len (employees (stored (db w'))) * s.
Proof.
  intros Hs H.
  apply generate_mock_data_ok in H as (t & Hdb & Hgen & ->).
  unfold settled in Hdb. rewrite Hdb. simpl.
  destruct Hgen as (_ & _ & _ & _ & M5).
  split; [|reflexivity].
  apply (@no_salaries s (employees t)); [lia|exact M5].
Qed.

(* ================================================================== *)
(** * The rows a request writes *)

(** ** Phone numbers *)

Lemma range_has a b n : a <= n < b -> In n (range a b).
Proof.
  intros H. unfold range. apply in_map_iff.
  exists (Z.to_nat (n - a)). split; [lia|]. apply in_seq. lia.
Qed.

Lemma length_append (s1 s2 : string) :
  String.length (s1 ++ s2) = (String.length s1 + String.length s2)%nat.
Proof. induction s1 as [|c s1 IH]; simpl; [reflexivity|rewrite IH; reflexivity]. Qed.

Lemma list_ascii_of_append (s1 s2 : string) :
  list_ascii_of_string (s1 ++ s2)
  = list_ascii_of_string s1 ++ list_ascii_of_string s2.
Proof. induction s1 as [|c s1 IH]; simpl; [reflexivity|rewrite IH; reflexivity]. Qed.

(** The decimal of a number of three digits, or of four. *)
Lemma str_int_three_digits n :
  200 <= n <= 999 ->
  forallb phone_char (list_ascii_of_string (str_int n)) = true
  /\ String.length (str_int n) = 3%nat.
Proof.
  intros Hn.
  assert (Hall : forallb (fun n =>
                            forallb phone_char (list_ascii_of_string (str_int n))
                            && (String.length (str_int n) =? 3)%nat)
                   (range 200 1000) = true) by (vm_compute; reflexivity).
  rewrite forallb_forall in Hall.
  assert (Hin : In n (range 200 1000)) by (apply range_has; lia).
  specialize (Hall n Hin).
  apply andb_true_iff in Hall as [H1 H2]. apply Nat.eqb_eq in H2.
  split; assumption.
Qed.

Lemma str_int_four_digits n :
  1000 <= n <= 9999 ->
  forallb phone_char (list_ascii_of_string (str_int n)) = true
  /\ String.length (str_int n) = 4%nat.
Proof.
  intros Hn.
  assert (Hall : forallb (fun n =>
                            forallb phone_char (list_ascii_of_string (str_int n))
                            && (String.length (str_int n) =? 4)%nat)
                   (range 1000 10000) = true) by (vm_compute; reflexivity).
  rewrite forallb_forall in Hall.
  assert (Hin : In n (range 1000 10000)) by (apply range_has; lia).
  specialize (Hall n Hin).
  apply andb_true_iff in Hall as [H1 H2]. apply Nat.eqb_eq in H2.
  split; assumption.
Qed.

Lemma generated_phone_matches phone :
  generated_phone phone -> phone_pattern phone = true.
Proof.
  intros (a & b & c & Ha & Hb & Hc & ->).
  destruct (str_int_three_digits Ha) as [Da La].
  destruct (str_int_three_digits Hb) as [Db Lb].
  destruct (str_int_four_digits Hc) as [Dc Lc].
  change ("+1-" ++ str_int a ++ "-" ++ str_int b ++ "-" ++ str_int c)%string
    with (String "+" ("1-" ++ str_int a ++ "-" ++ str_int b ++ "-" ++ str_int c))%string.
  unfold phone_pattern.
  rewrite !list_ascii_of_append, !forallb_app, !length_append.
  rewrite Da, Db, Dc, La, Lb, Lc. reflexivity.
Qed.

Lemma randint_runs a b w :
  a <= b ->
  exists v w', randint a b w = (Ok v, w') /\ a <= v <= b /\ db w' = db w.
Proof.
  intros Hab. unfold randint, randrange.
  destruct (0 <? b + 1 - a) eqn:E; [|apply Z.ltb_ge in E; lia].
  apply Z.ltb_lt in E.
  destruct (randbelow_ok w E) as (v & w' & Hv & Hr & Hdb).
  erewrite bind_eq by exact Hv.
  exists (a + v), w'. split; [reflexivity|]. split; [lia|exact Hdb].
Qed.

Lemma generate_phone_ok w phone w' :
  generate_phone w = (Ok phone, w') -> generated_phone phone.
Proof.
  unfold generate_phone. intros H.
  apply bind_ok in H as (a & w1 & Ha & H).
  apply bind_ok in H as (b & w2 & Hb & H).
  apply bind_ok in H as (c & w3 & Hc & H).
  apply ret_ok in H as [-> ->].
  apply randint_ok in Ha, Hb, Hc.
  exists a, b, c. repeat split; lia.
Qed.

(** ** What the Create models let through *)

Lemma EmployeeCreate_checks first last email phone hire_date job_title dept data :
  EmployeeCreate email_str today first last email phone hire_date job_title dept
  = Ok data ->
  (2 <= String.length first <= 50)%nat
  /\ (2 <= String.length last <= 50)%nat
  /\ email_str email = true
  /\ phone_pattern phone = true.
Proof.
  unfold EmployeeCreate.
  match goal with |- match ?l with _ => _ end = _ -> _ =>
    destruct l as [|f fs] eqn:E; [|discriminate] end.
  apply app_eq_nil in E as [E1 E]. apply app_eq_nil in E as [E2 E].
  apply app_eq_nil in E as [E3 E]. apply app_eq_nil in E as [E4 _].
  apply refused_nil in E1, E2, E3, E4.
  apply andb_true_iff in E1 as [A1 B1]. apply andb_true_iff in E2 as [A2 B2].
  apply Nat.leb_le in A1, B1, A2, B2.
  intros _. repeat split; assumption.
Qed.

Lemma ProjectCreate_checks name description start_date end_date budget status
    dept data :
  ProjectCreate name description start_date end_date budget status dept
  = Ok data ->
  (String.length name <= 100)%nat
  /\ (String.length description <= 500)%nat
  /\ start_date <= end_date
  /\ (0 <? budget)%float = true.
Proof.
  unfold ProjectCreate.
  match goal with |- match ?l with _ => _ end = _ -> _ =>
    destruct l as [|f fs] eqn:E; [|discriminate] end.
  apply app_eq_nil in E as [E1 E]. apply app_eq_nil in E as [E2 E].
  apply app_eq_nil in E as [E3 E4].
  apply refused_nil in E1, E2, E3, E4.
  apply Nat.leb_le in E1, E2. unfold validate_end_date in E3.
  apply negb_true_iff, Z.ltb_ge in E3.
  intros _. repeat split; assumption.
Qed.

(** ** The row of one turn of a stage *)

Lemma new_department_row dept_name e w dept w' :
  new_department dept_name e w = (Ok dept, w') -> generated_department e dept.
Proof.
  unfold new_department. intros H.
  do 6 draw_step H.
  match goal with E : date_between _ _ _ = _ |- _ =>
    apply date_between_ok in E end.
  match goal with E : lift _ _ = _ |- _ =>
    unfold lift in E; inversion E; subst; clear E end.
  match goal with E : DepartmentCreate _ _ _ _ _ _ = _ |- _ =>
    apply DepartmentCreate_ok in E as (n & Hn & -> & Hb & Hc) end.
  unfold add_Department in H. inversion H; subst; clear H.
  unfold generated_department. simpl.
  split; [exact Hb|]. split; [lia|]. split; [reflexivity|exact Hc].
Qed.

Lemma new_employee_row dept w emp w' :
  new_employee dept w = (Ok emp, w') -> generated_employee emp.
Proof.
  unfold new_employee. intros H.
  do 7 draw_step H.
  match goal with E : generate_phone _ = _ |- _ =>
    apply generate_phone_ok in E; rename E into Hphone end.
  match goal with E : choice _ _ = _ |- _ =>
    apply choice_ok in E; rename E into Hjob end.
  match goal with E : lift _ _ = _ |- _ =>
    unfold lift in E; inversion E; subst; clear E end.
  match goal with E : EmployeeCreate _ _ _ _ _ _ _ _ _ = _ |- _ =>
    pose proof (EmployeeCreate_checks _ _ _ _ _ _ _ E) as (C1 & C2 & C3 & C4);
    apply EmployeeCreate_ok in E as (-> & Hh) end.
  unfold add_Employee in H. inversion H; subst; clear H.
  unfold generated_employee. simpl.
  repeat split; try assumption; lia.
Qed.

Lemma new_project_row dept w project w' :
  new_project dept w = (Ok project, w') -> generated_project project.
Proof.
  unfold new_project. intros H.
  do 7 draw_step H.
  repeat match goal with E : date_between _ _ _ = _ |- _ =>
    apply date_between_ok in E end.
  match goal with E : lift _ _ = _ |- _ =>
    unfold lift in E; inversion E; subst; clear E end.
  match goal with E : ProjectCreate _ _ _ _ _ _ _ = _ |- _ =>
    pose proof (ProjectCreate_checks _ _ _ _ _ _ _ E) as (C1 & C2 & C3 & C4);
    apply ProjectCreate_ok in E as -> end.
  unfold add_Project in H. inversion H; subst; clear H.
  unfold generated_project, minus_1y, plus_6m in *. simpl.
  split; [lia|]. split; [eexists; split; [reflexivity|lia]|].
  split; [exact C4|]. split; [eexists; reflexivity|].
  split; [exact C1|]. eexists. split; [reflexivity|exact C2].
Qed.

(** ** The rows of a stage *)

Lemma for_each_all {A B} (body : A -> M B) (Q : B -> Prop) xs w ys w' :
  for_each xs body w = (Ok ys, w') ->
  (forall x w1 y w2, In x xs -> body x w1 = (Ok y, w2) -> Q y) ->
  Forall Q ys.
Proof.
  intros H Hbody.
  eapply (@for_each_ok _ _ body (fun _ out _ => Forall Q out)); [exact H| |].
  - constructor.
  - intros done x out w1 y w2 HR Hin Hy. apply Forall_app.
    split; [exact HR|]. constructor; [|constructor].
    exact (Hbody _ _ _ _ Hin Hy).
Qed.

Lemma generate_departments_rows d e w depts w' :
  generate_departments d e w = (Ok depts, w') ->
  Forall (generated_department e) depts.
Proof.
  unfold generate_departments. intros H.
  apply bind_ok in H as (order & w0 & _ & H).
  apply bind_ok in H as (first & w1 & Hfirst & H).
  apply bind_ok in H as (more & w2 & Hmore & H).
  apply bind_ok in H as (u & w3 & _ & H).
  apply ret_ok in H as [-> ->]. apply Forall_app. split.
  - eapply for_each_all; [exact Hfirst|].
    intros i wa dept wb _ Hbody.
    apply bind_ok in Hbody as (dept_name & wc & _ & Hnew).
    exact (new_department_row _ _ _ Hnew).
  - eapply for_each_all; [exact Hmore|].
    intros i wa dept wb _ Hbody.
    apply bind_ok in Hbody as (dept_name & wc & _ & Hnew).
    exact (new_department_row _ _ _ Hnew).
Qed.

Lemma generate_employees_rows depts e w emps w' :
  generate_employees depts e w = (Ok emps, w') ->
  Forall generated_employee emps.
Proof.
  unfold generate_employees. intros H.
  apply bind_ok in H as (per_dept & w1 & Hloop & H).
  apply bind_ok in H as (u & w2 & _ & H).
  apply ret_ok in H as [-> ->]. apply Forall_concat.
  eapply for_each_all; [exact Hloop|].
  intros dept wa group wb _ Hgroup.
  eapply for_each_all; [exact Hgroup|].
  intros i wc emp wd _ Hnew. exact (new_employee_row _ _ Hnew).
Qed.

Lemma generate_projects_rows depts p w projs w' :
  generate_projects depts p w = (Ok projs, w') ->
  Forall generated_project projs.
Proof.
  unfold generate_projects. intros H.
  apply bind_ok in H as (per_dept & w1 & Hloop & H).
  apply bind_ok in H as (u & w2 & _ & H).
  apply ret_ok in H as [-> ->]. apply Forall_concat.
  eapply for_each_all; [exact Hloop|].
  intros dept wa group wb _ Hgroup.
  eapply for_each_all; [exact Hgroup|].
  intros i wc project wd _ Hnew. exact (new_project_row _ _ Hnew).
Qed.

(** The stages of a successful request, and the rows each has returned. *)
Lemma generate_mock_data_stages d e p s w response w' :
  generate_mock_data d e p s w = (Ok response, w') ->
  exists depts w1 emps w2 projs w3,
    generate_departments d e (after_reset w) = (Ok depts, w1)
    /\ generate_employees depts e w1 = (Ok emps, w2)
    /\ generate_projects depts p w2 = (Ok projs, w3)
    /\ departments (stored (db w')) = depts
    /\ employees (stored (db w')) = emps
    /\ projects (stored (db w')) = projs.
Proof.
  rewrite generate_mock_data_eq. unfold generate_stages.
  destruct (generate_departments d e (after_reset w)) as [[depts|x] w1] eqn:E1;
    [erewrite bind_eq by exact E1|erewrite bind_eq_raise by exact E1; discriminate].
  destruct (generate_employees depts e w1) as [[emps|x] w2] eqn:E2;
    [erewrite bind_eq by exact E2|erewrite bind_eq_raise by exact E2; discriminate].
  destruct (generate_projects depts p w2) as [[projs|x] w3] eqn:E3;
    [erewrite bind_eq by exact E3|erewrite bind_eq_raise by exact E3; discriminate].
  destruct (generate_assignments projs emps e w3) as [[u4|x] w4] eqn:E4;
    [erewrite bind_eq by exact E4|erewrite bind_eq_raise by exact E4; discriminate].
  destruct (generate_salaries emps s w4) as [[u5|x] w5] eqn:E5;
    [erewrite bind_eq by exact E5|erewrite bind_eq_raise by exact E5; discriminate].
  unfold ret. intros H. inversion H; subst w'. clear H.
  exists depts, w1, emps, w2, projs, w3.
  split; [reflexivity|]. split; [exact E2|]. split; [exact E3|].
  pose proof E1 as F1. unfold after_reset in F1.
  apply departments_stage in F1 as [S1 _].
  pose proof E2 as F2. apply (employees_stage _ S1) in F2 as [S2 _].
  pose proof E3 as F3. apply (projects_stage _ S2) in F3 as [S3 _].
  apply (assignments_stage _ S3) in E4 as (arows & S4 & _).
  apply (salaries_stage _ S4) in E5 as (srows & S5 & _).
  unfold settled in S5. rewrite S5. simpl. repeat split.
Qed.

(** ** Rows found by key *)

Lemma has_key_in {A} (key : A -> Z) rows row :
  In row rows -> has_key key rows (key row) = true.
Proof.
  intros H. unfold has_key. apply existsb_exists.
  exists row. split; [exact H|apply Z.eqb_refl].
Qed.

Lemma owner_of_project p depts projs project :
  projects_made p depts projs -> In project projs ->
  exists dept,
    In dept depts /\ Project.department_id project = Department.id dept.
Proof.
  intros [(groups & -> & HF) _] Hin.
  destruct (@in_concat_groups _ _ _ _ _ _ HF Hin)
    as (dept & group & Hd & [_ Hall] & Hg).
  exists dept. split; [exact Hd|].
  rewrite Forall_forall in Hall. exact (Hall _ Hg).
Qed.

(** The rows that carry the key of [x] are the group written for [x], when
    the keys of [xs] are pairwise distinct. *)
Lemma filter_own_group {A B} (R : A -> list B -> Prop) (key : A -> Z)
    (own : A -> B -> bool) xs groups x :
  Forall2 R xs groups ->
  (forall a g b, R a g -> In b g -> own a b = true) ->
  (forall a a' g b, R a g -> In b g -> own a' b = true -> key a' = key a) ->
  NoDup (map key xs) -> In x xs ->
  R x (filter (own x) (List.concat groups)).
Proof.
  intros HF Hown Hkey.
  induction HF as [|a g xs groups HR HF IH]; intros Hnd Hin; [destruct Hin|].
  simpl in Hnd. inversion Hnd as [|? ? Hnotin Hnd']; subst.
  simpl. rewrite filter_app. destruct Hin as [->|Hin].
  - rewrite filter_all; [|intros b Hb; exact (Hown _ _ _ HR Hb)].
    rewrite filter_none; [rewrite app_nil_r; exact HR|].
    intros b Hb.
    destruct (@in_concat_groups _ _ _ _ _ _ HF Hb) as (a' & g' & Ha' & HR' & Hb').
    destruct (own x b) eqn:E; [exfalso|reflexivity].
    apply Hnotin. rewrite (Hkey _ _ _ _ HR' Hb' E). apply in_map. exact Ha'.
  - rewrite filter_none; [simpl; apply IH; assumption|].
    intros b Hb. destruct (own x b) eqn:E; [exfalso|reflexivity].
    apply Hnotin. rewrite <- (Hkey _ _ _ _ HR Hb E). apply in_map. exact Hin.
Qed.

(* ================================================================== *)
(** * More on what a successful request leaves in the store *)

(** Every foreign key of the generated rows names a row of the store: an
    employee and a project name their department, a salary names its
    employee, an assignment names its employee and its project. *)
Theorem generated_foreign_keys_resolve d e p s w response w' :
  generate_mock_data d e p s w = (Ok response, w') ->
  foreign_keys_resolve (stored (db w')) = true
  /\ forall emp, In emp (employees (stored (db w'))) ->
       Employee.department_id emp <> None.
Proof.
  intros H. apply generate_mock_data_ok in H as (t & Hdb & Hgen & _).
  unfold settled in Hdb. rewrite Hdb. simpl.
  destruct Hgen as (_ & M2 & M3 & M4 & M5).
  split.
  - unfold foreign_keys_resolve.
    repeat (apply andb_true_iff; split); apply forallb_forall.
    + intros emp Hin.
      destruct (@owner_department _ _ _ _ M2 Hin) as (dept & Hd & [-> _]).
      apply has_key_in. exact Hd.
    + intros project Hin.
      destruct (@owner_of_project _ _ _ _ M3 Hin) as (dept & Hd & ->).
      apply has_key_in. exact Hd.
    + intros salary Hin.
      destruct (@owner_employee _ _ _ _ M5 Hin) as (emp & base & He & [-> _]).
      apply has_key_in. exact He.
    + intros a Hin.
      destruct (@assignment_parties _ _ _ _ _ M4 Hin)
        as (emp & project & He & Hp & (-> & -> & _) & _).
      apply andb_true_iff. split; apply has_key_in; assumption.
  - intros emp Hin.
    destruct (@owner_department _ _ _ _ M2 Hin) as (dept & _ & [-> _]). discriminate.
Qed.

(** Every department of a successful request has exactly
    [employees_per_dept] employees, which is what its [employee_count] says,
    and, for a non-negative [projects_per_dept], exactly that many
    projects. *)
Theorem departments_are_filled d e p s w response w' dept :
  0 <= p ->
  generate_mock_data d e p s w = (Ok response, w') ->
  In dept (departments (stored (db w'))) ->
  len (filter (employee_in dept) (employees (stored (db w')))) = e
  /\ Department.employee_count dept = e
  /\ len (filter (project_in dept) (projects (stored (db w')))) = p.
Proof.
  intros Hp H Hin.
  pose proof (@generate_mock_data_stages _ _ _ _ _ _ _ H)
    as (depts & w1 & emps & w2 & projs & w3 & E1 & _ & _ & D1 & _ & _).
  apply generate_departments_rows in E1. rewrite <- D1 in E1.
  rewrite Forall_forall in E1. destruct (E1 _ Hin) as (_ & _ & Hcount & He).
  apply generate_mock_data_ok in H as (t & Hdb & Hgen & _).
  unfold settled in Hdb. rewrite Hdb in *. simpl in *.
  destruct Hgen as ((_ & _ & _ & Hkeys) & ((egroups & Hemps & HeF) & _)
                      & ((pgroups & Hprojs & HpF) & _) & _).
  split; [|split; [exact Hcount|]].
  - rewrite Hemps.
    destruct (@filter_own_group _ _ _ Department.id employee_in _ _ dept HeF)
      as [Hl _]; try assumption.
    + intros a g b [_ Hall] Hb. rewrite Forall_forall in Hall.
      destruct (Hall _ Hb) as [Hid _]. unfold employee_in. rewrite Hid.
      apply Z.eqb_refl.
    + intros a a' g b [_ Hall] Hb Hown. rewrite Forall_forall in Hall.
      destruct (Hall _ Hb) as [Hid _]. unfold employee_in in Hown.
      rewrite Hid in Hown. apply Z.eqb_eq in Hown. symmetry. exact Hown.
    + unfold len. rewrite Hl. lia.
  - rewrite Hprojs.
    destruct (@filter_own_group _ _ _ Department.id project_in _ _ dept HpF)
      as [Hl _]; try assumption.
    + intros a g b [_ Hall] Hb. rewrite Forall_forall in Hall.
      unfold project_in. rewrite (Hall _ Hb). apply Z.eqb_refl.
    + intros a a' g b [_ Hall] Hb Hown. rewrite Forall_forall in Hall.
      unfold project_in in Hown. rewrite (Hall _ Hb) in Hown.
      apply Z.eqb_eq in Hown. symmetry. exact Hown.
    + unfold len. rewrite Hl. lia.
Qed.

(** Every assignment of a successful request joins its project on the
    project's start date or within the 30 days after it. *)
Theorem assignments_join_within_a_month d e p s w response w' a project :
  generate_mock_data d e p s w = (Ok response, w') ->
  In a (project_employees (stored (db w'))) ->
  In project (projects (stored (db w'))) ->
  ProjectEmployee.project_id a = Project.id project ->
  Project.start_date project <= ProjectEmployee.join_date a
  <= Project.start_date project + 30.
Proof.
  intros H Ha Hproject Hid.
  apply generate_mock_data_ok in H as (t & Hdb & Hgen & _).
  unfold settled in Hdb. rewrite Hdb in *. simpl in *.
  destruct Hgen as (_ & _ & (_ & Hkeys) & M4 & _).
  destruct (@assignment_parties _ _ _ _ _ M4 Ha)
    as (emp & project' & _ & Hp' & (_ & Hid' & Hjoin) & _).
  rewrite Hid in Hid'.
  rewrite (@same_key _ Project.id _ _ _ Hkeys Hproject Hp' Hid').
  exact Hjoin.
Qed.

(** Every department of a successful request carries one of the five
    canonical names, a positive budget, a date of establishment in the 1827
    days up to today, and the [employees_per_dept] of the request, which is
    not negative. *)
Theorem generated_departments_are_valid d e p s w response w' dept :
  generate_mock_data d e p s w = (Ok response, w') ->
  In dept (departments (stored (db w'))) ->
  (exists n, Department.name dept = DepartmentName_value n)
  /\ (0 <? Department.budget dept)%float = true
  /\ today - 1827 <= Department.established_date dept <= today
  /\ Department.employee_count dept = e
  /\ 0 <= e.
Proof.
  intros H Hin.
  pose proof (@generate_mock_data_stages _ _ _ _ _ _ _ H)
    as (depts & w1 & emps & w2 & projs & w3 & E1 & _ & _ & D1 & _ & _).
  apply generate_departments_rows in E1. rewrite <- D1 in E1.
  rewrite Forall_forall in E1. destruct (E1 _ Hin) as (Hb & Hest & Hc & He).
  split; [|repeat split; try assumption; apply Hest].
  apply generate_mock_data_ok in H as (t & Hdb & Hgen & _).
  unfold settled in Hdb. rewrite Hdb in *. simpl in *.
  destruct Hgen as ((_ & (order & _ & Hnames) & _) & _).
  apply (in_map Department.name) in Hin. rewrite Hnames in Hin.
  apply in_map_iff in Hin as (n & Hn & _). exists n. symmetry. exact Hn.
Qed.

(** Every employee of a successful request has what [EmployeeCreate] asks
    for (names of 2 to 50 characters, an email [EmailStr] accepts, a phone
    that matches the pattern, a hire date not after today), a phone of the
    form +1-ddd-ddd-dddd with both groups of three from 200 to 999 and the
    last from 1000 to 9999, and one of the six job titles. *)
Theorem generated_employees_are_valid d e p s w response w' emp :
  generate_mock_data d e p s w = (Ok response, w') ->
  In emp (employees (stored (db w'))) ->
  generated_employee emp.
Proof.
  intros H Hin.
  pose proof (@generate_mock_data_stages _ _ _ _ _ _ _ H)
    as (depts & w1 & emps & w2 & projs & w3 & _ & E2 & _ & _ & D2 & _).
  apply generate_employees_rows in E2. rewrite <- D2 in E2.
  rewrite Forall_forall in E2. exact (E2 _ Hin).
Qed.

(** Every project of a successful request starts in the 366 days up to
    today, never after today (the end of the window, "+6m", is six minutes
    from now), ends between 30 and 180 days after it starts, has a positive
    budget, and is named Project followed by a colour name in title case. *)
Theorem generated_projects_are_valid d e p s w response w' project :
  generate_mock_data d e p s w = (Ok response, w') ->
  In project (projects (stored (db w'))) ->
  generated_project project.
Proof.
  intros H Hin.
  pose proof (@generate_mock_data_stages _ _ _ _ _ _ _ H)
    as (depts & w1 & emps & w2 & projs & w3 & _ & _ & E3 & _ & _ & D3).
  apply generate_projects_rows in E3. rewrite <- D3 in E3.
  rewrite Forall_forall in E3. exact (E3 _ Hin).
Qed.

(** [generate_phone] always returns, and what it returns matches the phone
    pattern of [EmployeeBase]. *)
Theorem generate_phone_is_accepted w :
  exists phone w',
    generate_phone w = (Ok phone, w')
    /\ phone_pattern phone = true
    /\ db w' = db w.
Proof.
  unfold generate_phone.
  destruct (@randint_runs 200 999 w) as (a & w1 & Ea & Ha & D1); [lia|].
  destruct (@randint_runs 200 999 w1) as (b & w2 & Eb & Hb & D2); [lia|].
  destruct (@randint_runs 1000 9999 w2) as (c & w3 & Ec & Hc & D3); [lia|].
  erewrite bind_eq by exact Ea. erewrite bind_eq by exact Eb.
  erewrite bind_eq by exact Ec.
  eexists. exists w3. split; [reflexivity|]. split.
  - apply generated_phone_matches. exists a, b, c. repeat split; lia.
  - rewrite D3, D2, D1. reflexivity.
Qed.

(* ================================================================== *)
(** * Counts below zero *)

Lemma range_empty a b : b <= a -> range a b = [].
Proof.
  intros H. unfold range. replace (Z.to_nat (b - a)) with O by lia. reflexivity.
Qed.

Lemma range_first a b : a < b -> exists rest, range a b = a :: rest.
Proof.
  intros H. unfold range.
  destruct (Z.to_nat (b - a)) as [|k] eqn:E; [lia|].
  simpl. rewrite Z.add_0_r. eexists. reflexivity.
Qed.

Lemma fake_runs provider w :
  exists v w', fake provider w = (Ok v, w') /\ db w' = db w.
Proof.
  unfold fake, draw. destruct (fake_text provider (entropy w)) as [v g].
  exists v, (mkWorld (db w) g). split; reflexivity.
Qed.

Lemma uniform_runs a b w :
  exists v w', uniform a b w = (Ok v, w') /\ db w' = db w.
Proof.
  unfold uniform, random, _randbelow, bind, draw, ret.
  destruct (randbelow (2 ^ 53) (entropy w)) as [v g].
  eexists. eexists. split; reflexivity.
Qed.

Lemma date_between_runs start_date end_date w :
  start_date <= end_date ->
  exists v w',
    date_between start_date end_date w = (Ok v, w') /\ db w' = db w.
Proof.
  intros H. unfold date_between.
  destruct (end_date <? start_date) eqn:E; [apply Z.ltb_lt in E; lia|].
  unfold _randbelow, bind, draw, ret.
  destruct (randbelow (end_date - start_date + 1) (entropy w)) as [v g].
  eexists. eexists. split; reflexivity.
Qed.

Lemma DepartmentCreate_negative_count name location budget head established
    count :
  count < 0 ->
  exists fields,
    DepartmentCreate name location budget head established count
    = Raise (ValidationError "DepartmentCreate" fields)
    /\ In "employee_count"%string fields.
Proof.
  intros H. unfold DepartmentCreate.
  assert (E : (0 <=? count) = false) by (apply Z.leb_gt; exact H).
  rewrite E.
  destruct (DepartmentName_of_value name) as [n|];
    destruct (0 <? budget)%float; simpl;
    eexists; (split; [reflexivity|]); simpl; auto.
Qed.

(** A department cannot be given a negative [employee_count]. *)
Lemma new_department_negative_count dept_name e w :
  e < 0 ->
  exists fields w',
    new_department dept_name e w
    = (Raise (ValidationError "DepartmentCreate" fields), w')
    /\ In "employee_count"%string fields
    /\ db w' = db w.
Proof.
  intros He. unfold new_department.
  destruct (fake_runs city w) as (c & w1 & E1 & D1).
  destruct (fake_runs state_abbr w1) as (st & w2 & E2 & D2).
  destruct (uniform_runs 100000 500000 w2) as (budget & w3 & E3 & D3).
  destruct (fake_runs name w3) as (head & w4 & E4 & D4).
  destruct (@date_between_runs minus_5y today w4) as (est & w5 & E5 & D5);
    [unfold minus_5y; lia|].
  erewrite bind_eq by exact E1. erewrite bind_eq by exact E2.
  erewrite bind_eq by exact E3. erewrite bind_eq by exact E4.
  erewrite bind_eq by exact E5.
  destruct (@DepartmentCreate_negative_count dept_name (c ++ ", " ++ st)
              (round2 budget) head est e He) as (fields & Ef & Hin).
  exists fields, w5. split; [|split; [exact Hin|]].
  - apply bind_eq_raise. unfold lift. rewrite Ef. reflexivity.
  - rewrite D5, D4, D3, D2, D1. reflexivity.
Qed.

Lemma generate_departments_negative_count d e w :
  1 <= d -> e < 0 ->
  exists fields w',
    generate_departments d e w
    = (Raise (ValidationError "DepartmentCreate" fields), w')
    /\ In "employee_count"%string fields
    /\ db w' = db w.
Proof.
  intros Hd He. unfold generate_departments.
  destruct (shuffle_ok all_DepartmentName w) as (order & w0 & E & Hperm & Hdb).
  erewrite bind_eq by exact E.
  assert (Hlen : len order = 5).
  { unfold len. rewrite <- (Permutation_length Hperm). reflexivity. }
  rewrite Hlen.
  destruct (@range_first 0 (Z.min d 5)) as (rest & ->); [lia|].
  destruct order as [|n order]; [discriminate|].
  destruct (new_department_negative_count (DepartmentName_value n) w0 He)
    as (fields & w1 & En & Hin & D1).
  exists fields, w1. split; [|split; [exact Hin|rewrite D1; exact Hdb]].
  apply bind_eq_raise. apply for_each_first_raises.
  erewrite bind_eq by reflexivity. exact En.
Qed.

(** A request for at least one department with a negative
    [employees_per_dept] fails in the departments stage: [DepartmentCreate]
    refuses the [employee_count], the caller receives HTTP 500 with that
    validation error, and the store is left empty. *)
Theorem negative_employee_count_is_refused d e p s w :
  1 <= d -> e < 0 ->
  exists fields w',
    generate_mock_data d e p s w
    = (Raise (HTTPException 500 (ValidationError "DepartmentCreate" fields)),
       w')
    /\ In "employee_count"%string fields
    /\ db w' = mkSession no_rows no_rows.
Proof.
  intros Hd He. rewrite generate_mock_data_eq. unfold generate_stages.
  destruct (generate_departments_negative_count (after_reset w) Hd He)
    as (fields & w1 & E & Hin & D1).
  erewrite bind_eq_raise by exact E.
  eexists. eexists. split; [reflexivity|]. split; [exact Hin|].
  simpl. rewrite D1. reflexivity.
Qed.

Lemma generate_none d e w :
  d <= 0 ->
  exists w',
    generate_departments d e w = (Ok [], w')
    /\ db w' = mkSession (working (db w)) (working (db w)).
Proof.
  intros Hd. unfold generate_departments.
  destruct (shuffle_ok all_DepartmentName w) as (order & w1 & E & Hperm & Hdb).
  erewrite bind_eq by exact E.
  assert (Hlen : len order = 5).
  { unfold len. rewrite <- (Permutation_length Hperm). reflexivity. }
  rewrite Hlen. rewrite !range_empty by lia. simpl.
  eexists. split; [reflexivity|]. simpl. rewrite Hdb. reflexivity.
Qed.

(** A request for a negative number of departments is a request for none:
    it succeeds, deletes every row, creates none and reports four counts of
    0, whatever the other counts are. *)
Theorem negative_departments_is_a_reset d e p s w :
  d < 0 ->
  exists w',
    generate_mock_data d e p s w
    = (Ok (mkResponse "Mock data generated successfully" (mkStats 0 0 0 0)),
       w')
    /\ db w' = mkSession no_rows no_rows.
Proof.
  intros Hd. rewrite generate_mock_data_eq. unfold generate_stages.
  destruct (@generate_none d e (after_reset w)) as (w1 & E & Hdb); [lia|].
  erewrite bind_eq by exact E. simpl.
  eexists. split; [reflexivity|]. simpl. rewrite Hdb. reflexivity.
Qed.

End Properties.

(* ================================================================== *)
(** * The routers of the four tables *)

Section RouterProperties.

Context {G : Type} {RT : Runtime G} {EN : Engine}.

Local Abbreviation World := (World G).
Local Abbreviation settled := (@settled G).

(** ** Rows and keys *)

Lemma find_last {A} (key : A -> Z) rows row :
  (forall r, In r rows -> key r <> key row) ->
  find (fun r => key r =? key row) (rows ++ [row]) = Some row.
Proof.
  induction rows as [|a rows IH]; simpl; intros H.
  - rewrite Z.eqb_refl. reflexivity.
  - destruct (key a =? key row) eqn:E.
    + apply Z.eqb_eq in E. exfalso. apply (H a); [left; reflexivity|exact E].
    + apply IH. intros r Hr. apply H. right. exact Hr.
Qed.

Lemma new_key_is_new {A} (key : A -> Z) rows r :
  In r rows -> key r <> next_id (map key rows).
Proof.
  intros Hr E.
  pose proof (next_id_above (map key rows) (key r) (in_map key _ _ Hr)). lia.
Qed.

Lemma find_by_key {A} (key : A -> Z) rows row :
  NoDup (map key rows) -> In row rows ->
  find (fun r => key r =? key row) rows = Some row.
Proof.
  induction rows as [|a rows IH]; simpl; intros Hnd Hin; [destruct Hin|].
  inversion Hnd as [|? ? Hnotin Hnd']; subst.
  destruct Hin as [->|Hin]; [rewrite Z.eqb_refl; reflexivity|].
  destruct (key a =? key row) eqn:E; [|apply IH; assumption].
  apply Z.eqb_eq in E. exfalso. apply Hnotin. rewrite E.
  apply in_map. exact Hin.
Qed.

Lemma find_no_key {A} (key : A -> Z) rows k :
  (forall r, In r rows -> key r <> k) ->
  find (fun r => key r =? k) rows = None.
Proof.
  induction rows as [|a rows IH]; simpl; intros H; [reflexivity|].
  destruct (key a =? k) eqn:E.
  - apply Z.eqb_eq in E. exfalso. apply (H a); [left; reflexivity|exact E].
  - apply IH. intros r Hr. apply H. right. exact Hr.
Qed.

Lemma find_some_key {A} (key : A -> Z) rows k r :
  In r rows -> key r = k ->
  exists r', find (fun r => key r =? k) rows = Some r' /\ key r' = k
             /\ In r' rows.
Proof.
  intros Hin Hk.
  destruct (find (fun r => key r =? k) rows) as [r'|] eqn:E.
  - apply find_some in E as [Hin' Hk']. apply Z.eqb_eq in Hk'.
    exists r'. repeat split; assumption.
  - pose proof (find_none _ _ E _ Hin) as Hn. simpl in Hn.
    apply Z.eqb_neq in Hn. contradiction.
Qed.

Lemma respond_nil {A} (body : A) (w : World) :
  respond [] body w = (Sent body, w).
Proof. reflexivity. Qed.

Lemma respond_cons {A} f fs (body : A) (w : World) :
  respond (f :: fs) body w = (Failed (ResponseValidationError (f :: fs)), w).
Proof. reflexivity. Qed.

(** ** What a handler that creates a row does *)

Lemma add_Department_eq data (w : World) :
  add_Department data w
  = (Ok (Department_row (next_id (map Department.id (departments (working (db w))))) data),
     mkWorld
       (mkSession (stored (db w))
          (with_department
             (Department_row (next_id (map Department.id (departments (working (db w)))))
                data)
             (working (db w))))
       (entropy w)).
Proof. reflexivity. Qed.

Lemma create_department_eq department (w : World) :
  let row :=
    Department_row (next_id (map Department.id (departments (working (db w))))) department in
  create_department department w
  = match flush_Department row (stored (db w)) with
    | Some f =>
        (Failed f,
         mkWorld (mkSession (stored (db w))
                    (with_department row (working (db w)))) (entropy w))
    | None =>
        respond (DepartmentResponse row) row
          (mkWorld (mkSession (with_department row (working (db w)))
                      (with_department row (working (db w)))) (entropy w))
    end.
Proof.
  intros row. unfold create_department, and_then, run.
  rewrite add_Department_eq. fold row.
  unfold db_commit_row. cbn [db stored working entropy].
  destruct (flush_Department row (stored (db w))) as [f|]; [reflexivity|].
  unfold run, db_commit, refresh. cbn [db stored working entropy].
  unfold with_department at 1. cbn [departments].
  rewrite find_last; [reflexivity|].
  intros r Hr. apply new_key_is_new. exact Hr.
Qed.

Lemma add_Employee_eq data (w : World) :
  add_Employee data w
  = (Ok (Employee_row (next_id (map Employee.id (employees (working (db w))))) data),
     mkWorld
       (mkSession (stored (db w))
          (with_employee
             (Employee_row (next_id (map Employee.id (employees (working (db w)))))
                data)
             (working (db w))))
       (entropy w)).
Proof. reflexivity. Qed.

Lemma create_employee_eq employee (w : World) :
  let row :=
    Employee_row (next_id (map Employee.id (employees (working (db w))))) employee in
  create_employee employee w
  = match flush_Employee row (stored (db w)) with
    | Some f =>
        (Failed f,
         mkWorld (mkSession (stored (db w))
                    (with_employee row (working (db w)))) (entropy w))
    | None =>
        respond (EmployeeResponse row) row
          (mkWorld (mkSession (with_employee row (working (db w)))
                      (with_employee row (working (db w)))) (entropy w))
    end.
Proof.
  intros row. unfold create_employee, and_then, run.
  rewrite add_Employee_eq. fold row.
  unfold db_commit_row. cbn [db stored working entropy].
  destruct (flush_Employee row (stored (db w))) as [f|]; [reflexivity|].
  unfold run, db_commit, refresh. cbn [db stored working entropy].
  unfold with_employee at 1. cbn [employees].
  rewrite find_last; [reflexivity|].
  intros r Hr. apply new_key_is_new. exact Hr.
Qed.





(** ** Validated bodies pass their response model *)



Lemma existsb_false_in {A} (f : A -> bool) l x :
  existsb f l = false -> In x l -> f x = false.
Proof.
  intros H Hx. destruct (f x) eqn:E; [|reflexivity].
  assert (existsb f l = true) by (apply existsb_exists; exists x; auto).
  congruence.
Qed.


(** The names of a table that holds each name once are the five canonical
    names at most. *)
Lemma at_most_five_names (rows : list Department.t) :
  NoDup (map Department.name rows) ->
  Forall (fun d => exists n, Department.name d = DepartmentName_value n) rows ->
  len rows <= 5.
Proof.
  intros Hnd Hall.
  assert (Hincl : incl (map Department.name rows)
                    (map DepartmentName_value all_DepartmentName)).
  { intros v Hv. apply in_map_iff in Hv as (d & <- & Hd).
    rewrite Forall_forall in Hall. destruct (Hall _ Hd) as (n & ->).
    apply in_map. destruct n; simpl; auto 6. }
  pose proof (NoDup_incl_length Hnd Hincl) as Hl.
  rewrite !length_map in Hl. simpl in Hl. unfold len. lia.
Qed.

(* ================================================================== *)
(** ** POST /departments *)

(** A department whose name is in use is refused: the request fails on the
    unique name (or, on an engine that checks lengths, on a text that
    is too long), and what is committed stays as it was. *)
Theorem create_department_refuses_used_name department (w : World) d :
  In d (departments (stored (db w))) ->
  Department.name d = DepartmentName_value (DepartmentCreate.name department) ->
  exists f w',
    create_department department w = (Failed f, w')
    /\ stored (db w') = stored (db w)
    /\ (f = IntegrityError "departments.name"
        \/ exists column, f = DataError column).
Proof.
  intros Hin Hname. rewrite create_department_eq. unfold flush_Department.
  destruct (too_long _ 100);
    [eexists; eexists; split; [reflexivity|]; split;
     [reflexivity|right; eexists; reflexivity]|].
  destruct (too_long _ 50);
    [eexists; eexists; split; [reflexivity|]; split;
     [reflexivity|right; eexists; reflexivity]|].
  match goal with |- context [existsb ?f ?l] =>
    assert (E : existsb f l = true) end.
  { apply existsb_exists. exists d. split; [exact Hin|].
    apply String.eqb_eq. exact Hname. }
  rewrite E. eexists. eexists. split; [reflexivity|].
  split; [reflexivity|left; reflexivity].
Qed.


(** Whatever [POST /departments] answers, the committed departments keep
    pairwise distinct names among the five canonical ones; the table never
    holds more than five departments. *)
Theorem departments_stay_at_most_five department t (w : World) r w' :
  settled t w ->
  NoDup (map Department.name (departments t)) ->
  Forall (fun d => exists n, Department.name d = DepartmentName_value n)
    (departments t) ->
  create_department department w = (r, w') ->
  NoDup (map Department.name (departments (stored (db w'))))
  /\ Forall (fun d => exists n, Department.name d = DepartmentName_value n)
       (departments (stored (db w')))
  /\ len (departments (stored (db w'))) <= 5.
Proof.
  intros Hw Hnd Hall. unfold settled in Hw.
  rewrite create_department_eq. rewrite Hw. cbn [stored working].
  set (row := Department_row _ department).
  assert (Hgoal : forall rows,
             NoDup (map Department.name rows) ->
             Forall (fun d => exists n,
                       Department.name d = DepartmentName_value n) rows ->
             NoDup (map Department.name rows)
             /\ Forall (fun d => exists n,
                          Department.name d = DepartmentName_value n) rows
             /\ len rows <= 5).
  { intros rows H1 H2. split; [exact H1|]. split; [exact H2|].
    exact (at_most_five_names H1 H2). }
  destruct (flush_Department row t) as [f|] eqn:Ef.
  - intros H. inversion H; subst. simpl. apply Hgoal; assumption.
  - assert (Hnew : ~ In (Department.name row) (map Department.name (departments t))).
    { unfold flush_Department in Ef.
      destruct (too_long _ 100); [discriminate|].
      destruct (too_long _ 50); [discriminate|].
      destruct (existsb _ (departments t)) eqn:E; [discriminate|].
      intros Hin. apply in_map_iff in Hin as (d & Hd & Hin).
      pose proof (existsb_false_in _ _ d E Hin) as Hneq. simpl in Hneq.
      apply String.eqb_neq in Hneq. contradiction. }
    assert (Hafter :
              NoDup (map Department.name (departments (with_department row t)))
              /\ Forall (fun d => exists n,
                           Department.name d = DepartmentName_value n)
                   (departments (with_department row t))
              /\ len (departments (with_department row t)) <= 5).
    { apply Hgoal; simpl.
      - rewrite map_app. apply NoDup_app; [exact Hnd| |].
        + constructor; [intros []|constructor].
        + intros v Hv [<-|[]]. contradiction.
      - apply Forall_app. split; [exact Hall|].
        constructor; [|constructor].
        exists (DepartmentCreate.name department). reflexivity. }
    destruct (DepartmentResponse row) as [|x xs];
      intros H; inversion H; subst; simpl; exact Hafter.
Qed.

(* ================================================================== *)
(** ** The routes of the employees *)




Lemma concat_map_nil {A B} (f : A -> list B) l :
  (forall x, In x l -> f x = []) -> List.concat (map f l) = [].
Proof.
  induction l as [|a l IH]; simpl; intros H; [reflexivity|].
  rewrite (H a (or_introl eq_refl)), IH; [reflexivity|].
  intros x Hx. apply H. right. exact Hx.
Qed.

(** An employee whose email is in use is refused, and what is committed
    stays as it was. *)
Theorem create_employee_refuses_used_email employee (w : World) e :
  In e (employees (stored (db w))) ->
  Employee.email e = EmployeeCreate.email employee ->
  exists f w',
    create_employee employee w = (Failed f, w')
    /\ stored (db w') = stored (db w)
    /\ (f = IntegrityError "employees.email"
        \/ exists column, f = DataError column).
Proof.
  intros Hin Hemail. rewrite create_employee_eq. unfold flush_Employee.
  repeat (match goal with |- context [if too_long ?x ?n then _ else _] =>
            destruct (too_long x n) end;
          [eexists; eexists; split; [reflexivity|]; split;
           [reflexivity|right; eexists; reflexivity]|]).
  match goal with |- context [existsb ?f ?l] =>
    assert (E : existsb f l = true) end.
  { apply existsb_exists. exists e. split; [exact Hin|].
    apply String.eqb_eq. exact Hemail. }
  rewrite E. eexists. eexists. split; [reflexivity|].
  split; [reflexivity|left; reflexivity].
Qed.

(** No employee has the key asked for: the answer is HTTP 404, and the
    session is left as it was. *)
Theorem unknown_employee_is_not_found employee_id (w : World) :
  (forall e, In e (employees (working (db w))) ->
             Employee.id e <> employee_id) ->
  get_employee_with_relations employee_id w
  = (Failed (HTTPFault 404 "Employee not found"), w).
Proof.
  intros H. unfold get_employee_with_relations.
  rewrite find_no_key by exact H. reflexivity.
Qed.

Lemma refused_for_its_projects (w : World) e a :
  In e (employees (working (db w))) ->
  In a (project_employees (working (db w))) ->
  ProjectEmployee.employee_id a = Employee.id e ->
  exists fields,
    get_employee_with_relations (Employee.id e) w
    = (Failed (ResponseValidationError fields), w)
    /\ In "start_date"%string fields.
Proof.
  intros He Ha Hid. unfold get_employee_with_relations.
  destruct (@find_some_key _ Employee.id _ _ e He eq_refl)
    as (e' & -> & Hk & _).
  assert (Hin : In "start_date"%string
                  (EmployeeWithRelations_errors (working (db w)) e')).
  { unfold EmployeeWithRelations_errors.
    apply in_or_app. right. apply in_or_app. right. apply in_or_app. left.
    apply in_concat. exists (ProjectResponse_of_ProjectEmployee a).
    split; [|simpl; auto].
    apply in_map. unfold Employee_projects. apply filter_In.
    split; [exact Ha|]. apply Z.eqb_eq. rewrite Hk. exact Hid. }
  destruct (EmployeeWithRelations_errors (working (db w)) e') as [|f fs];
    [destruct Hin|].
  exists (f :: fs). split; [reflexivity|exact Hin].
Qed.

(** An employee that a row of [project_employees] names cannot be read:
    the [projects] of the response are read from rows that have none of the
    fields of a [ProjectResponse], and the response is refused. *)
Theorem assigned_employee_cannot_be_read (w : World) e a :
  In e (employees (working (db w))) ->
  In a (project_employees (working (db w))) ->
  ProjectEmployee.employee_id a = Employee.id e ->
  exists fields,
    get_employee_with_relations (Employee.id e) w
    = (Failed (ResponseValidationError fields), w)
    /\ In "start_date"%string fields.
Proof. apply refused_for_its_projects. Qed.


(* ================================================================== *)
(** ** POST /projects and POST /salaries *)

Lemma ProjectCreate_is_body name description start_date end_date budget status
    dept :
  ProjectCreate name description start_date end_date budget status dept
  = ProjectCreate_body name (Some description) start_date (Some end_date)
      budget status dept.
Proof. reflexivity. Qed.





End RouterProperties.

(* ================================================================== *)
(** * Reading what a request has generated *)

Section GeneratedAndRead.

Context {G : Type} {RT : Runtime G} {RL : RuntimeLaws RT}.

Local Abbreviation World := (World G).

(** Every row of a generated store passes its response model. *)
Lemma generated_rows_pass d e p s (w : World) response w' :
  generate_mock_data d e p s w = (Ok response, w') ->
  (forall x, In x (departments (stored (db w'))) -> DepartmentResponse x = [])
  /\ (forall x, In x (employees (stored (db w'))) -> EmployeeResponse x = [])
  /\ (forall x, In x (projects (stored (db w'))) -> ProjectResponse x = [])
  /\ (forall x, In x (salaries (stored (db w'))) -> SalaryResponse x = []).
Proof.
  intros H.
  pose proof (@generate_mock_data_stages _ _ _ _ _ _ _ _ _ _ H)
    as (depts & w1 & emps & w2 & projs & w3 & E1 & E2 & E3 & D1 & D2 & D3).
  apply generate_departments_rows in E1. rewrite <- D1 in E1.
  apply generate_employees_rows in E2. rewrite <- D2 in E2.
  apply generate_projects_rows in E3. rewrite <- D3 in E3.
  rewrite Forall_forall in E1, E2, E3.
  apply generate_mock_data_ok in H as (t & Hdb & Hgen & _).
  unfold settled in Hdb. rewrite Hdb in *. simpl in *.
  destruct Hgen as ((_ & (order & _ & Hnames) & _) & _ & _ & _ & M5).
  split; [|split; [|split]].
  - intros x Hx. destruct (E1 _ Hx) as (Hb & _ & Hc & He).
    unfold DepartmentResponse. rewrite Hb, Hc.
    apply Z.leb_le in He. rewrite He.
    apply (in_map Department.name) in Hx. rewrite Hnames in Hx.
    apply in_map_iff in Hx as (n & <- & _).
    rewrite DepartmentName_round_trip. reflexivity.
  - intros x Hx.
    destruct (E2 _ Hx) as ((A1 & B1) & (A2 & B2) & He & Hp & _ & Hh & _).
    unfold EmployeeResponse, validate_hire_date.
    apply Nat.leb_le in A1, B1, A2, B2. rewrite A1, B1, A2, B2, He, Hp.
    assert (Eh : (today <? Employee.hire_date x) = false)
      by (apply Z.ltb_ge; exact Hh).
    rewrite Eh. reflexivity.
  - intros x Hx.
    destruct (E3 _ Hx)
      as (_ & (v & Hv & Hend) & Hb & _ & Hn & (text & Ht & Hl)).
    unfold ProjectResponse, validate_end_date. rewrite Hv, Ht, Hb.
    apply Nat.leb_le in Hn, Hl. rewrite Hn, Hl.
    assert (Ev : (v <? Project.start_date x) = false)
      by (apply Z.ltb_ge; lia).
    rewrite Ev. reflexivity.
  - intros x Hx.
    destruct (@owner_employee _ _ _ _ _ _ M5 Hx)
      as (emp & base & _ & (_ & _ & Ha & Ht & Hb & _)).
    unfold SalaryResponse. rewrite Ha, Ht, Hb. reflexivity.
Qed.

(** After a successful generation request the four list routes answer
    exactly the rows of their tables: every generated row passes the
    response model of its route, and the routes leave the session as it
    is. *)
Theorem generated_rows_are_listed d e p s (w : World) response w' :
  generate_mock_data d e p s w = (Ok response, w') ->
  read_departments w' = (Sent (departments (stored (db w'))), w')
  /\ read_employees w' = (Sent (employees (stored (db w'))), w')
  /\ read_projects w' = (Sent (projects (stored (db w'))), w')
  /\ read_salaries w' = (Sent (salaries (stored (db w'))), w').
Proof.
  intros H.
  destruct (generated_rows_pass _ _ _ _ _ H) as (V1 & V2 & V3 & V4).
  apply generate_mock_data_ok in H as (t & Hdb & _).
  unfold settled in Hdb.
  unfold read_departments, read_employees, read_projects, read_salaries,
    and_then, query_all.
  rewrite Hdb in *. cbn [stored working] in *.
  rewrite !concat_map_nil by assumption.
  repeat split.
Qed.

(** After a successful generation request for at least one department and
    at least one project per department, some employee of the store cannot
    be read through [GET /employees/{employee_id}]: the employees the
    projects are staffed with are refused by the response model. *)
Theorem generated_staff_cannot_be_read d e p s (w : World) response w' :
  1 <= d -> 1 <= p ->
  generate_mock_data d e p s w = (Ok response, w') ->
  exists emp fields,
    In emp (employees (stored (db w')))
    /\ get_employee_with_relations (Employee.id emp) w'
       = (Failed (ResponseValidationError fields), w').
Proof.
  intros Hd Hp H.
  apply generate_mock_data_ok in H as (t & Hdb & Hgen & _).
  unfold settled in Hdb.
  destruct Hgen as (M1 & _ & [(pgroups & Hprojs & HpF) _] & M4 & _).
  apply departments_made_length in M1.
  destruct HpF as [|dept group depts pgroups' [Hl _] HpF];
    [simpl in M1; lia|].
  destruct group as [|project group]; [simpl in Hl; lia|].
  destruct M4 as (agroups & Hrows & HaF).
  rewrite Hprojs in HaF. simpl in HaF.
  inversion HaF as [|? rows ? agroups' Hassigned HaF' E1 E2]; subst agroups.
  destruct Hassigned as (assignees & Hlen & Hfrom & _ & Hof).
  destruct Hof as [|emp a assignees rows (Hid & _) Hof];
    [unfold len in Hlen; simpl in Hlen; lia|].
  destruct (Hfrom emp (or_introl eq_refl)) as [Hemp _].
  destruct (@refused_for_its_projects G RT w' emp a) as (fields & E & _).
  - rewrite Hdb. exact Hemp.
  - rewrite Hdb. cbn [working]. rewrite Hrows. simpl. left. reflexivity.
  - exact Hid.
  - exists emp, fields. split; [rewrite Hdb; exact Hemp|exact E].
Qed.

End GeneratedAndRead.

(* ================================================================== *)
(** * The analytics summary *)

Section AnalyticsProperties.

Context {G : Type} {RT : Runtime G} {RP : Reporting}.

(** A call with the arguments the definition names runs the body; the call
    that passes [horizontal] does not reach it. *)
Lemma call_generate_pie_chart {A} (body : Reply A) :
  call "generate_pie_chart" ["labels"; "sizes"; "title"]%string 3 [] body
  = body.
Proof. reflexivity. Qed.

Lemma call_generate_bar_chart {A} (body : Reply A) :
  call "generate_bar_chart" ["labels"; "values"; "title"; "ylabel"]%string 4 []
    body
  = body.
Proof. reflexivity. Qed.

Lemma call_horizontal {A} (body : Reply A) :
  call "generate_bar_chart" ["labels"; "values"; "title"; "ylabel"]%string 4
    ["horizontal"]%string body
  = Failed (TypeError (UnexpectedKeyword "generate_bar_chart" "horizontal")).
Proof. reflexivity. Qed.

Ltac next_step :=
  match goal with
  | |- exists f, then_ (call _ _ _ [_] _) _ = Failed f =>
      rewrite call_horizontal; eexists; reflexivity
  | |- exists f, then_ ?m _ = Failed f =>
      destruct m as [?|?]; [cbn [then_]|eexists; reflexivity]
  end.

(** [GET /analytics/visual-summary] never answers with a summary: whatever
    the store holds, and whatever the database and matplotlib do, the
    request ends in HTTP 500. *)
Theorem analytics_never_answers (db : Session) :
  exists cause,
    get_visual_analytics_summary db
    = Failed (HTTPFaultFrom 500 "Analytics generation failed: " cause).
Proof.
  unfold get_visual_analytics_summary.
  match goal with |- exists c, try_raise ?m _ = _ =>
    assert (H : exists f, m = Failed f) end.
  { repeat next_step. }
  destruct H as (f & ->). exists f. reflexivity.
Qed.

(** When the five queries are answered, the salary statistics are numbers
    and the first three charts are drawn, the request fails at the budget
    chart: [generate_bar_chart] is called with the keyword [horizontal],
    which it does not take. *)
Theorem analytics_fails_at_the_budget_chart (db : Session) dept_counts row
    average minimum maximum project_status hire_trend budget_allocation
    dept_chart salary_chart project_chart :
  dept_counts_query (working db) = Sent dept_counts ->
  salary_stats_query (working db) = Sent (Some row) ->
  SalaryStats.avg row = Some average ->
  SalaryStats.min row = Some minimum ->
  SalaryStats.max row = Some maximum ->
  project_status_query (working db) = Sent project_status ->
  hire_trend_query (today - 90) (working db) = Sent hire_trend ->
  budget_allocation_query (working db) = Sent budget_allocation ->
  generate_pie_chart (map fst dept_counts) (map snd dept_counts)
    "Employee Distribution by Department" = Sent dept_chart ->
  generate_bar_chart ["Average"; "Minimum"; "Maximum"; "Std Dev"]%string
    [average; minimum; maximum; float_or_0 (SalaryStats.stddev row)]
    "Salary Statistics" "USD" = Sent salary_chart ->
  generate_pie_chart (map fst project_status) (map snd project_status)
    "Project Status Distribution" = Sent project_chart ->
  get_visual_analytics_summary db
  = Failed (HTTPFaultFrom 500 "Analytics generation failed: "
              (TypeError (UnexpectedKeyword "generate_bar_chart" "horizontal"))).
Proof.
  intros Q1 Q2 Havg Hmin Hmax Q3 Q4 Q5 C1 C2 C3.
  unfold get_visual_analytics_summary.
  rewrite Q1, Q2, Q3, Q4, Q5. cbn [then_].
  rewrite call_generate_pie_chart, C1. cbn [then_].
  unfold salary_numbers at 1. cbn [stats_of then_].
  rewrite Havg, Hmin, Hmax. cbn [float_ then_].
  rewrite call_generate_bar_chart, C2. cbn [then_].
  rewrite call_generate_pie_chart, C3. cbn [then_].
  rewrite call_horizontal. reflexivity.
Qed.

End AnalyticsProperties.

(* ================================================================== *)
(** * The example requests, checked *)

#[local] Existing Instance example_runtime.

(** The tape is a lawful runtime. *)

Lemma tape_randbelow_range n t :
  0 < n -> 0 <= fst (tape_randbelow n t) < n.
Proof.
  intros Hn. unfold tape_randbelow.
  destruct t as [|z r]; simpl.
  - lia.
  - apply Z.mod_pos_bound; exact Hn.
Qed.

Lemma len_range start stop : start <= stop -> len (range start stop) = stop - start.
Proof.
  intros H. unfold len, range. rewrite length_map, length_seq. lia.
Qed.

Lemma in_range start stop i : In i (range start stop) <-> start <= i < stop.
Proof.
  unfold range. rewrite in_map_iff. split.
  - intros (j & <- & Hj). apply in_seq in Hj. lia.
  - intros H. exists (Z.to_nat (i - start)). split; [lia|].
    apply in_seq. lia.
Qed.

Lemma NoDup_range start stop : NoDup (range start stop).
Proof.
  unfold range. apply NoDup_map_NoDup_ForallPairs.
  - intros x y _ _ H. lia.
  - apply seq_NoDup.
Qed.

Lemma mod_once n x :
  0 < n -> 0 <= x < 2 * n -> x mod n = x \/ x mod n = x - n.
Proof.
  intros Hn Hx. destruct (Z_lt_le_dec x n).
  - left. apply Z.mod_small. lia.
  - right. replace x with ((x - n) + 1 * n) at 1 by lia.
    rewrite Z_mod_plus_full. apply Z.mod_small. lia.
Qed.

Lemma tape_sample_indices_spec n k t :
  0 <= k <= n ->
  len (fst (tape_sample_indices n k t)) = k
  /\ NoDup (fst (tape_sample_indices n k t))
  /\ Forall (fun j => 0 <= j < n) (fst (tape_sample_indices n k t)).
Proof.
  intros Hk. unfold tape_sample_indices.
  destruct (tape_randbelow n t) as [start t'] eqn:E. simpl.
  split; [|split].
  - unfold len. rewrite length_map. fold (len (range 0 k)).
    rewrite len_range; lia.
  - destruct (Z.eq_dec k 0) as [->|Hk0]; [constructor|].
    assert (Hs : 0 <= start < n).
    { replace start with (fst (tape_randbelow n t)) by (rewrite E; reflexivity).
      apply tape_randbelow_range. lia. }
    apply NoDup_map_NoDup_ForallPairs; [|apply NoDup_range].
    intros i j Hi Hj Heq. apply in_range in Hi, Hj.
    destruct (@mod_once n (start + i)); try lia;
      destruct (@mod_once n (start + j)); lia.
  - apply Forall_forall. intros j Hj. apply in_map_iff in Hj.
    destruct Hj as (i & <- & Hi). apply in_range in Hi.
    apply Z.mod_pos_bound. lia.
Qed.

Lemma on_day_lawful d : RuntimeLaws (on_day d).
Proof.
  constructor.
  - exact tape_randbelow_range.
  - exact tape_sample_indices_spec.
Qed.

Lemma example_lawful : RuntimeLaws example_runtime.
Proof. apply on_day_lawful. Qed.

Lemma generated_eq :
  generate_mock_data 2 3 1 2 empty_store = (Ok generated_response, snd generated).
Proof. vm_compute. reflexivity. Qed.

Lemma failed_eq :
  generate_mock_data 1 1 1 3 old_store
  = (Raise (HTTPException 500 (ValueError "empty range for randrange()")),
     snd failed).
Proof. vm_compute. reflexivity. Qed.

(** C1, refuted as stated: the request with one employee per department
    fails in the assignment stage, and the store is not what it was before:
    the old department and employee are gone, and the department, the
    employee and the project of the failed request are persisted. *)
Lemma failed_request_is_not_undone :
  fst (generate_mock_data 1 1 1 3 old_store)
  = Raise (HTTPException 500 (ValueError "empty range for randrange()"))
  /\ stored (db (snd (generate_mock_data 1 1 1 3 old_store)))
     <> stored (db old_store)
  /\ map Department.name
       (departments (stored (db (snd (generate_mock_data 1 1 1 3 old_store)))))
     = ["Finance"%string]
  /\ map Employee.id
       (employees (stored (db (snd (generate_mock_data 1 1 1 3 old_store)))))
     = [1]
  /\ map Project.id
       (projects (stored (db (snd (generate_mock_data 1 1 1 3 old_store)))))
     = [1].
Proof.
  rewrite failed_eq. simpl fst. simpl snd.
  split; [reflexivity|]. split.
  - intros H. apply (f_equal (fun t => List.length (projects t))) in H.
    vm_compute in H. discriminate.
  - repeat split; vm_compute; reflexivity.
Qed.

Lemma failure_keeps_completed_stages_witness :
  exists x stage,
    HTTPException 500 (ValueError "empty range for randrange()")
    = HTTPException 500 x
    /\ settled (stored (db (snd failed))) (snd failed)
    /\ raised_in stage 1 1 1 3 old_store x (stored (db (snd failed)))
    /\ left_before stage 1 1 1 3 (stored (db (snd failed))).
Proof.
  exact (@failure_keeps_completed_stages Tape example_runtime example_lawful 1 1 1 3
           old_store _ _ failed_eq).
Defined.

Lemma generated_counts_witness :
  (0 <= 2 /\ 0 <= 3 /\ 0 <= 1 /\ 0 <= 2)
  /\ len (departments (stored (db (snd generated)))) = 2
  /\ len (employees (stored (db (snd generated)))) = 2 * 3
  /\ len (projects (stored (db (snd generated)))) = 2 * 1
  /\ len (salaries (stored (db (snd generated)))) = 2 * 3 * 2
  /\ stats generated_response = mkStats 2 (2 * 3) (2 * 1) (2 * 3 * 2).
Proof.
  split; [lia|].
  apply (@generated_counts Tape example_runtime example_lawful 2 3 1 2 empty_store
           generated_response (snd generated)); try lia.
  exact generated_eq.
Defined.

Lemma too_few_employees_raise_witness :
  (1 <= 1 /\ 1 <= 1 /\ 1 < 2)
  /\ exists x w',
       generate_mock_data 1 1 1 3 old_store
       = (Raise (HTTPException 500 x), w')
       /\ project_employees (stored (db w')) = []
       /\ project_employees (working (db w')) = [].
Proof.
  split; [lia|].
  apply (@too_few_employees_raise Tape example_runtime example_lawful 1 1 1 3 old_store);
    lia.
Defined.

Lemma an_employee_in : In an_employee (employees (stored (db (snd generated)))).
Proof. left. reflexivity. Qed.

Lemma an_assignment_in :
  In an_assignment (project_employees (stored (db (snd generated)))).
Proof. left. reflexivity. Qed.

Lemma a_salary_in : In a_salary (salaries (stored (db (snd generated)))).
Proof. left. reflexivity. Qed.

Lemma hire_date_within_department_lifetime_witness :
  In an_employee (employees (stored (db (snd generated))))
  /\ (exists dept,
         In dept (departments (stored (db (snd generated))))
         /\ Employee.department_id an_employee = Some (Department.id dept))
  /\ (forall dept,
         In dept (departments (stored (db (snd generated)))) ->
         Employee.department_id an_employee = Some (Department.id dept) ->
         Department.established_date dept <= Employee.hire_date an_employee
         <= 739923).
Proof.
  split; [exact an_employee_in|].
  exact (@hire_date_within_department_lifetime Tape example_runtime example_lawful 2 3 1 2
           empty_store generated_response (snd generated) an_employee
           generated_eq an_employee_in).
Defined.

Lemma assignment_within_department_witness :
  In an_assignment (project_employees (stored (db (snd generated))))
  /\ (exists emp project,
         In emp (employees (stored (db (snd generated))))
         /\ In project (projects (stored (db (snd generated))))
         /\ ProjectEmployee.employee_id an_assignment = Employee.id emp
         /\ ProjectEmployee.project_id an_assignment = Project.id project)
  /\ (forall emp project,
         In emp (employees (stored (db (snd generated)))) ->
         In project (projects (stored (db (snd generated)))) ->
         ProjectEmployee.employee_id an_assignment = Employee.id emp ->
         ProjectEmployee.project_id an_assignment = Project.id project ->
         Employee.department_id emp = Some (Project.department_id project)).
Proof.
  split; [exact an_assignment_in|].
  exact (@assignment_within_department Tape example_runtime example_lawful 2 3 1 2
           empty_store generated_response (snd generated) an_assignment
           generated_eq an_assignment_in).
Defined.

Lemma salary_after_hire_and_positive_witness :
  In a_salary (salaries (stored (db (snd generated))))
  /\ (0 <? Salary.amount a_salary)%float = true
  /\ (0 <=? Salary.tax_deduction a_salary)%float = true
  /\ (0 <=? Salary.bonus a_salary)%float = true
  /\ (exists emp,
         In emp (employees (stored (db (snd generated))))
         /\ Salary.employee_id a_salary = Employee.id emp)
  /\ (forall emp,
         In emp (employees (stored (db (snd generated)))) ->
         Salary.employee_id a_salary = Employee.id emp ->
         Employee.hire_date emp <= Salary.payment_date a_salary).
Proof.
  split; [exact a_salary_in|].
  exact (@salary_after_hire_and_positive Tape example_runtime example_lawful 2 3 1 2
           empty_store generated_response (snd generated) a_salary
           generated_eq a_salary_in).
Defined.


Lemma regenerated_eq :
  generate_mock_data 1 2 1 1 (snd generated)
  = (Ok regenerated_response, snd regenerated).
Proof. vm_compute. reflexivity. Qed.

Lemma second_request_replaces_first_witness :
  (0 <= 1 /\ 0 <= 2 /\ 0 <= 1 /\ 0 <= 1)
  /\ generate_mock_data 1 2 1 1
       (mkWorld (mkSession no_rows no_rows) (entropy (snd generated)))
     = (Ok regenerated_response, snd regenerated)
  /\ generated_store 1 2 1 1 (stored (db (snd regenerated)))
  /\ len (departments (stored (db (snd regenerated)))) = 1
  /\ len (employees (stored (db (snd regenerated)))) = 1 * 2
  /\ len (projects (stored (db (snd regenerated)))) = 1 * 1
  /\ len (salaries (stored (db (snd regenerated)))) = 1 * 2 * 1.
Proof.
  split; [lia|].
  apply (@second_request_replaces_first Tape example_runtime example_lawful 2 3 1 2 1 2 1 1
           empty_store generated_response (snd generated)
           regenerated_response (snd regenerated)); try lia.
  - exact generated_eq.
  - exact regenerated_eq.
Defined.

(** C4: a request for six departments, one more than the enum has names
    for; the comment of the second loop says such a request uses modified
    names.  The stage writes the five canonical departments, builds the
    sixth name from a member and a number, and [DepartmentCreate] refuses
    it: the request ends in HTTP 500 with that validation error, the five
    departments are rolled back, and the store is left with no department at
    all. *)
Theorem six_departments_are_refused :
  fst (generate_departments 6 5 (after_reset old_store))
  = Raise (ValidationError "DepartmentCreate" ["name"%string])
  /\ map Department.name
       (departments
          (working (db (snd (generate_departments 6 5
                               (after_reset old_store))))))
     = ["Finance"; "Marketing"; "Engineering"; "HR"; "Sales"]%string
  /\ fst (generate_mock_data 6 5 2 3 old_store)
     = Raise (HTTPException 500
                (ValidationError "DepartmentCreate" ["name"%string]))
  /\ db (snd (generate_mock_data 6 5 2 3 old_store))
     = mkSession no_rows no_rows.
Proof. repeat split; vm_compute; reflexivity. Qed.

(** The names of the generated store, and a request for six departments. *)
Lemma department_names_distinct_witness :
  NoDup (map Department.name
           (departments (stored (db (snd generated)))))
  /\ (exists order,
         Permutation all_DepartmentName order
         /\ map Department.name (departments (stored (db (snd generated))))
            = map DepartmentName_value (firstn (Z.to_nat 2) order))
  /\ (5 < 6 ->
      exists x,
        fst (generate_mock_data 6 5 2 3 old_store)
        = Raise (HTTPException 500 x)).
Proof.
  pose proof (@department_names_distinct Tape example_runtime example_lawful
                2 3 1 2 empty_store) as (_ & H2 & H3 & _ & _).
  pose proof (@department_names_distinct Tape example_runtime example_lawful
                6 5 2 3 old_store) as (_ & _ & _ & _ & H5).
  rewrite generated_eq in H2. split; [exact H2|].
  split; [exact (proj2 (H3 _ _ generated_eq))|exact H5].
Defined.

Lemma zero_departments_is_a_reset_witness :
  exists w',
    generate_mock_data 0 5 2 3 old_store
    = (Ok (mkResponse "Mock data generated successfully" (mkStats 0 0 0 0)),
       w')
    /\ db w' = mkSession no_rows no_rows.
Proof.
  exact (@zero_departments_is_a_reset Tape example_runtime example_lawful
           5 2 3 old_store).
Defined.

Lemma a_project_in : In a_project (projects (stored (db (snd generated)))).
Proof. left. reflexivity. Qed.

Lemma projects_are_staffed_witness :
  In a_project (projects (stored (db (snd generated))))
  /\ 2 <= len (filter (fun a => ProjectEmployee.project_id a
                               =? Project.id a_project)
                 (project_employees (stored (db (snd generated)))))
     <= Z.min 5 3.
Proof.
  split; [exact a_project_in|].
  exact (proj1 (@projects_are_staffed Tape example_runtime example_lawful
                  2 3 1 2 empty_store generated_response (snd generated)
                  a_project generated_eq a_project_in)).
Defined.

Lemma more_than_five_departments_fail_witness :
  5 < 6
  /\ exists x w',
       generate_mock_data 6 5 2 3 old_store
       = (Raise (HTTPException 500 x), w')
       /\ db w' = mkSession no_rows no_rows.
Proof.
  split; [lia|].
  apply (@more_than_five_departments_fail Tape example_runtime example_lawful
           6 5 2 3 old_store).
  lia.
Defined.

Lemma overdrawn_eq :
  generate_mock_data 1 2 1 (-1) empty_store
  = (Ok overdrawn_response, snd overdrawn).
Proof. vm_compute. reflexivity. Qed.

Lemma negative_salaries_are_reported_witness :
  -1 < 0
  /\ salaries (stored (db (snd overdrawn))) = []
  /\ stats_salaries (stats overdrawn_response)
     = len (employees (stored (db (snd overdrawn)))) * -1.
Proof.
  split; [lia|].
  apply (@negative_salaries_are_reported Tape example_runtime example_lawful
           1 2 1 (-1) empty_store overdrawn_response (snd overdrawn));
    [lia|exact overdrawn_eq].
Defined.

(* ------------------------------------------------------------------ *)
(** ** The rows of the generated store, checked *)

Lemma a_department_in :
  In a_department (departments (stored (db (snd generated)))).
Proof. left. reflexivity. Qed.

Lemma generated_foreign_keys_resolve_witness :
  foreign_keys_resolve (stored (db (snd generated))) = true
  /\ forall emp, In emp (employees (stored (db (snd generated)))) ->
       Employee.department_id emp <> None.
Proof.
  exact (@generated_foreign_keys_resolve Tape example_runtime example_lawful
           2 3 1 2 empty_store generated_response (snd generated)
           generated_eq).
Defined.

Lemma departments_are_filled_witness :
  0 <= 1
  /\ len (filter (employee_in a_department)
            (employees (stored (db (snd generated))))) = 3
  /\ Department.employee_count a_department = 3
  /\ len (filter (project_in a_department)
            (projects (stored (db (snd generated))))) = 1.
Proof.
  split; [lia|].
  apply (@departments_are_filled Tape example_runtime example_lawful
           2 3 1 2 empty_store generated_response (snd generated)
           a_department); [lia|exact generated_eq|exact a_department_in].
Defined.

Lemma assignments_join_within_a_month_witness :
  ProjectEmployee.project_id an_assignment = Project.id a_project
  /\ Project.start_date a_project <= ProjectEmployee.join_date an_assignment
     <= Project.start_date a_project + 30.
Proof.
  split; [reflexivity|].
  exact (@assignments_join_within_a_month Tape example_runtime example_lawful
           2 3 1 2 empty_store generated_response (snd generated)
           an_assignment a_project generated_eq an_assignment_in a_project_in
           eq_refl).
Defined.

Lemma generated_departments_are_valid_witness :
  (exists n, Department.name a_department = DepartmentName_value n)
  /\ (0 <? Department.budget a_department)%float = true
  /\ 739923 - 1827 <= Department.established_date a_department <= 739923
  /\ Department.employee_count a_department = 3
  /\ 0 <= 3.
Proof.
  exact (@generated_departments_are_valid Tape example_runtime example_lawful
           2 3 1 2 empty_store generated_response (snd generated)
           a_department generated_eq a_department_in).
Defined.

Lemma generated_employees_are_valid_witness : generated_employee an_employee.
Proof.
  exact (@generated_employees_are_valid Tape example_runtime example_lawful
           2 3 1 2 empty_store generated_response (snd generated)
           an_employee generated_eq an_employee_in).
Defined.

Lemma generated_projects_are_valid_witness : generated_project a_project.
Proof.
  exact (@generated_projects_are_valid Tape example_runtime example_lawful
           2 3 1 2 empty_store generated_response (snd generated)
           a_project generated_eq a_project_in).
Defined.

Lemma generate_phone_is_accepted_witness :
  exists phone w',
    generate_phone empty_store = (Ok phone, w')
    /\ phone_pattern phone = true
    /\ db w' = db empty_store.
Proof.
  exact (@generate_phone_is_accepted Tape example_runtime example_lawful
           empty_store).
Defined.

Lemma negative_employee_count_is_refused_witness :
  (1 <= 1 /\ -1 < 0)
  /\ exists fields w',
       generate_mock_data 1 (-1) 2 3 old_store
       = (Raise (HTTPException 500
                   (ValidationError "DepartmentCreate" fields)), w')
       /\ In "employee_count"%string fields
       /\ db w' = mkSession no_rows no_rows.
Proof.
  split; [lia|].
  apply (@negative_employee_count_is_refused Tape example_runtime
           example_lawful 1 (-1) 2 3 old_store); lia.
Defined.

Lemma negative_departments_is_a_reset_witness :
  -2 < 0
  /\ exists w',
       generate_mock_data (-2) 1 2 3 old_store
       = (Ok (mkResponse "Mock data generated successfully"
                (mkStats 0 0 0 0)), w')
       /\ db w' = mkSession no_rows no_rows.
Proof.
  split; [lia|].
  apply (@negative_departments_is_a_reset Tape example_runtime example_lawful
           (-2) 1 2 3 old_store); lia.
Defined.

Lemma generated_rows_are_listed_witness :
  read_departments (snd generated)
  = (Sent (departments (stored (db (snd generated)))), snd generated)
  /\ read_employees (snd generated)
     = (Sent (employees (stored (db (snd generated)))), snd generated)
  /\ read_projects (snd generated)
     = (Sent (projects (stored (db (snd generated)))), snd generated)
  /\ read_salaries (snd generated)
     = (Sent (salaries (stored (db (snd generated)))), snd generated).
Proof.
  exact (@generated_rows_are_listed Tape example_runtime example_lawful
           2 3 1 2 empty_store generated_response (snd generated)
           generated_eq).
Defined.

(* ------------------------------------------------------------------ *)
(** ** Requests to the routers, checked *)

Lemma create_department_refuses_used_name_witness :
  exists f w',
    @create_department Tape strict a_second_sales old_store = (Failed f, w')
    /\ stored (db w') = stored (db old_store)
    /\ (f = IntegrityError "departments.name"
        \/ exists column, f = DataError column).
Proof.
  apply (@create_department_refuses_used_name Tape strict a_second_sales
           old_store
           (Department.make 7 "Sales" "Fairview, OH" 250000 "Grace Hopper"
              739000 1)).
  - left. reflexivity.
  - reflexivity.
Defined.


Lemma departments_stay_at_most_five_witness :
  NoDup (map Department.name
           (departments
              (stored (db (snd (@create_department Tape strict
                                  a_new_department old_store))))))
  /\ len (departments
            (stored (db (snd (@create_department Tape strict
                                a_new_department old_store))))) <= 5.
Proof.
  destruct (@departments_stay_at_most_five Tape strict a_new_department
              old_rows old_store
              (fst (@create_department Tape strict a_new_department old_store))
              (snd (@create_department Tape strict a_new_department old_store)))
    as (H1 & _ & H3).
  - reflexivity.
  - simpl. constructor; [intros []|constructor].
  - simpl. constructor; [exists SALES; reflexivity|constructor].
  - apply surjective_pairing.
  - split; assumption.
Defined.

Lemma create_employee_refuses_used_email_witness :
  exists f w',
    @create_employee Tape example_runtime lenient a_second_edsger old_store
    = (Failed f, w')
    /\ stored (db w') = stored (db old_store)
    /\ (f = IntegrityError "employees.email"
        \/ exists column, f = DataError column).
Proof.
  apply (@create_employee_refuses_used_email Tape example_runtime lenient
           a_second_edsger old_store
           (Employee.make 3 "Edsger" "Dijkstra" "edsger@example.org"
              "+1-555-123-4567" 739100 "Sales Executive" (Some 7))).
  - left. reflexivity.
  - reflexivity.
Defined.

Lemma unknown_employee_is_not_found_witness :
  @get_employee_with_relations Tape example_runtime 99 old_store
  = (Failed (HTTPFault 404 "Employee not found"), old_store).
Proof.
  apply (@unknown_employee_is_not_found Tape example_runtime 99 old_store).
  intros e [<-|[]]. discriminate.
Defined.

Lemma an_assigned_employee_in :
  In an_assigned_employee (employees (working (db (snd generated)))).
Proof. right. left. reflexivity. Qed.

Lemma an_assignment_in_session :
  In an_assignment (project_employees (working (db (snd generated)))).
Proof. left. reflexivity. Qed.

Lemma assigned_employee_cannot_be_read_witness :
  exists fields,
    @get_employee_with_relations Tape example_runtime 2 (snd generated)
    = (Failed (ResponseValidationError fields), snd generated)
    /\ In "start_date"%string fields.
Proof.
  exact (@assigned_employee_cannot_be_read Tape example_runtime
           (snd generated) an_assigned_employee an_assignment
           an_assigned_employee_in an_assignment_in_session eq_refl).
Defined.




Lemma analytics_fails_at_the_budget_chart_witness :
  @get_visual_analytics_summary Tape example_runtime example_reporting
    (db (snd generated))
  = Failed (HTTPFaultFrom 500 "Analytics generation failed: "
              (TypeError (UnexpectedKeyword "generate_bar_chart" "horizontal"))).
Proof.
  eapply (@analytics_fails_at_the_budget_chart Tape example_runtime
            example_reporting (db (snd generated))); reflexivity.
Defined.

Lemma generated_staff_cannot_be_read_witness :
  (1 <= 2 /\ 1 <= 1)
  /\ exists emp fields,
       In emp (employees (stored (db (snd generated))))
       /\ @get_employee_with_relations Tape example_runtime (Employee.id emp)
            (snd generated)
          = (Failed (ResponseValidationError fields), snd generated).
Proof.
  split; [lia|].
  apply (@generated_staff_cannot_be_read Tape example_runtime example_lawful
           2 3 1 2 empty_store generated_response (snd generated));
    [lia|lia|exact generated_eq].
Defined.
